(** * SEO automation: intent classifier, quality scorer, cluster planner

    A shallow embedding of the three Python engines under
    [backend/modules]:

    - [topic_cluster_generator.py]  (pillar pages, cluster ideas, linking,
      JSON export),
    - [user_intent_analyzer.py]     (query intent classification),
    - [content_quality_checker.py]  (readability, E-E-A-T, SEO and
      completeness scores),

    followed by the properties proved about them.

    Conventions of the embedding.

    - A Python [str] is a Rocq [string]; a character is the code point
      it carries, so the texts covered are those over code points 0..255
      (Latin-1).  [str.lower], [\w], [\s], [\d] and [str.split] are
      written out for exactly that range.
    - A Python [int] is a [Z].  A Python [float] is the rational number
      it denotes; every float operation rounds its exact result to
      binary64 (53 significant bits, ties to even).
    - A [re] pattern is a term of [re], interpreted by a backtracking
      matcher with the priorities of Python's engine.
    - A raised exception is the [Raise] case of [py_result]. *)

From Stdlib Require Import ZArith QArith Qabs Lqa List String Ascii Bool Lia.
From Stdlib Require Import DecimalString DecimalFacts DecimalPos Qpower.
From stdpp Require Import gmap strings.
Import ListNotations.

#[global] Arguments String.append !_ _ / : simpl nomatch.

(* ================================================================== *)
(** * Characters and strings as Python sees them *)
(* ================================================================== *)

Module PyStr.

Definition code (c : ascii) : N := N_of_ascii c.

Definition in_range (lo hi : N) (c : ascii) : bool :=
  (lo <=? code c)%N && (code c <=? hi)%N.

(** Code points that [str.lower] changes: A-Z, À-Ö and Ø-Þ move up by 32. *)
Definition is_upper (c : ascii) : bool :=
  in_range 65 90 c || in_range 192 214 c || in_range 216 222 c.

Definition lower_char (c : ascii) : ascii :=
  if is_upper c then ascii_of_N (code c + 32) else c.

(** [s.lower()] *)
Fixpoint lower (s : string) : string :=
  match s with
  | EmptyString => EmptyString
  | String c s' => String (lower_char c) (lower s')
  end.

(** Whitespace of [str.strip], [str.split] and [\s]:
    TAB LF VT FF CR, FS GS RS US, space, NEL and NBSP. *)
Definition is_space (c : ascii) : bool :=
  in_range 9 13 c || in_range 28 32 c || (code c =? 133)%N || (code c =? 160)%N.

(** [\d] *)
Definition is_digit (c : ascii) : bool := in_range 48 57 c.

(** [[a-zA-Z]] *)
Definition is_ascii_alpha (c : ascii) : bool :=
  in_range 65 90 c || in_range 97 122 c.

(** [\w]: the alphanumeric code points and the underscore. *)
Definition is_word (c : ascii) : bool :=
  is_digit c || is_ascii_alpha c || (code c =? 95)%N
  || (code c =? 170)%N || (code c =? 178)%N || (code c =? 179)%N
  || (code c =? 181)%N || (code c =? 185)%N || (code c =? 186)%N
  || in_range 188 190 c || in_range 192 214 c || in_range 216 246 c
  || in_range 248 255 c.

(** [s.replace(a, b)] for single characters [a] and [b]. *)
Fixpoint replace_char (a b : ascii) (s : string) : string :=
  match s with
  | EmptyString => EmptyString
  | String c s' => String (if Ascii.eqb c a then b else c) (replace_char a b s')
  end.

(** [s.startswith(p)] *)
Definition startswith (p s : string) : bool := String.prefix p s.

(** [s.endswith(c)] for a single character [c]. *)
Fixpoint endswith_char (c : ascii) (s : string) : bool :=
  match s with
  | EmptyString => false
  | String d EmptyString => Ascii.eqb d c
  | String _ s' => endswith_char c s'
  end.

(** [sub in s] *)
Fixpoint contains (sub s : string) : bool :=
  String.prefix sub s ||
  match s with
  | EmptyString => false
  | String _ s' => contains sub s'
  end.

(** [c in s] for a character [c] *)
Fixpoint mem_char (c : ascii) (s : string) : bool :=
  match s with
  | EmptyString => false
  | String d s' => Ascii.eqb d c || mem_char c s'
  end.

(** [s.count(sub)] for a non-empty [sub]: occurrences found from left to
    right without overlap.  [skip] counts the characters of the last
    occurrence that are still to be passed. *)
Fixpoint count_from (sub : string) (skip : nat) (s : string) : nat :=
  match s with
  | EmptyString => 0
  | String _ s' =>
      match skip with
      | S k => count_from sub k s'
      | O =>
          if String.prefix sub s
          then S (count_from sub (String.length sub - 1) s')
          else count_from sub 0 s'
      end
  end.

Definition count (sub s : string) : nat :=
  if String.eqb sub "" then S (String.length s) else count_from sub 0 s.

(** [s.split(sep)] for a non-empty [sep]; the result is never empty. *)
Fixpoint split_from (sep : string) (skip : nat) (s : string) : list string :=
  match s with
  | EmptyString => [EmptyString]
  | String c s' =>
      match skip with
      | S k => split_from sep k s'
      | O =>
          if String.prefix sep s
          then EmptyString :: split_from sep (String.length sep - 1) s'
          else match split_from sep 0 s' with
               | piece :: pieces => String c piece :: pieces
               | [] => [String c EmptyString]
               end
      end
  end.

Definition split_sep (sep s : string) : list string := split_from sep 0 s.

(** [s.split()]: the maximal runs of non-whitespace characters.
    [split_run s] is the run that starts at the head of [s] (empty when
    [s] starts with whitespace) and the words after that run. *)
Definition push_word (w : string) (ws : list string) : list string :=
  match w with
  | EmptyString => ws
  | _ => w :: ws
  end.

Fixpoint split_run (s : string) : string * list string :=
  match s with
  | EmptyString => (EmptyString, [])
  | String c s' =>
      let (w, ws) := split_run s' in
      if is_space c then (EmptyString, push_word w ws) else (String c w, ws)
  end.

Definition split (s : string) : list string :=
  let (w, ws) := split_run s in push_word w ws.

(** [s.lstrip()], [s.rstrip()] and [s.strip()] *)
Fixpoint lstrip (s : string) : string :=
  match s with
  | EmptyString => EmptyString
  | String c s' => if is_space c then lstrip s' else s
  end.

Fixpoint rstrip (s : string) : string :=
  match s with
  | EmptyString => EmptyString
  | String c s' =>
      match rstrip s' with
      | EmptyString => if is_space c then EmptyString else String c EmptyString
      | r => String c r
      end
  end.

Definition strip (s : string) : string := rstrip (lstrip s).

(** [s.strip(chars)] *)
Fixpoint lstrip_chars (chars s : string) : string :=
  match s with
  | EmptyString => EmptyString
  | String c s' => if mem_char c chars then lstrip_chars chars s' else s
  end.

Fixpoint rstrip_chars (chars s : string) : string :=
  match s with
  | EmptyString => EmptyString
  | String c s' =>
      match rstrip_chars chars s' with
      | EmptyString => if mem_char c chars then EmptyString else String c EmptyString
      | r => String c r
      end
  end.

Definition strip_chars (chars s : string) : string :=
  rstrip_chars chars (lstrip_chars chars s).

(** [s[:n]] *)
Definition prefix_to (n : nat) (s : string) : string := String.substring 0 n s.

(** [l[:stop]] for a Python integer [stop]; a negative [stop] counts
    from the end of the list. *)
Definition slice_to {A} (l : list A) (stop : Z) : list A :=
  if (stop <? 0)%Z
  then take (Z.to_nat (Z.of_nat (length l) + stop)) l
  else take (Z.to_nat stop) l.

(** [l[lo:hi]] for natural [lo <= hi]. *)
Definition slice {A} (l : list A) (lo hi : nat) : list A :=
  take (hi - lo) (drop lo l).

(** [enumerate(l)] *)
Definition enumerate {A} (l : list A) : list (nat * A) :=
  zip (seq 0 (length l)) l.

(** [max(l, key=key)]: the first element whose key is maximal. *)
Definition max_by {A} (key : A -> Z) (l : list A) : option A :=
  match l with
  | [] => None
  | x :: l' =>
      Some (fold_left (fun best y => if (key best <? key y)%Z then y else best) l' x)
  end.

End PyStr.

(* ================================================================== *)
(** * Exceptions *)
(* ================================================================== *)

Inductive exn : Type :=
| ZeroDivisionError
| ValueError
| OverflowError
| AttributeError.

Inductive py_result (A : Type) : Type :=
| Ok (a : A)
| Raise (e : exn).

Arguments Ok {A} a.
Arguments Raise {A} e.

Definition bind {A B} (r : py_result A) (k : A -> py_result B) : py_result B :=
  match r with
  | Ok a => k a
  | Raise e => Raise e
  end.

(** [[f(x) for x in l]] where [f] may raise: the first exception ends the
    comprehension. *)
Fixpoint map_result {A B} (f : A -> py_result B) (l : list A) : py_result (list B) :=
  match l with
  | [] => Ok []
  | x :: l' => bind (f x) (fun y => bind (map_result f l') (fun ys => Ok (y :: ys)))
  end.

(* ================================================================== *)
(** * Python floats *)
(* ================================================================== *)

(** A float is the rational it denotes.  [rnd] rounds a rational to the
    nearest number with 53 significant bits, ties to even.  The scores
    and the ratios of counts of a text stay far inside the exponent range
    of binary64, which the operations on floats do not model.  The
    division of two integers is applied to word counts of any size, and
    [truediv] raises [OverflowError] where Python does; the properties
    of the coverage analysis bound the word counts they speak of. *)
Module F64.

Definition pow2 (e : Z) : Q :=
  if (0 <=? e)%Z then inject_Z (2 ^ e) else 1 # Z.to_pos (2 ^ (- e)).

(** Rounding to the nearest integer, ties to the even one. *)
Definition round_half_even (x : Q) : Z :=
  let n := Qnum x in
  let d := Z.pos (Qden x) in
  let f := (n / d)%Z in
  let r2 := (2 * (n - f * d))%Z in
  if (r2 <? d)%Z then f
  else if (d <? r2)%Z then (f + 1)%Z
  else if Z.even f then f else (f + 1)%Z.

(** [floor (log2 x)] for [x > 0]. *)
Definition ilog2 (x : Q) : Z :=
  let e := (Z.log2 (Qnum x) - Z.log2 (Z.pos (Qden x)))%Z in
  if Qle_bool (pow2 e) x then e else (e - 1)%Z.

Definition rnd_pos (x : Q) : Q :=
  let e := (ilog2 x - 52)%Z in
  Qred (inject_Z (round_half_even (x / pow2 e)) * pow2 e).

Definition rnd (x : Q) : Q :=
  match Qnum x with
  | Z0 => 0
  | Zpos _ => rnd_pos x
  | Zneg _ => Qred (- rnd_pos (- x))
  end.

(** A decimal literal such as [206.835] denotes the nearest float. *)
Definition lit (x : Q) : Q := rnd x.

(** [float(n)] *)
Definition of_int (n : Z) : Q := rnd (inject_Z n).

Definition add (x y : Q) : Q := rnd (x + y).
Definition sub (x y : Q) : Q := rnd (x - y).
Definition mul (x y : Q) : Q := rnd (x * y).

(** [a / b] for integers [a] and [b <> 0]: the quotient correctly rounded. *)
Definition div_int (a b : Z) : Q := rnd (inject_Z a / inject_Z b).

(** A quotient of integers that rounds to [2^1024] or beyond in
    magnitude is too large for a float. *)
Definition overflows (x : Q) : bool :=
  Qle_bool (inject_Z (2 ^ 1024)) (Qabs x).

(** [a / b] for integers, as Python evaluates it: the correctly rounded
    quotient, [ZeroDivisionError] for [b = 0] and [OverflowError] for a
    quotient too large for a float. *)
Definition truediv (a b : Z) : py_result Q :=
  if (b =? 0)%Z then Raise ZeroDivisionError
  else
    let quotient := div_int a b in
    if overflows quotient then Raise OverflowError else Ok quotient.

(** [round(x, ndigits)] for a float [x] and [ndigits >= 0]: the nearest
    decimal with [ndigits] places, ties on the exact value of [x] going to
    the even one, read back as a float. *)
Definition round (x : Q) (ndigits : nat) : Q :=
  let p := inject_Z (10 ^ Z.of_nat ndigits) in
  rnd (inject_Z (round_half_even (x * p)) / p).

Definition ltb (x y : Q) : bool := negb (Qle_bool y x).
Definition leb (x y : Q) : bool := Qle_bool x y.

(** [max(a, b)] and [min(a, b)] return the first argument unless the
    second is strictly beyond it. *)
Definition max (a b : Q) : Q := if ltb a b then b else a.
Definition min (a b : Q) : Q := if ltb b a then b else a.

End F64.

(* ================================================================== *)
(** * Python numbers: [int] or [float] *)
(* ================================================================== *)

(** A variable that holds an integer on some paths and a float on
    others.  Adding two integers is exact; any other sum is a float
    sum.  [round(a, ndigits)] leaves an integer as it is for
    [ndigits >= 0]. *)
Module PyNum.

Inductive num : Type :=
| Int (n : Z)
| Float (x : Q).

Definition to_float (a : num) : Q :=
  match a with
  | Int n => F64.of_int n
  | Float x => x
  end.

Definition add (a b : num) : num :=
  match a, b with
  | Int m, Int n => Int (m + n)
  | _, _ => Float (F64.add (to_float a) (to_float b))
  end.

Definition round (a : num) (ndigits : nat) : num :=
  match a with
  | Int n => Int n
  | Float x => Float (F64.round x ndigits)
  end.

(** The rational a number denotes. *)
Definition value (a : num) : Q :=
  match a with
  | Int n => inject_Z n
  | Float x => x
  end.

End PyNum.

(* ================================================================== *)
(** * Regular expressions *)
(* ================================================================== *)

(** The fragment of [re] that the program uses.  Repetition is only
    applied to character classes, as in all its patterns.  Groups are
    left out: the program only tests for a match or counts matches. *)
Module Re.

Inductive re : Type :=
| Chr (c : ascii)                                (* a literal character *)
| Cls (p : ascii -> bool)                        (* a character class *)
| Cat (r1 r2 : re)                               (* r1 r2 *)
| Alt (r1 r2 : re)                               (* r1|r2 *)
| Rep (greedy : bool) (lo : nat) (hi : option nat) (p : ascii -> bool)
                                                 (* p{lo,hi}, p{lo,hi}? *)
| Bos                                            (* ^ without MULTILINE *)
| Wb.                                            (* \b *)

(** A position in the subject: the character before it ([None] at the
    start of the string), the number of characters the match has
    consumed so far, and the rest of the subject. *)
Definition cont : Type := option ascii -> nat -> string -> option nat.

Definition is_word_opt (o : option ascii) : bool :=
  match o with
  | Some c => PyStr.is_word c
  | None => false
  end.

Definition head (s : string) : option ascii :=
  match s with
  | EmptyString => None
  | String c _ => Some c
  end.

Definition or_else (a b : option nat) : option nat :=
  match a with
  | Some _ => a
  | None => b
  end.

Definition room (hi : option nat) : bool :=
  match hi with
  | Some O => false
  | _ => true
  end.

Definition dec (hi : option nat) : option nat :=
  match hi with
  | Some n => Some (pred n)
  | None => None
  end.

(** Greedy repetition: take one more character when allowed, and fall
    back to stopping here when the rest of the pattern fails. *)
Fixpoint rep_greedy (p : ascii -> bool) (lo : nat) (hi : option nat)
    (prev : option ascii) (n : nat) (s : string) (k : cont) : option nat :=
  let stop := match lo with O => k prev n s | S _ => None end in
  match s with
  | String c s' =>
      if p c && room hi
      then or_else (rep_greedy p (pred lo) (dec hi) (Some c) (S n) s' k) stop
      else stop
  | EmptyString => stop
  end.

(** Lazy repetition: stop as soon as allowed, and take one more
    character only when the rest of the pattern fails. *)
Fixpoint rep_lazy (p : ascii -> bool) (lo : nat) (hi : option nat)
    (prev : option ascii) (n : nat) (s : string) (k : cont) : option nat :=
  let stop := match lo with O => k prev n s | S _ => None end in
  match s with
  | String c s' =>
      if p c && room hi
      then or_else stop (rep_lazy p (pred lo) (dec hi) (Some c) (S n) s' k)
      else stop
  | EmptyString => stop
  end.

(** [run r prev n s k]: match [r] at the position [(prev, n, s)] and
    continue with [k]; alternatives are tried in priority order. *)
Fixpoint run (r : re) (prev : option ascii) (n : nat) (s : string) (k : cont)
    : option nat :=
  match r with
  | Chr c =>
      match s with
      | String d s' => if Ascii.eqb d c then k (Some d) (S n) s' else None
      | EmptyString => None
      end
  | Cls p =>
      match s with
      | String d s' => if p d then k (Some d) (S n) s' else None
      | EmptyString => None
      end
  | Cat r1 r2 => run r1 prev n s (fun prev' n' s' => run r2 prev' n' s' k)
  | Alt r1 r2 => or_else (run r1 prev n s k) (run r2 prev n s k)
  | Rep true lo hi p => rep_greedy p lo hi prev n s k
  | Rep false lo hi p => rep_lazy p lo hi prev n s k
  | Bos => match prev with None => k prev n s | Some _ => None end
  | Wb => if xorb (is_word_opt prev) (is_word_opt (head s)) then k prev n s else None
  end.

(** The length of the match of [r] that starts at this position. *)
Definition match_at (r : re) (prev : option ascii) (s : string) : option nat :=
  run r prev 0 s (fun _ n _ => Some n).

(** [re.search(r, s) is not None], scanning start positions from the left. *)
Fixpoint search_from (r : re) (prev : option ascii) (s : string) : bool :=
  match match_at r prev s with
  | Some _ => true
  | None =>
      match s with
      | EmptyString => false
      | String c s' => search_from r (Some c) s'
      end
  end.

Definition search (r : re) (s : string) : bool := search_from r None s.

(** [len(re.findall(r, s))] for a pattern that matches no empty string:
    after a match of [S m] characters the scan resumes behind it.
    [skip] counts the characters of the last match still to be passed. *)
Fixpoint count_from (r : re) (skip : nat) (prev : option ascii) (s : string) : nat :=
  match s with
  | EmptyString => 0
  | String c s' =>
      match skip with
      | S j => count_from r j (Some c) s'
      | O =>
          match match_at r prev s with
          | Some m => S (count_from r (pred m) (Some c) s')
          | None => count_from r 0 (Some c) s'
          end
      end
  end.

Definition findall_count (r : re) (s : string) : nat := count_from r 0 None s.

(** [re.findall(r, s)] for a pattern without groups that matches no
    empty string: the matched substrings. *)
Fixpoint findall_from (r : re) (skip : nat) (prev : option ascii) (s : string)
    : list string :=
  match s with
  | EmptyString => []
  | String c s' =>
      match skip with
      | S j => findall_from r j (Some c) s'
      | O =>
          match match_at r prev s with
          | Some m => PyStr.prefix_to m s :: findall_from r (pred m) (Some c) s'
          | None => findall_from r 0 (Some c) s'
          end
      end
  end.

Definition findall (r : re) (s : string) : list string := findall_from r 0 None s.

(** [re.split(r, s)] for a pattern without groups that matches no empty
    string: the pieces between the matches. *)
Fixpoint split_from (r : re) (skip : nat) (prev : option ascii) (s : string)
    : list string :=
  match s with
  | EmptyString => [EmptyString]
  | String c s' =>
      match skip with
      | S j => split_from r j (Some c) s'
      | O =>
          match match_at r prev s with
          | Some m => EmptyString :: split_from r (pred m) (Some c) s'
          | None =>
              match split_from r 0 (Some c) s' with
              | piece :: pieces => String c piece :: pieces
              | [] => [String c EmptyString]
              end
          end
      end
  end.

Definition split (r : re) (s : string) : list string := split_from r 0 None s.

(** Pattern builders. *)

(** A literal string. *)
Fixpoint str (s : string) : re :=
  match s with
  | EmptyString => Rep true 0 (Some 0) (fun _ => false)
  | String c EmptyString => Chr c
  | String c s' => Cat (Chr c) (str s')
  end.

(** A literal string under [re.IGNORECASE]. *)
Definition chr_i (c : ascii) : re :=
  Cls (fun d => Ascii.eqb (PyStr.lower_char d) (PyStr.lower_char c)).

Fixpoint str_i (s : string) : re :=
  match s with
  | EmptyString => Rep true 0 (Some 0) (fun _ => false)
  | String c EmptyString => chr_i c
  | String c s' => Cat (chr_i c) (str_i s')
  end.

(** [.] matches all but the line feed. *)
Definition dot (c : ascii) : bool := negb (N.eqb (PyStr.code c) 10).

Definition plus (p : ascii -> bool) : re := Rep true 1 None p.
Definition plus_lazy (p : ascii -> bool) : re := Rep false 1 None p.
Definition opt (c : ascii) : re := Rep true 0 (Some 1) (Ascii.eqb c).

End Re.

(* ================================================================== *)
(** * The json module *)
(* ================================================================== *)

(** [json.dumps(data, indent=2)] and [json.loads] on the documents the
    program writes: objects, arrays, strings and integers.  An object is
    the list of the items of the dict, in insertion order. *)
Module Json.

#[warning="-register-all"]
Inductive value : Type :=
| Str (s : string)
| Int (n : Z)
| Arr (items : list value)
| Obj (members : list (string * value)).

Definition DQ : ascii := ascii_of_N 34.
Definition BS : ascii := ascii_of_N 92.
Definition LF : ascii := ascii_of_N 10.

Definition code_is (c : ascii) (n : N) : bool := (PyStr.code c =? n)%N.

(** A lower-case hexadecimal digit. *)
Definition hex_digit (n : N) : ascii :=
  ascii_of_N (if (n <? 10)%N then 48 + n else 87 + n).

(** The escape of one character under [ensure_ascii]: the short escapes,
    the printable ASCII characters as they are, [\u00xx] for the rest. *)
Definition escape_char (c : ascii) : string :=
  let n := PyStr.code c in
  if code_is c 34 then String BS (String DQ EmptyString)
  else if code_is c 92 then String BS (String BS EmptyString)
  else if code_is c 10 then String BS "n"
  else if code_is c 13 then String BS "r"
  else if code_is c 9 then String BS "t"
  else if code_is c 8 then String BS "b"
  else if code_is c 12 then String BS "f"
  else if PyStr.in_range 32 126 c then String c EmptyString
  else String BS
         (String "u" (String "0" (String "0"
            (String (hex_digit (n / 16)) (String (hex_digit (n mod 16)) EmptyString))))).

Fixpoint escape (s : string) : string :=
  match s with
  | EmptyString => EmptyString
  | String c s' => escape_char c +:+ escape s'
  end.

Definition encode_string (s : string) : string :=
  String DQ (escape s +:+ String DQ EmptyString).

Fixpoint spaces (n : nat) : string :=
  match n with
  | O => EmptyString
  | S n' => String " " (spaces n')
  end.

Definition newline_indent (n : nat) : string := String LF (spaces n).

(** [dump n v]: the text of [v] when the enclosing line is indented by
    [n] spaces; nested items are indented by two more. *)
Fixpoint dump (n : nat) (v : value) : string :=
  match v with
  | Str s => encode_string s
  | Int z => NilZero.string_of_int (Z.to_int z)
  | Arr [] => "[]"
  | Arr (x :: xs) =>
      "[" +:+ newline_indent (n + 2) +:+ dump (n + 2) x
      +:+ fold_right
            (fun y rest => "," +:+ newline_indent (n + 2) +:+ dump (n + 2) y +:+ rest)
            (newline_indent n +:+ "]") xs
  | Obj [] => "{}"
  | Obj ((k, x) :: ms) =>
      "{" +:+ newline_indent (n + 2) +:+ encode_string k +:+ ": " +:+ dump (n + 2) x
      +:+ fold_right
            (fun '(k', y) rest =>
               "," +:+ newline_indent (n + 2) +:+ encode_string k' +:+ ": "
               +:+ dump (n + 2) y +:+ rest)
            (newline_indent n +:+ "}") ms
  end.

Definition dumps (v : value) : string := dump 0 v.

(** The decoder.  [None] stands for a [JSONDecodeError] and for a
    document that holds a value other than the four kinds above or a
    character beyond code point 255. *)

Definition is_ws (c : ascii) : bool :=
  code_is c 32 || code_is c 9 || code_is c 10 || code_is c 13.

Fixpoint skip_ws (s : string) : string :=
  match s with
  | EmptyString => EmptyString
  | String c s' => if is_ws c then skip_ws s' else s
  end.

Definition hex_value (c : ascii) : option N :=
  let n := PyStr.code c in
  if PyStr.in_range 48 57 c then Some (n - 48)%N
  else if PyStr.in_range 97 102 c then Some (n - 87)%N
  else if PyStr.in_range 65 70 c then Some (n - 55)%N
  else None.

Definition cons_char (c : ascii) (r : option (string * string)) : option (string * string) :=
  match r with
  | Some (s, rest) => Some (String c s, rest)
  | None => None
  end.

(** The character that a short escape stands for. *)
Definition unescape (e : ascii) : option ascii :=
  if code_is e 34 then Some DQ
  else if code_is e 92 then Some BS
  else if code_is e 47 then Some "/"%char
  else if code_is e 98 then Some (ascii_of_N 8)
  else if code_is e 102 then Some (ascii_of_N 12)
  else if code_is e 110 then Some LF
  else if code_is e 114 then Some (ascii_of_N 13)
  else if code_is e 116 then Some (ascii_of_N 9)
  else None.

(** The body of a string, from behind the opening quote to the closing
    one; control characters must be escaped. *)
Fixpoint parse_chars (s : string) : option (string * string) :=
  match s with
  | EmptyString => None
  | String c s' =>
      if code_is c 34 then Some (EmptyString, s')
      else if code_is c 92 then
        match s' with
        | EmptyString => None
        | String e s'' =>
            if code_is e 117 then
              match s'' with
              | String h1 (String h2 (String h3 (String h4 s4))) =>
                  match hex_value h1, hex_value h2, hex_value h3, hex_value h4 with
                  | Some a, Some b, Some c, Some d =>
                      let n := (((a * 16 + b) * 16 + c) * 16 + d)%N in
                      if (n <? 256)%N then cons_char (ascii_of_N n) (parse_chars s4)
                      else None
                  | _, _, _, _ => None
                  end
              | _ => None
              end
            else
              match unescape e with
              | Some c' => cons_char c' (parse_chars s'')
              | None => None
              end
        end
      else if (PyStr.code c <? 32)%N then None
      else cons_char c (parse_chars s')
  end.

(** The longest prefix of digits. *)
Fixpoint span_digits (s : string) : string * string :=
  match s with
  | EmptyString => (EmptyString, EmptyString)
  | String c s' =>
      if PyStr.is_digit c
      then let (ds, rest) := span_digits s' in (String c ds, rest)
      else (EmptyString, s)
  end.

Definition starts_fraction (s : string) : bool :=
  match s with
  | EmptyString => false
  | String c _ => code_is c 46 || code_is c 101 || code_is c 69
  end.

(** An integer: an optional minus sign, then either 0 or a digit from 1
    to 9 followed by digits.  A fraction or an exponent behind it makes
    a float, which is not decoded. *)
Definition parse_number (s : string) : option (Z * string) :=
  let (negative, body) :=
    match s with
    | String c s' => if code_is c 45 then (true, s') else (false, s)
    | EmptyString => (false, s)
    end in
  let (digits, rest) := span_digits body in
  match digits with
  | EmptyString => None
  | String d more =>
      if code_is d 48 && negb (String.eqb more EmptyString) then None
      else if starts_fraction rest then None
      else
        match NilZero.uint_of_string digits with
        | Some u =>
            let n := Z.of_N (N.of_uint u) in
            Some (if negative then (- n)%Z else n, rest)
        | None => None
        end
  end.

(** [d[k] = v] on the items of a dict. *)
Fixpoint dict_set (d : list (string * value)) (k : string) (v : value)
    : list (string * value) :=
  match d with
  | [] => [(k, v)]
  | (k', v') :: d' =>
      if String.eqb k' k then (k', v) :: d' else (k', v') :: dict_set d' k v
  end.

Definition dict_of (pairs : list (string * value)) : list (string * value) :=
  fold_left (fun d '(k, v) => dict_set d k v) pairs [].

Definition tag {A B} (f : A -> B) (r : option (A * string)) : option (B * string) :=
  match r with
  | Some (a, rest) => Some (f a, rest)
  | None => None
  end.

(** Recursive descent; the fuel bounds the number of nested calls. *)
Fixpoint parse_value (fuel : nat) (s : string) : option (value * string) :=
  match fuel with
  | O => None
  | S fuel' =>
      match s with
      | EmptyString => None
      | String c s' =>
          if code_is c 34 then tag Str (parse_chars s')
          else if code_is c 91 then
            match skip_ws s' with
            | String c1 rest =>
                if code_is c1 93 then Some (Arr [], rest)
                else tag Arr (parse_elements fuel' (String c1 rest))
            | EmptyString => None
            end
          else if code_is c 123 then
            match skip_ws s' with
            | String c1 rest =>
                if code_is c1 125 then Some (Obj [], rest)
                else tag (fun pairs => Obj (dict_of pairs))
                         (parse_members fuel' (String c1 rest))
            | EmptyString => None
            end
          else tag Int (parse_number s)
      end
  end
with parse_elements (fuel : nat) (s : string) : option (list value * string) :=
  match fuel with
  | O => None
  | S fuel' =>
      match parse_value fuel' s with
      | None => None
      | Some (v, rest) =>
          match skip_ws rest with
          | String c rest' =>
              if code_is c 93 then Some ([v], rest')
              else if code_is c 44
              then tag (cons v) (parse_elements fuel' (skip_ws rest'))
              else None
          | EmptyString => None
          end
      end
  end
with parse_members (fuel : nat) (s : string) : option (list (string * value) * string) :=
  match fuel with
  | O => None
  | S fuel' =>
      match s with
      | String q s' =>
          if code_is q 34 then
            match parse_chars s' with
            | None => None
            | Some (k, rest) =>
                match skip_ws rest with
                | String colon rest1 =>
                    if code_is colon 58 then
                      match parse_value fuel' (skip_ws rest1) with
                      | None => None
                      | Some (v, rest2) =>
                          match skip_ws rest2 with
                          | String c rest3 =>
                              if code_is c 125 then Some ([(k, v)], rest3)
                              else if code_is c 44
                              then tag (cons (k, v))
                                       (parse_members fuel' (skip_ws rest3))
                              else None
                          | EmptyString => None
                          end
                      end
                    else None
                | EmptyString => None
                end
            end
          else None
      | EmptyString => None
      end
  end.

(** [json.loads(s)] *)
Definition loads (s : string) : option value :=
  match parse_value (S (String.length s)) (skip_ws s) with
  | Some (v, rest) =>
      match skip_ws rest with
      | EmptyString => Some v
      | _ => None
      end
  | None => None
  end.

(** [d[k]] on a decoded object. *)
Fixpoint member (k : string) (members : list (string * value)) : option value :=
  match members with
  | [] => None
  | (k', v) :: members' => if String.eqb k' k then Some v else member k members'
  end.

Definition get (v : value) (k : string) : option value :=
  match v with
  | Obj members => member k members
  | _ => None
  end.

End Json.

(* ================================================================== *)
(** * topic_cluster_generator.py *)
(* ================================================================== *)

(** [title.lower().replace(' ', '-')], the default of both [url_slug]s. *)
Definition slugify (title : string) : string :=
PyStr.replace_char " " "-" (PyStr.lower title).

Module ClusterContent.

Record t : Type := Build {
  title : string;
  target_keyword : string;
  search_volume : Z;
  difficulty : string;
  word_count : Z;
  content_type : string;
  url_slug : string
}.

(** The dataclass constructor followed by [__post_init__]: an empty
    [url_slug] is replaced by the slug of the title. *)
Definition make (title target_keyword : string) (search_volume : Z)
    (difficulty : string) (word_count : Z) (content_type url_slug : string) : t :=
  Build title target_keyword search_volume difficulty word_count content_type
        (if String.eqb url_slug "" then slugify title else url_slug).

(** The generated [__eq__] compares the seven fields. *)
#[global] Instance eq_dec : EqDecision t.
Proof. solve_decision. Defined.

End ClusterContent.

Module PillarPage.

Record t : Type := Build {
  title : string;
  target_keyword : string;
  description : string;
  clusters : list ClusterContent.t;
  word_count : Z;
  url_slug : string
}.

Definition make (title target_keyword description : string)
    (clusters : list ClusterContent.t) (word_count : Z) (url_slug : string) : t :=
  Build title target_keyword description clusters word_count
        (if String.eqb url_slug "" then slugify title else url_slug).

Definition add_cluster (p : t) (c : ClusterContent.t) : t :=
  Build (title p) (target_keyword p) (description p) (clusters p ++ [c])
        (word_count p) (url_slug p).

Definition get_cluster_count (p : t) : nat := length (clusters p).

End PillarPage.

Module TopicClusterGenerator.

Definition guide_templates : list string :=
  [ "What is {topic}"; "How to {topic}"; "{topic} for beginners";
    "{topic} best practices"; "{topic} tips and tricks";
    "{topic} tools and resources"; "{topic} examples";
    "{topic} mistakes to avoid"; "{topic} checklist";
    "{topic} step by step guide" ].

Definition product_templates : list string :=
  [ "Best {topic}"; "{topic} reviews"; "{topic} comparison";
    "{topic} pricing"; "{topic} features"; "{topic} alternatives";
    "How to choose {topic}"; "{topic} for small business";
    "{topic} for enterprise"; "{topic} vs competitors" ].

Definition service_templates : list string :=
  [ "{topic} services"; "{topic} cost"; "How to hire {topic}";
    "{topic} benefits"; "{topic} process"; "{topic} case studies";
    "{topic} ROI"; "{topic} consultant"; "{topic} agency";
    "DIY {topic} vs professional" ].

Definition SUBTOPIC_TEMPLATES : gmap string (list string) :=
  <["guide" := guide_templates]>
    (<["product" := product_templates]>
       (<["service" := service_templates]> ∅)).

(** [template.format(topic=topic)] on the templates above, whose only
    replacement field is [{topic}] and which have no brace escapes:
    each field is replaced by the topic, which is not scanned again. *)
Fixpoint format_from (topic : string) (skip : nat) (template : string) : string :=
  match template with
  | EmptyString => EmptyString
  | String c rest =>
      match skip with
      | S k => format_from topic k rest
      | O =>
          if PyStr.startswith "{topic}" template
          then topic +:+ format_from topic 6 rest
          else String c (format_from topic 0 rest)
      end
  end.

Definition format (template topic : string) : string :=
  format_from topic 0 template.

(** The session state of a generator is its list of pillars. *)
Definition state := list PillarPage.t.

Definition create_pillar (self : state) (title target_keyword description : string)
    (word_count : Z) : state * PillarPage.t :=
  let pillar := PillarPage.make title target_keyword description [] word_count "" in
  (self ++ [pillar], pillar).

Definition generate_cluster_ideas (pillar_topic template_type : string)
    (count : Z) : list string :=
  let templates :=
    default guide_templates (SUBTOPIC_TEMPLATES !! template_type) in
  fold_left (fun ideas template => ideas ++ [format template pillar_topic])
            (PyStr.slice_to templates count) [].

(** One entry of a linking list: the dict with keys [from], [to],
    [anchor_text] and [context]. *)
Record link : Type := Link {
  link_from : string;
  link_to : string;
  anchor_text : string;
  context : string
}.

Record strategy : Type := Strategy {
  pillar_to_clusters : list link;
  clusters_to_pillar : list link;
  cluster_to_cluster : list link
}.

Definition pillar_link (pillar : PillarPage.t) (cluster : ClusterContent.t) : link :=
  Link (PillarPage.url_slug pillar) (ClusterContent.url_slug cluster)
       (ClusterContent.target_keyword cluster)
       ("Link from pillar page section about " +:+ ClusterContent.title cluster).

Definition back_link (pillar : PillarPage.t) (cluster : ClusterContent.t) : link :=
  Link (ClusterContent.url_slug cluster) (PillarPage.url_slug pillar)
       (PillarPage.target_keyword pillar)
       ("Link to main " +:+ PillarPage.title pillar +:+ " guide").

Definition related_link (cluster1 cluster2 : ClusterContent.t) : link :=
  Link (ClusterContent.url_slug cluster1) (ClusterContent.url_slug cluster2)
       (ClusterContent.target_keyword cluster2) "Related topic link".

(** The inner loop over [pillar.clusters[i+1:i+3]] for one [cluster1]. *)
Definition related_links_of (clusters : list ClusterContent.t)
    (i : nat) (cluster1 : ClusterContent.t) : list link :=
  fold_left
    (fun acc cluster2 =>
       if decide (cluster1 = cluster2) then acc
       else acc ++ [related_link cluster1 cluster2])
    (PyStr.slice clusters (i + 1) (i + 3)) [].

Definition generate_internal_linking_strategy (pillar : PillarPage.t) : strategy :=
  let clusters := PillarPage.clusters pillar in
  Strategy
    (fold_left (fun acc cluster => acc ++ [pillar_link pillar cluster]) clusters [])
    (fold_left (fun acc cluster => acc ++ [back_link pillar cluster]) clusters [])
    (fold_left (fun acc '(i, cluster1) => acc ++ related_links_of clusters i cluster1)
               (PyStr.enumerate clusters) []).

Definition link_json (l : link) : Json.value :=
  Json.Obj [ ("from", Json.Str (link_from l)); ("to", Json.Str (link_to l));
             ("anchor_text", Json.Str (anchor_text l));
             ("context", Json.Str (context l)) ].

Definition strategy_json (s : strategy) : Json.value :=
  Json.Obj [ ("pillar_to_clusters", Json.Arr (map link_json (pillar_to_clusters s)));
             ("clusters_to_pillar", Json.Arr (map link_json (clusters_to_pillar s)));
             ("cluster_to_cluster", Json.Arr (map link_json (cluster_to_cluster s))) ].

(** The dict [data] of [_export_json]. *)
Definition export_data (pillar : PillarPage.t) : Json.value :=
  Json.Obj
    [ ("pillar",
       Json.Obj [ ("title", Json.Str (PillarPage.title pillar));
                  ("target_keyword", Json.Str (PillarPage.target_keyword pillar));
                  ("description", Json.Str (PillarPage.description pillar));
                  ("word_count", Json.Int (PillarPage.word_count pillar));
                  ("url_slug", Json.Str (PillarPage.url_slug pillar)) ]);
      ("clusters",
       Json.Arr
         (map (fun c =>
                 Json.Obj
                   [ ("title", Json.Str (ClusterContent.title c));
                     ("target_keyword", Json.Str (ClusterContent.target_keyword c));
                     ("search_volume", Json.Int (ClusterContent.search_volume c));
                     ("difficulty", Json.Str (ClusterContent.difficulty c));
                     ("word_count", Json.Int (ClusterContent.word_count c));
                     ("url_slug", Json.Str (ClusterContent.url_slug c)) ])
              (PillarPage.clusters pillar)));
      ("internal_linking",
       strategy_json (generate_internal_linking_strategy pillar)) ].

Definition _export_json (pillar : PillarPage.t) : string :=
  Json.dumps (export_data pillar).

Definition _export_markdown (pillar : PillarPage.t) : string :=
  let nl := String Json.LF EmptyString in
  let md := "# Topic Cluster: " +:+ PillarPage.title pillar +:+ nl +:+ nl in
  let md := md +:+ "**Target Keyword:** " +:+ PillarPage.target_keyword pillar
               +:+ nl +:+ nl in
  let md := md +:+ "**Description:** " +:+ PillarPage.description pillar +:+ nl +:+ nl in
  let md := md +:+ "**Word Count:** "
               +:+ NilZero.string_of_int (Z.to_int (PillarPage.word_count pillar))
               +:+ nl +:+ nl in
  let md := md +:+ "## Cluster Content" +:+ nl +:+ nl in
  let md := md +:+ "| Title | Target Keyword | Search Volume | Difficulty | Word Count |"
               +:+ nl in
  let md := md +:+ "|-------|----------------|---------------|------------|------------|"
               +:+ nl in
  fold_left
    (fun md cluster =>
       md +:+ "| " +:+ ClusterContent.title cluster +:+ " | "
          +:+ ClusterContent.target_keyword cluster +:+ " | "
          +:+ NilZero.string_of_int (Z.to_int (ClusterContent.search_volume cluster))
          +:+ " | " +:+ ClusterContent.difficulty cluster +:+ " | "
          +:+ NilZero.string_of_int (Z.to_int (ClusterContent.word_count cluster))
          +:+ " |" +:+ nl)
    (PillarPage.clusters pillar) md.

(** [chr(n)] for a code point of the embedding; beyond 255 the
    character, which Python has, is outside the strings of the embedding
    and the result is [None]. *)
Definition chr (n : nat) : option string :=
  if n <? 256 then Some (String (ascii_of_nat n) EmptyString) else None.

(** The Mermaid diagram.  The result is [None] only where a node id
    [chr(66 + i)] is outside the embedding, from the 191st cluster on. *)
Definition _export_mermaid (pillar : PillarPage.t) : option string :=
  let nl := String Json.LF EmptyString in
  let dq := String Json.DQ EmptyString in
  let clusters := PillarPage.clusters pillar in
  let mermaid := "```mermaid" +:+ nl +:+ "graph TD" +:+ nl in
  let pillar_id := "A" in
  let mermaid :=
    mermaid +:+ "    " +:+ pillar_id +:+ "[" +:+ dq +:+ PillarPage.title pillar
            +:+ dq +:+ "]" +:+ nl in
  let mermaid :=
    fold_left
      (fun mermaid '(i, cluster) =>
         mermaid ← mermaid;
         cluster_id ← chr (66 + i);
         Some (mermaid +:+ "    " +:+ cluster_id +:+ "[" +:+ dq
                       +:+ ClusterContent.title cluster +:+ dq +:+ "]" +:+ nl))
      (PyStr.enumerate clusters) (Some mermaid) in
  let mermaid :=
    fold_left
      (fun mermaid i =>
         mermaid ← mermaid;
         cluster_id ← chr (66 + i);
         let mermaid :=
           mermaid +:+ "    " +:+ pillar_id +:+ " --> " +:+ cluster_id +:+ nl in
         Some (mermaid +:+ "    " +:+ cluster_id +:+ " --> " +:+ pillar_id +:+ nl))
      (seq 0 (length clusters)) mermaid in
  let mermaid :=
    (fun mermaid =>
       mermaid +:+ nl +:+ "    style " +:+ pillar_id
               +:+ " fill:#4CAF50,stroke:#2E7D32,stroke-width:3px,color:#fff" +:+ nl)
      <$> mermaid in
  let mermaid :=
    fold_left
      (fun mermaid i =>
         mermaid ← mermaid;
         cluster_id ← chr (66 + i);
         Some (mermaid +:+ "    style " +:+ cluster_id
                       +:+ " fill:#2196F3,stroke:#1565C0,stroke-width:2px,color:#fff"
                       +:+ nl))
      (seq 0 (length clusters)) mermaid in
  (fun mermaid => mermaid +:+ "```") <$> mermaid.

(** [export_cluster_map]: the formats [json], [markdown] and [mermaid];
    an unrecognized format falls back to JSON. *)
Definition export_cluster_map (pillar : PillarPage.t) (format : string) : option string :=
  if String.eqb format "json" then Some (_export_json pillar)
  else if String.eqb format "markdown" then Some (_export_markdown pillar)
  else if String.eqb format "mermaid" then _export_mermaid pillar
  else Some (_export_json pillar).

(** A dict of cluster data whose values have the types of the dataclass
    fields; [None] is a missing key.  [add_clusters_to_pillar] reads the
    first six keys, the adapter [_dict_to_pillar] all but
    [content_type]. *)
Record cluster_data : Type := ClusterData {
  data_title : option string;
  data_target_keyword : option string;
  data_search_volume : option Z;
  data_difficulty : option string;
  data_word_count : option Z;
  data_content_type : option string;
  data_url_slug : option string
}.

(** [add_clusters_to_pillar] updates the pillar in place; the embedding
    returns the updated pillar. *)
Definition add_clusters_to_pillar (pillar : PillarPage.t)
    (cluster_data : list cluster_data) : PillarPage.t :=
  fold_left
    (fun pillar data =>
       let cluster :=
         ClusterContent.make
           (default "" (data_title data))
           (default "" (data_target_keyword data))
           (default 0%Z (data_search_volume data))
           (default "medium" (data_difficulty data))
           (default 1500%Z (data_word_count data))
           (default "blog_post" (data_content_type data))
           "" in
       PillarPage.add_cluster pillar cluster)
    cluster_data pillar.

(** [sum(c.word_count for c in clusters)] *)
Definition sum_word_counts (clusters : list ClusterContent.t) : Z :=
  fold_left Z.add (map ClusterContent.word_count clusters) 0%Z.

(** [d[k] = d.get(k, 0) + 1] on a dict given by its items in insertion
    order: a known key keeps its place, a new key goes to the end. *)
Fixpoint count_key (d : list (string * Z)) (k : string) : list (string * Z) :=
  match d with
  | [] => [(k, 1%Z)]
  | (k', v) :: d' =>
      if String.eqb k' k then (k', (v + 1)%Z) :: d'
      else (k', v) :: count_key d' k
  end.

Definition _calculate_completeness (pillar : PillarPage.t) : py_result PyNum.num :=
  let clusters := PillarPage.clusters pillar in
  let n := Z.of_nat (length clusters) in
  let score := PyNum.Int 0 in
  bind
    (if (10 <=? n)%Z then Ok (PyNum.add score (PyNum.Int 40))
     else bind (F64.truediv n 10)
            (fun r => Ok (PyNum.add score (PyNum.Float (F64.mul r 40)))))
    (fun score =>
  bind
    (if (3000 <=? PillarPage.word_count pillar)%Z
     then Ok (PyNum.add score (PyNum.Int 30))
     else bind (F64.truediv (PillarPage.word_count pillar) 3000)
            (fun r => Ok (PyNum.add score (PyNum.Float (F64.mul r 30)))))
    (fun score =>
  let adequate_clusters :=
    Z.of_nat
      (length (filter (fun c => (1500 <=? ClusterContent.word_count c)%Z = true)
                      clusters)) in
  bind
    (match clusters with
     | [] => Ok score
     | _ => bind (F64.truediv adequate_clusters n)
              (fun r => Ok (PyNum.add score (PyNum.Float (F64.mul r 30))))
     end)
    (fun score => Ok (PyNum.round score 1)))).

Definition _get_coverage_recommendations (pillar : PillarPage.t) : list string :=
  let clusters := PillarPage.clusters pillar in
  let n := Z.of_nat (length clusters) in
  let recommendations := [] in
  let recommendations :=
    if (n <? 10)%Z
    then recommendations
           ++ [ "Add " +:+ NilZero.string_of_int (Z.to_int (10 - n))
                +:+ " more cluster pieces (minimum 10 recommended)" ]
    else recommendations in
  let recommendations :=
    if (PillarPage.word_count pillar <? 3000)%Z
    then recommendations
           ++ [ "Increase pillar word count by "
                +:+ NilZero.string_of_int
                      (Z.to_int (3000 - PillarPage.word_count pillar))
                +:+ " words" ]
    else recommendations in
  let short_clusters :=
    filter (fun c => (ClusterContent.word_count c <? 1500)%Z = true) clusters in
  let recommendations :=
    match short_clusters with
    | [] => recommendations
    | _ =>
        recommendations
          ++ [ "Expand "
               +:+ NilZero.string_of_int (Z.to_int (Z.of_nat (length short_clusters)))
               +:+ " cluster pieces to at least 1,500 words" ]
    end in
  match recommendations with
  | [] => [ "Cluster coverage is excellent! Focus on content quality and promotion." ]
  | _ => recommendations
  end.

(** The dict that [analyze_cluster_coverage] returns. *)
Record coverage : Type := Coverage {
  pillar_title : string;
  total_clusters : Z;
  total_word_count : Z;
  average_cluster_length : Z;
  difficulty_distribution : list (string * Z);
  completeness_score : PyNum.num;
  recommendations : list string
}.

Definition analyze_cluster_coverage (pillar : PillarPage.t) : py_result coverage :=
  let clusters := PillarPage.clusters pillar in
  let total_clusters := Z.of_nat (length clusters) in
  let total_words := (PillarPage.word_count pillar + sum_word_counts clusters)%Z in
  let difficulty_distribution :=
    fold_left (fun d cluster => count_key d (ClusterContent.difficulty cluster))
              clusters [] in
  bind
    (if (0 <? total_clusters)%Z
     then bind (F64.truediv (sum_word_counts clusters) total_clusters)
            (fun mean => Ok (F64.round_half_even mean))
     else Ok 0%Z)
    (fun average =>
  bind (_calculate_completeness pillar)
    (fun completeness =>
  Ok (Coverage (PillarPage.title pillar) total_clusters total_words average
        difficulty_distribution completeness
        (_get_coverage_recommendations pillar)))).

End TopicClusterGenerator.

(* ================================================================== *)
(** * user_intent_analyzer.py *)
(* ================================================================== *)

Module UserIntentAnalyzer.

(** The enum [SearchIntent].  The program passes the members around by
    their [value] strings; the embedding passes the members themselves. *)
Inductive SearchIntent : Type :=
| INFORMATIONAL
| NAVIGATIONAL
| COMMERCIAL
| TRANSACTIONAL.

#[global] Instance SearchIntent_eq_dec : EqDecision SearchIntent.
Proof. solve_decision. Defined.

Definition value (intent : SearchIntent) : string :=
  match intent with
  | INFORMATIONAL => "informational"
  | NAVIGATIONAL => "navigational"
  | COMMERCIAL => "commercial_investigation"
  | TRANSACTIONAL => "transactional"
  end.

Definition INFORMATIONAL_MODIFIERS : list string :=
  [ "how"; "what"; "why"; "when"; "where"; "who";
    "guide"; "tutorial"; "tips"; "learn"; "explain";
    "definition"; "meaning"; "examples"; "benefits";
    "difference between"; "vs"; "comparison" ].

Definition NAVIGATIONAL_MODIFIERS : list string :=
  [ "login"; "sign in"; "official site"; "website";
    "homepage"; "portal"; "dashboard"; "account" ].

Definition COMMERCIAL_MODIFIERS : list string :=
  [ "best"; "top"; "review"; "reviews"; "comparison";
    "compare"; "vs"; "versus"; "alternative"; "alternatives";
    "cheapest"; "affordable"; "recommended"; "rating" ].

Definition TRANSACTIONAL_MODIFIERS : list string :=
  [ "buy"; "purchase"; "order"; "shop"; "price";
    "cost"; "cheap"; "deal"; "discount"; "coupon";
    "subscribe"; "download"; "get"; "hire"; "book";
    "reserve"; "appointment"; "quote" ].

(** [re.escape]: a backslash before each special character. *)
Definition is_special (c : ascii) : bool :=
  PyStr.mem_char c "()[]{}?*+-|^$\.&~# " || PyStr.in_range 9 13 c.

Fixpoint escape (s : string) : string :=
  match s with
  | EmptyString => EmptyString
  | String c s' =>
      if is_special c then String "\" (String c (escape s'))
      else String c (escape s')
  end.

(** A compiled pattern keeps its source text ([pattern.pattern]). *)
Record pattern : Type := Pattern {
  source : string;
  compiled : Re.re
}.

(** [re.compile(r'\b' + re.escape(mod) + r'\b', re.IGNORECASE)]: the
    escaped modifier denotes the modifier itself, character by character. *)
Definition compile_modifier (modifier : string) : pattern :=
  Pattern ("\b" +:+ escape modifier +:+ "\b")
          (Re.Cat Re.Wb (Re.Cat (Re.str_i modifier) Re.Wb)).

(** The dict [intent_patterns], as its items in insertion order. *)
Definition _compile_patterns : list (SearchIntent * list pattern) :=
  map (fun '(intent, modifiers) => (intent, map compile_modifier modifiers))
      [ (INFORMATIONAL, INFORMATIONAL_MODIFIERS);
        (NAVIGATIONAL, NAVIGATIONAL_MODIFIERS);
        (COMMERCIAL, COMMERCIAL_MODIFIERS);
        (TRANSACTIONAL, TRANSACTIONAL_MODIFIERS) ].

Definition intent_patterns : list (SearchIntent * list pattern) := _compile_patterns.

Record recommendation : Type := Recommendation {
  rec_content_type : string;
  rec_format : string;
  rec_elements : list string;
  rec_cta : string
}.

Definition _get_recommendations (intent : SearchIntent) : recommendation :=
  match intent with
  | INFORMATIONAL =>
      Recommendation
        "Blog post, guide, tutorial, how-to article"
        "Long-form content (1,500-3,000 words)"
        [ "Clear headings and subheadings"; "Step-by-step instructions";
          "Examples and visuals"; "FAQ section"; "Related articles" ]
        "Subscribe to newsletter, download guide, read related content"
  | NAVIGATIONAL =>
      Recommendation
        "Homepage, brand page, login page"
        "Clear navigation and branding"
        [ "Prominent brand name"; "Clear navigation menu";
          "Search functionality"; "Quick links to popular pages" ]
        "Sign up, login, explore products/services"
  | COMMERCIAL =>
      Recommendation
        "Comparison article, review, buyer's guide"
        "Structured comparison (1,500-2,500 words)"
        [ "Comparison tables"; "Pros and cons lists"; "Product specifications";
          "Expert opinions"; "User reviews" ]
        "Read full review, compare products, get pricing"
  | TRANSACTIONAL =>
      Recommendation
        "Product page, service page, pricing page"
        "Conversion-focused layout"
        [ "Clear product/service details"; "Pricing information";
          "Trust signals (reviews, guarantees)"; "Strong call-to-action";
          "Easy checkout process" ]
        "Buy now, add to cart, get quote, subscribe"
  end.

Definition _apply_heuristics (query : string) : SearchIntent * Q :=
  if existsb (fun p => PyStr.startswith p query)
             [ "how "; "what "; "why "; "when "; "where " ]
  then (INFORMATIONAL, F64.lit (8 # 10))
  else if (length (PyStr.split query) <=? 2)
          && negb (existsb (fun c => PyStr.contains c query) [ "?"; "how"; "what" ])
  then (NAVIGATIONAL, F64.lit (6 # 10))
  else if 3 <=? length (PyStr.split query)
  then (INFORMATIONAL, F64.lit (5 # 10))
  else (INFORMATIONAL, F64.lit (4 # 10)).

(** The inner loop of [analyze_query]: the stripped sources of the
    patterns found in the query, in pattern order. *)
Definition matches_of (patterns : list pattern) (query_lower : string) : list string :=
  fold_left
    (fun matches p =>
       if Re.search (compiled p) query_lower
       then matches ++ [PyStr.strip_chars "\b" (source p)]
       else matches)
    patterns [].

Definition all_matches (query_lower : string) : list (SearchIntent * list string) :=
  map (fun '(intent, patterns) => (intent, matches_of patterns query_lower))
      intent_patterns.

Definition scores_of (matched : list (SearchIntent * list string))
    : list (SearchIntent * Z) :=
  map (fun '(intent, matches) => (intent, Z.of_nat (length matches))) matched.

Definition values {K} (d : list (K * Z)) : list Z := map snd d.

Definition sum (l : list Z) : Z := fold_left Z.add l 0%Z.

(** [d[k]] on a dict given by its items; a missing key gives [dflt]. *)
Fixpoint get {V} (d : list (SearchIntent * V)) (k : SearchIntent) (dflt : V) : V :=
  match d with
  | [] => dflt
  | (k', v) :: d' => if decide (k' = k) then v else get d' k dflt
  end.

Record analysis : Type := Analysis {
  query : string;
  primary_intent : SearchIntent;
  confidence : Q;
  intent_scores : list (SearchIntent * Z);
  matched_modifiers : list string;
  recommendations : recommendation
}.

(** The branch of [analyze_query] that determines the primary intent
    and the confidence before it is rounded. *)
Definition decide_intent (intent_scores : list (SearchIntent * Z))
    (query_lower : string) : SearchIntent * Q :=
  if forallb (fun score => (score =? 0)%Z) (values intent_scores)
  then _apply_heuristics query_lower
  else
    let max_score := default 0%Z (PyStr.max_by id (values intent_scores)) in
    let primary_intent :=
      default INFORMATIONAL (fst <$> PyStr.max_by snd intent_scores) in
    let total_score := sum (values intent_scores) in
    (primary_intent,
     if (0 <? total_score)%Z then F64.div_int max_score total_score
     else F64.lit (5 # 10)).

Definition analyze_query (query : string) : analysis :=
  let query_lower := PyStr.strip (PyStr.lower query) in
  let matched_modifiers := all_matches query_lower in
  let intent_scores := scores_of matched_modifiers in
  let '(primary_intent, confidence) := decide_intent intent_scores query_lower in
  Analysis query primary_intent (F64.round confidence 2) intent_scores
           (get matched_modifiers primary_intent [])
           (_get_recommendations primary_intent).

Definition analyze_batch (queries : list string) : list analysis :=
  map analyze_query queries.

(** [d[k] += 1] on a dict given by its items. *)
Definition incr (d : list (SearchIntent * Z)) (k : SearchIntent)
    : list (SearchIntent * Z) :=
  map (fun '(k', v) => if decide (k' = k) then (k', (v + 1)%Z) else (k', v)) d.

Record distribution_report : Type := Report {
  total_queries : Z;
  distribution : list (SearchIntent * Z);
  percentages : list (SearchIntent * Q);
  dominant_intent : SearchIntent
}.

Definition get_intent_distribution (queries : list string)
    : py_result distribution_report :=
  let results := analyze_batch queries in
  let distribution :=
    fold_left (fun d result => incr d (primary_intent result)) results
      [ (INFORMATIONAL, 0%Z); (NAVIGATIONAL, 0%Z);
        (COMMERCIAL, 0%Z); (TRANSACTIONAL, 0%Z) ] in
  let total := Z.of_nat (length queries) in
  bind
    (map_result
       (fun '(intent, count) =>
          bind (F64.truediv count total)
               (fun ratio => Ok (intent, F64.round (F64.mul ratio 100) 1)))
       distribution)
    (fun percentages =>
       Ok (Report total distribution percentages
             (default INFORMATIONAL (fst <$> PyStr.max_by snd distribution)))).

End UserIntentAnalyzer.

(* ================================================================== *)
(** * content_quality_checker.py *)
(* ================================================================== *)

Module ContentQualityChecker.

Record QualityScore : Type := Build_QualityScore {
  overall_score : Q;
  readability_score : Q;
  eeat_score : Z;
  seo_score : Z;
  completeness_score : Z;
  grade : string;
  recommendations : list string
}.

Definition EXPERIENCE_INDICATORS : list string :=
  [ "i tested"; "i tried"; "in my experience"; "i found";
    "i used"; "i noticed"; "i discovered"; "my results";
    "case study"; "real-world example"; "personal experience" ].

Definition EXPERTISE_INDICATORS : list string :=
  [ "certified"; "expert"; "professional"; "years of experience";
    "specialist"; "authority"; "research shows"; "studies indicate";
    "according to"; "data shows"; "statistics reveal" ].

Definition TRUST_INDICATORS : list string :=
  [ "source:"; "reference:"; "citation:"; "https://";
    "published"; "peer-reviewed"; "verified"; "guaranteed";
    "privacy policy"; "terms of service"; "contact us" ].

(** A metadata dict maps keys to strings. [metadata.get(key, '')]: *)
Definition get (metadata : gmap string string) (key : string) : string :=
  default EmptyString (metadata !! key).

(** The truth value of [metadata.get(key)]: present and not empty. *)
Definition truthy (metadata : gmap string string) (key : string) : bool :=
  match metadata !! key with
  | Some (String _ _) => true
  | _ => false
  end.

Definition LF : ascii := ascii_of_N 10.

(** The patterns of the module. *)

(** [[.!?]+] *)
Definition sentence_end_re : Re.re :=
  Re.plus (fun c => Ascii.eqb c "." || Ascii.eqb c "!" || Ascii.eqb c "?").

(** [\b[a-zA-Z]+\b] *)
Definition word_re : Re.re :=
  Re.Cat Re.Wb (Re.Cat (Re.plus PyStr.is_ascii_alpha) Re.Wb).

(** [(\n-|\n\d+\.|\n•)]; the bullet U+2022 lies outside the code points
    of the embedding, so its alternative never matches. *)
Definition list_re : Re.re :=
  Re.Alt (Re.Cat (Re.Chr LF) (Re.Chr "-"))
    (Re.Alt (Re.Cat (Re.Chr LF) (Re.Cat (Re.plus PyStr.is_digit) (Re.Chr ".")))
            (Re.Cat (Re.Chr LF) (Re.Cls (fun _ => false)))).

(** [(^|\n)#{1,6}\s] *)
Definition heading_mark_re : Re.re :=
  Re.Cat (Re.Alt Re.Bos (Re.Chr LF))
    (Re.Cat (Re.Rep true 1 (Some 6) (Ascii.eqb "#")) (Re.Cls PyStr.is_space)).

(** [(^|\n)#{1,6}\s.+] *)
Definition heading_re : Re.re :=
  Re.Cat heading_mark_re (Re.plus Re.dot).

(** [\[?\d+\]?|source:|reference:] *)
Definition citation_re : Re.re :=
  Re.Alt (Re.Cat (Re.opt "[") (Re.Cat (Re.plus PyStr.is_digit) (Re.opt "]")))
    (Re.Alt (Re.str "source:") (Re.str "reference:")).

(** [\[.+?\]\(.+?\)] *)
Definition link_re : Re.re :=
  Re.Cat (Re.Chr "[")
    (Re.Cat (Re.plus_lazy Re.dot)
       (Re.Cat (Re.Chr "]")
          (Re.Cat (Re.Chr "(") (Re.Cat (Re.plus_lazy Re.dot) (Re.Chr ")"))))).

(** [https?://] *)
Definition url_re : Re.re :=
  Re.Cat (Re.str "http") (Re.Cat (Re.opt "s") (Re.str "://")).

(** [(faq|frequently asked|question|q&a)] *)
Definition faq_re : Re.re :=
  Re.Alt (Re.str "faq")
    (Re.Alt (Re.str "frequently asked") (Re.Alt (Re.str "question") (Re.str "q&a"))).

(** [(conclusion|summary|in summary|to summarize|key takeaways)] *)
Definition conclusion_re : Re.re :=
  Re.Alt (Re.str "conclusion")
    (Re.Alt (Re.str "summary")
       (Re.Alt (Re.str "in summary")
          (Re.Alt (Re.str "to summarize") (Re.str "key takeaways")))).

(** [(faq|frequently asked)] and [(conclusion|summary)] *)
Definition faq_short_re : Re.re := Re.Alt (Re.str "faq") (Re.str "frequently asked").
Definition conclusion_short_re : Re.re := Re.Alt (Re.str "conclusion") (Re.str "summary").

Definition _split_sentences (text : string) : list string :=
  let sentences := Re.split sentence_end_re text in
  map PyStr.strip
      (filter (fun s => negb (String.eqb (PyStr.strip s) EmptyString)) sentences).

Definition _split_words (text : string) : list string :=
  Re.findall word_re text.

(** The loop of [_count_syllables]: [(count, previous_was_vowel)]. *)
Fixpoint vowel_groups (word : string) (count : Z) (previous_was_vowel : bool) : Z :=
  match word with
  | EmptyString => count
  | String char rest =>
      let is_vowel := PyStr.mem_char char "aeiouy" in
      vowel_groups rest
        (if is_vowel && negb previous_was_vowel then (count + 1)%Z else count)
        is_vowel
  end.

Definition _count_syllables (word : string) : Z :=
  let word := PyStr.lower word in
  let count := vowel_groups word 0%Z false in
  let count := if PyStr.endswith_char "e" word then (count - 1)%Z else count in
  if (count =? 0)%Z then 1%Z else count.

Definition _get_grade (score : Q) : string :=
  if F64.leb 90 score then "A"
  else if F64.leb 80 score then "B"
  else if F64.leb 70 score then "C"
  else if F64.leb 60 score then "D"
  else "F".

(** [sum(1 for x in l if f x)] *)
Definition count_if {A} (f : A -> bool) (l : list A) : Z :=
  Z.of_nat (length (filter (fun x => f x = true) l)).

Definition len {A} (l : list A) : Z := Z.of_nat (length l).

Definition calculate_readability (content : string) : Q :=
  let sentences := _split_sentences content in
  let words := _split_words content in
  let syllables := fold_left Z.add (map _count_syllables words) 0%Z in
  match sentences, words with
  | [], _ | _, [] => 0%Q
  | _, _ =>
      let avg_sentence_length := F64.div_int (len words) (len sentences) in
      let avg_syllables_per_word := F64.div_int syllables (len words) in
      let flesch :=
        F64.sub
          (F64.sub (F64.lit (206835 # 1000))
                   (F64.mul (F64.lit (1015 # 1000)) avg_sentence_length))
          (F64.mul (F64.lit (846 # 10)) avg_syllables_per_word) in
      let flesch := F64.max 0 (F64.min 100 flesch) in
      let score := F64.mul flesch (F64.lit (6 # 10)) in
      let paragraphs := PyStr.split_sep (String LF (String LF EmptyString)) content in
      let avg_paragraph_length :=
        match paragraphs with
        | [] => 0%Q
        | _ => F64.div_int (len words) (len paragraphs)
        end in
      let score :=
        if F64.ltb avg_paragraph_length 100 then F64.add score 10
        else if F64.ltb avg_paragraph_length 150 then F64.add score 5
        else score in
      let score := if Re.search list_re content then F64.add score 10 else score in
      let score := if Re.search heading_mark_re content then F64.add score 10 else score in
      let long_sentences :=
        count_if (fun s => 25 <? length (PyStr.split s)) sentences in
      let score :=
        if F64.ltb (F64.mul (F64.of_int (len sentences)) (F64.lit (3 # 10)))
                   (F64.of_int long_sentences)
        then F64.sub score 10 else score in
      F64.max 0 (F64.min 100 score)
  end.

Definition indicator_count (indicators : list string) (content_lower : string) : Z :=
  count_if (fun indicator => PyStr.contains indicator content_lower) indicators.

Definition calculate_eeat_score (content : string) : Z :=
  let content_lower := PyStr.lower content in
  let score := 0%Z in
  let experience_count := indicator_count EXPERIENCE_INDICATORS content_lower in
  let score := (score + Z.min 30 (experience_count * 5))%Z in
  let expertise_count := indicator_count EXPERTISE_INDICATORS content_lower in
  let score := (score + Z.min 30 (expertise_count * 5))%Z in
  let trust_count := indicator_count TRUST_INDICATORS content_lower in
  let score := (score + Z.min 40 (trust_count * 4))%Z in
  let citation_count := Z.of_nat (Re.findall_count citation_re content_lower) in
  let score := (score + Z.min 10 (citation_count * 2))%Z in
  let score :=
    fold_left
      (fun score domain =>
         if PyStr.contains ("." +:+ domain) content_lower
         then (score + 5)%Z else score)
      [ "edu"; "gov"; "org" ] score in
  Z.min 100 score.

Definition calculate_seo_score (content : string) (metadata : gmap string string) : Z :=
  let score := 0%Z in
  let target_keyword := PyStr.lower (get metadata "target_keyword") in
  let title := PyStr.lower (get metadata "title") in
  let meta_description := PyStr.lower (get metadata "meta_description") in
  if String.eqb target_keyword EmptyString then 50%Z
  else
    let content_lower := PyStr.lower content in
    let score := if PyStr.contains target_keyword title then (score + 15)%Z else score in
    let first_para := PyStr.lower (PyStr.prefix_to 500 content) in
    let score := if PyStr.contains target_keyword first_para then (score + 10)%Z else score in
    let score :=
      if PyStr.contains target_keyword meta_description then (score + 10)%Z else score in
    let keyword_count := Z.of_nat (PyStr.count target_keyword content_lower) in
    let word_count := len (_split_words content) in
    let score :=
      if (0 <? word_count)%Z then
        let density := F64.mul (F64.div_int keyword_count word_count) 100 in
        if F64.leb (F64.lit (5 # 10)) density && F64.leb density (F64.lit (25 # 10))
        then (score + 15)%Z
        else if F64.ltb density (F64.lit (5 # 10)) then (score + 5)%Z
        else score
      else score in
    let headings := Z.of_nat (Re.findall_count heading_re content) in
    let score :=
      if (3 <=? headings)%Z then (score + 10)%Z
      else if (1 <=? headings)%Z then (score + 5)%Z
      else score in
    let score :=
      if (1500 <=? word_count)%Z then (score + 15)%Z
      else if (1000 <=? word_count)%Z then (score + 10)%Z
      else if (500 <=? word_count)%Z then (score + 5)%Z
      else score in
    let internal_links := Z.of_nat (Re.findall_count link_re content) in
    let score :=
      if (5 <=? internal_links)%Z then (score + 10)%Z
      else if (3 <=? internal_links)%Z then (score + 7)%Z
      else if (1 <=? internal_links)%Z then (score + 4)%Z
      else score in
    let external_links := Z.of_nat (Re.findall_count url_re content) in
    let score :=
      if (3 <=? external_links)%Z then (score + 10)%Z
      else if (1 <=? external_links)%Z then (score + 5)%Z
      else score in
    let score :=
      if PyStr.contains "![" content || PyStr.contains "<img" content
      then (score + 5)%Z else score in
    Z.min 100 score.

Definition calculate_completeness (content : string) (metadata : gmap string string) : Z :=
  let score := 0%Z in
  let score := if 200 <? String.length content then (score + 15)%Z else score in
  let headings := Z.of_nat (Re.findall_count heading_re content) in
  let score :=
    if (5 <=? headings)%Z then (score + 20)%Z
    else if (3 <=? headings)%Z then (score + 15)%Z
    else if (1 <=? headings)%Z then (score + 10)%Z
    else score in
  let example_indicators := [ "example"; "for instance"; "such as"; "like" ] in
  let example_count := indicator_count example_indicators (PyStr.lower content) in
  let score :=
    if (3 <=? example_count)%Z then (score + 15)%Z
    else if (1 <=? example_count)%Z then (score + 10)%Z
    else score in
  let score := if Re.search list_re content then (score + 10)%Z else score in
  let score := if Re.search faq_re (PyStr.lower content) then (score + 10)%Z else score in
  let score :=
    if Re.search conclusion_re (PyStr.lower content) then (score + 10)%Z else score in
  let cta_indicators :=
    [ "learn more"; "get started"; "sign up"; "download"; "contact us"; "try" ] in
  let score :=
    if existsb (fun cta => PyStr.contains cta (PyStr.lower content)) cta_indicators
    then (score + 10)%Z else score in
  let score :=
    if truthy metadata "title" && truthy metadata "meta_description"
    then (score + 10)%Z else score in
  Z.min 100 score.


(** [str(n)] for an integer. *)
Definition str_of_int (n : Z) : string := NilZero.string_of_int (Z.to_int n).

Definition _generate_recommendations (readability : Q) (eeat seo completeness : Z)
    (content : string) (metadata : gmap string string) : list string :=
  let recommendations := [] in
  let recommendations :=
    if F64.ltb readability 70
    then recommendations
           ++ [ "Improve readability: Use shorter sentences and simpler words";
                "Add more headings and bullet points to break up text" ]
    else recommendations in
  let recommendations :=
    if (eeat <? 70)%Z
    then recommendations
           ++ [ "Add personal experience and real-world examples";
                "Include citations and references to authoritative sources";
                "Demonstrate expertise with data, statistics, and research" ]
    else recommendations in
  let recommendations :=
    if (seo <? 70)%Z then
      let target_keyword := get metadata "target_keyword" in
      let recommendations :=
        if negb (String.eqb target_keyword EmptyString) then
          let recommendations :=
            if negb (PyStr.contains (PyStr.lower target_keyword)
                                    (PyStr.lower (PyStr.prefix_to 500 content)))
            then recommendations
                   ++ [ "Include target keyword '" +:+ target_keyword
                        +:+ "' in the first paragraph" ]
            else recommendations in
          let word_count := len (_split_words content) in
          if (word_count <? 1500)%Z
          then recommendations
                 ++ [ "Expand content to at least 1,500 words (currently "
                      +:+ str_of_int word_count +:+ ")" ]
          else recommendations
        else recommendations in
      let internal_links := Z.of_nat (Re.findall_count link_re content) in
      if (internal_links <? 5)%Z
      then recommendations
             ++ [ "Add more internal links to related content (5-10 recommended)" ]
      else recommendations
    else recommendations in
  let recommendations :=
    if (completeness <? 70)%Z then
      let recommendations :=
        if negb (Re.search faq_short_re (PyStr.lower content))
        then recommendations ++ [ "Add an FAQ section to address common questions" ]
        else recommendations in
      if negb (Re.search conclusion_short_re (PyStr.lower content))
      then recommendations ++ [ "Add a conclusion or summary section" ]
      else recommendations
    else recommendations in
  match recommendations with
  | [] => [ "Content quality is excellent! Focus on promotion and link building." ]
  | _ => recommendations
  end.

(** The weighted average of [check_content], before any rounding:
    [readability * 0.25 + eeat * 0.30 + seo * 0.25 + completeness * 0.20]. *)
Definition weighted_average (readability : Q) (eeat seo completeness : Z) : Q :=
  F64.add
    (F64.add
       (F64.add (F64.mul readability (F64.lit (25 # 100)))
                (F64.mul (F64.of_int eeat) (F64.lit (30 # 100))))
       (F64.mul (F64.of_int seo) (F64.lit (25 # 100))))
    (F64.mul (F64.of_int completeness) (F64.lit (20 # 100))).

(** [check_content(content, metadata)]; [None] stands for the default
    argument.  [round(n, 1)] leaves an integer sub-score as it is. *)
Definition check_content (content : string) (metadata : option (gmap string string))
    : QualityScore :=
  let metadata := default ∅ metadata in
  let readability := calculate_readability content in
  let eeat := calculate_eeat_score content in
  let seo := calculate_seo_score content metadata in
  let completeness := calculate_completeness content metadata in
  let overall := weighted_average readability eeat seo completeness in
  let grade := _get_grade overall in
  let recommendations :=
    _generate_recommendations readability eeat seo completeness content metadata in
  Build_QualityScore (F64.round overall 1) (F64.round readability 1)
                     eeat seo completeness grade recommendations.

(** A metadata value as a caller or the adapter, which passes decoded
    JSON on unchecked, hands it over: a string, or a value of another
    type (null, a number, a boolean, a list, an object), none of which
    has a [lower] method. *)
Inductive meta_value : Type :=
| Text (s : string)
| Other.

(** [metadata.get(key, '').lower()] *)
Definition get_lower (metadata : gmap string meta_value) (key : string)
    : py_result string :=
  match metadata !! key with
  | None => Ok (PyStr.lower EmptyString)
  | Some (Text s) => Ok (PyStr.lower s)
  | Some Other => Raise AttributeError
  end.

(** The string values of a metadata dict. *)
Definition texts (metadata : gmap string meta_value) : gmap string string :=
  omap (fun v => match v with Text s => Some s | Other => None end) metadata.

(** [calculate_seo_score] on a metadata dict with values of any type:
    the three reads at the head of the function, each of which raises
    [AttributeError] on a value that is not a string, then the test of
    the keyword.  The rest of the body reads the metadata no further and
    is [calculate_seo_score] on the three strings. *)
Definition calculate_seo_score_any (content : string)
    (metadata : gmap string meta_value) : py_result Z :=
  bind (get_lower metadata "target_keyword") (fun target_keyword =>
  bind (get_lower metadata "title") (fun title =>
  bind (get_lower metadata "meta_description") (fun meta_description =>
  if String.eqb target_keyword EmptyString then Ok 50%Z
  else Ok (calculate_seo_score content (texts metadata))))).

End ContentQualityChecker.

(* ================================================================== *)
(** * cli_wrapper.py *)
(* ================================================================== *)

Module CliWrapper.

(** The dict [pillar_data] of a request, with values of the types of the
    dataclass fields; a missing [clusters] key is the empty list. *)
Record pillar_data : Type := PillarData {
  data_title : option string;
  data_target_keyword : option string;
  data_description : option string;
  data_word_count : option Z;
  data_url_slug : option string;
  data_clusters : list TopicClusterGenerator.cluster_data
}.

Definition _dict_to_pillar (pillar_data : pillar_data) : PillarPage.t :=
  let pillar :=
    PillarPage.make
      (default "" (data_title pillar_data))
      (default "" (data_target_keyword pillar_data))
      (default "" (data_description pillar_data))
      []
      (default 3000%Z (data_word_count pillar_data))
      (default "" (data_url_slug pillar_data)) in
  fold_left
    (fun pillar cluster_data =>
       let cluster :=
         ClusterContent.make
           (default "" (TopicClusterGenerator.data_title cluster_data))
           (default "" (TopicClusterGenerator.data_target_keyword cluster_data))
           (default 0%Z (TopicClusterGenerator.data_search_volume cluster_data))
           (default "medium" (TopicClusterGenerator.data_difficulty cluster_data))
           (default 1500%Z (TopicClusterGenerator.data_word_count cluster_data))
           "blog_post"
           (default "" (TopicClusterGenerator.data_url_slug cluster_data)) in
       PillarPage.add_cluster pillar cluster)
    (data_clusters pillar_data) pillar.

End CliWrapper.

(* ================================================================== *)
(** * Reference definitions the properties are stated against *)
(* ================================================================== *)

Module Reference.

Import TopicClusterGenerator.

(** The edge [a -> b] between two clusters: a link from the slug of
    [a] to the slug of [b], anchored at the keyword of [b]. *)
Definition edge (a b : ClusterContent.t) : link :=
  {| link_from := ClusterContent.url_slug a;
     link_to := ClusterContent.url_slug b;
     anchor_text := ClusterContent.target_keyword b;
     context := "Related topic link" |}.

(** The forward window as the specification words it: for every index
    [i], one edge to position [i+1] and one to position [i+2], wherever
    the target exists. *)
Definition window_links (clusters : list ClusterContent.t) : list link :=
  flat_map
    (fun i =>
       flat_map
         (fun j =>
            match clusters !! i, clusters !! j with
            | Some c1, Some c2 => [edge c1 c2]
            | _, _ => []
            end)
         [i + 1; i + 2])
    (seq 0 (length clusters)).

(** The same window without the edges between two clusters that are
    equal field by field. *)
Definition distinct_window_links (clusters : list ClusterContent.t) : list link :=
  flat_map
    (fun i =>
       flat_map
         (fun j =>
            match clusters !! i, clusters !! j with
            | Some c1, Some c2 =>
                if decide (c1 = c2) then [] else [edge c1 c2]
            | _, _ => []
            end)
         [i + 1; i + 2])
    (seq 0 (length clusters)).

(** The ideas of each template list with the topic already in place. *)
Definition guide_ideas (topic : string) : list string :=
  [ "What is " +:+ topic; "How to " +:+ topic; topic +:+ " for beginners";
    topic +:+ " best practices"; topic +:+ " tips and tricks";
    topic +:+ " tools and resources"; topic +:+ " examples";
    topic +:+ " mistakes to avoid"; topic +:+ " checklist";
    topic +:+ " step by step guide" ].

Definition product_ideas (topic : string) : list string :=
  [ "Best " +:+ topic; topic +:+ " reviews"; topic +:+ " comparison";
    topic +:+ " pricing"; topic +:+ " features"; topic +:+ " alternatives";
    "How to choose " +:+ topic; topic +:+ " for small business";
    topic +:+ " for enterprise"; topic +:+ " vs competitors" ].

Definition service_ideas (topic : string) : list string :=
  [ topic +:+ " services"; topic +:+ " cost"; "How to hire " +:+ topic;
    topic +:+ " benefits"; topic +:+ " process"; topic +:+ " case studies";
    topic +:+ " ROI"; topic +:+ " consultant"; topic +:+ " agency";
    "DIY " +:+ topic +:+ " vs professional" ].

Definition ideas_for (template_type topic : string) : list string :=
  if String.eqb template_type "product" then product_ideas topic
  else if String.eqb template_type "service" then service_ideas topic
  else guide_ideas topic.

(** How many templates [templates[:count]] keeps of a list of [n]. *)
Definition kept (n : nat) (count : Z) : nat :=
  if (count <? 0)%Z then Z.to_nat (Z.of_nat n + count)
  else Nat.min (Z.to_nat count) n.

(** The modifier list of each intent and the fixed order of the intents. *)
Definition modifiers_of (intent : UserIntentAnalyzer.SearchIntent) : list string :=
  match intent with
  | UserIntentAnalyzer.INFORMATIONAL => UserIntentAnalyzer.INFORMATIONAL_MODIFIERS
  | UserIntentAnalyzer.NAVIGATIONAL => UserIntentAnalyzer.NAVIGATIONAL_MODIFIERS
  | UserIntentAnalyzer.COMMERCIAL => UserIntentAnalyzer.COMMERCIAL_MODIFIERS
  | UserIntentAnalyzer.TRANSACTIONAL => UserIntentAnalyzer.TRANSACTIONAL_MODIFIERS
  end.

Definition position (intent : UserIntentAnalyzer.SearchIntent) : nat :=
  match intent with
  | UserIntentAnalyzer.INFORMATIONAL => 0
  | UserIntentAnalyzer.NAVIGATIONAL => 1
  | UserIntentAnalyzer.COMMERCIAL => 2
  | UserIntentAnalyzer.TRANSACTIONAL => 3
  end.

(** The text that [analyze_query] matches against. *)
Definition normalized (query : string) : string := PyStr.strip (PyStr.lower query).

(** A modifier occurs in a text as a whole word, whatever the case. *)
Definition occurs (modifier text : string) : bool :=
  Re.search (UserIntentAnalyzer.compiled (UserIntentAnalyzer.compile_modifier modifier))
            text.

Fixpoint count_where {A} (f : A -> bool) (l : list A) : nat :=
  match l with
  | [] => 0
  | x :: l' => if f x then S (count_where f l') else count_where f l'
  end.

(** The modifier-match count of an intent for a query. *)
Definition match_count (query : string) (intent : UserIntentAnalyzer.SearchIntent) : Z :=
  Z.of_nat (count_where (fun modifier => occurs modifier (normalized query))
                        (modifiers_of intent)).

(** The four counts as the items of the dict [intent_scores]. *)
Definition counts (query : string) : list (UserIntentAnalyzer.SearchIntent * Z) :=
  [ (UserIntentAnalyzer.INFORMATIONAL,
     match_count query UserIntentAnalyzer.INFORMATIONAL);
    (UserIntentAnalyzer.NAVIGATIONAL,
     match_count query UserIntentAnalyzer.NAVIGATIONAL);
    (UserIntentAnalyzer.COMMERCIAL,
     match_count query UserIntentAnalyzer.COMMERCIAL);
    (UserIntentAnalyzer.TRANSACTIONAL,
     match_count query UserIntentAnalyzer.TRANSACTIONAL) ].

Definition max4 (a b c d : Z) : Z := Z.max (Z.max a b) (Z.max c d).
Definition sum4 (a b c d : Z) : Z := (a + b + c + d)%Z.

(** The maximum and the sum of the four counts of a query. *)
Abbreviation max_count query :=
  (max4 (match_count query UserIntentAnalyzer.INFORMATIONAL)
        (match_count query UserIntentAnalyzer.NAVIGATIONAL)
        (match_count query UserIntentAnalyzer.COMMERCIAL)
        (match_count query UserIntentAnalyzer.TRANSACTIONAL)).

Abbreviation total_count query :=
  (sum4 (match_count query UserIntentAnalyzer.INFORMATIONAL)
        (match_count query UserIntentAnalyzer.NAVIGATIONAL)
        (match_count query UserIntentAnalyzer.COMMERCIAL)
        (match_count query UserIntentAnalyzer.TRANSACTIONAL)).

(** [round(m / t, 2)] is a two-place decimal between 0 and 1 that lies
    within 0.0051 of the exact ratio. *)
Definition ratio_close (m t : nat) : bool :=
  let ratio := F64.div_int (Z.of_nat m) (Z.of_nat t) in
  let k := F64.round_half_even (ratio * inject_Z (10 ^ Z.of_nat 2)) in
  (0 <=? k)%Z && (k <=? 100)%Z
  && Qle_bool (Qabs (F64.round ratio 2 - inject_Z (Z.of_nat m) / inject_Z (Z.of_nat t)))
              (51 # 10000).

(** Two clusters with the same field values: a pillar that lists the
    same article twice. *)
Definition twin : ClusterContent.t :=
  ClusterContent.make "Email basics" "email basics" 0 "medium" 1500 "blog_post" "".

Definition twin_pillar : PillarPage.t :=
  PillarPage.make "Email" "email" "All about email" [twin; twin] 3000 "".

(** [round(x, 1)] of a score: the float of k/10 stays between 0 and 100. *)
Definition tenth_in_range (k : nat) : bool :=
  let x := F64.rnd (inject_Z (Z.of_nat k) / inject_Z (10 ^ Z.of_nat 1)) in
  Qle_bool 0 x && Qle_bool x 100.

(** The weighted sum of the specification in exact arithmetic:
    0.25 readability + 0.30 eeat + 0.25 seo + 0.20 completeness. *)
Definition exact_weighted_sum (readability : Q) (eeat seo completeness : Z) : Q :=
  ((25 # 100) * readability + (30 # 100) * inject_Z eeat
   + (25 # 100) * inject_Z seo + (20 # 100) * inject_Z completeness)%Q.

(** The same sum as binary64 evaluates it from left to right: each
    weight, each integer score, each product and each sum is rounded to
    the nearest float. *)
Definition float_weighted_sum (readability : Q) (eeat seo completeness : Z) : Q :=
  let w25 := F64.rnd (25 # 100) in
  let w30 := F64.rnd (30 # 100) in
  let w20 := F64.rnd (20 # 100) in
  F64.rnd
    (F64.rnd
       (F64.rnd (F64.rnd (readability * w25)
                 + F64.rnd (F64.rnd (inject_Z eeat) * w30))
        + F64.rnd (F64.rnd (inject_Z seo) * w25))
     + F64.rnd (F64.rnd (inject_Z completeness) * w20))%Q.

(** The weighted sum of the four sub-scores of a content and its
    metadata, before any rounding to a decimal place. *)
Definition weighted_score (content : string) (metadata : option (gmap string string)) : Q :=
  float_weighted_sum
    (ContentQualityChecker.calculate_readability content)
    (ContentQualityChecker.calculate_eeat_score content)
    (ContentQualityChecker.calculate_seo_score content (default ∅ metadata))
    (ContentQualityChecker.calculate_completeness content (default ∅ metadata)).

(** A short guide and its metadata, used to observe the grade at a
    rounding boundary. *)
Definition tea_guide : string :=
  "# Tea" +:+ String ContentQualityChecker.LF (String ContentQualityChecker.LF
  ("I tested ten teas. A certified taster published them. See the faq. "
   +:+ "We like it. A professional specialist is an authority. "
   +:+ "Research shows it helps. I found it calming. "
   +:+ String ContentQualityChecker.LF ("- one"
   +:+ String ContentQualityChecker.LF ("- two"
   +:+ String ContentQualityChecker.LF "In summary, for example, try tea.")))).

Definition tea_metadata : gmap string string :=
  <["title" := "Tea"]> (<["meta_description" := "A tea guide"]> ∅).

End Reference.

(* ================================================================== *)
(** * Reference definitions for the JSON export *)
(* ================================================================== *)

Module JsonReference.

Import TopicClusterGenerator.

(** What follows a value in the text: the end, a comma or a line feed. *)
Definition delimited (rest : string) : bool :=
  match rest with
  | EmptyString => true
  | String c _ => Json.code_is c 44 || Json.code_is c 10
  end.

Fixpoint weight (v : Json.value) : nat :=
  match v with
  | Json.Str _ | Json.Int _ => 1
  | Json.Arr xs => S (fold_right (fun x acc => S (weight x + acc)) 0 xs)
  | Json.Obj ms => S (fold_right (fun '(_, x) acc => S (weight x + acc)) 0 ms)
  end.

Fixpoint distinct (keys : list string) : bool :=
  match keys with
  | [] => true
  | k :: keys' => negb (existsb (String.eqb k) keys') && distinct keys'
  end.

Fixpoint wf (v : Json.value) : bool :=
  match v with
  | Json.Str _ | Json.Int _ => true
  | Json.Arr xs => forallb wf xs
  | Json.Obj ms => distinct (map fst ms) && forallb (fun '(_, x) => wf x) ms
  end.

Definition elems (n : nat) (xs : list Json.value) (tail : string) : string :=
  fold_right
    (fun y rest =>
       "," +:+ Json.newline_indent (n + 2) +:+ Json.dump (n + 2) y +:+ rest)
    tail xs.

Definition membs (n : nat) (ms : list (string * Json.value)) (tail : string) : string :=
  fold_right
    (fun '(k', y) rest =>
       "," +:+ Json.newline_indent (n + 2) +:+ Json.encode_string k' +:+ ": "
       +:+ Json.dump (n + 2) y +:+ rest)
    tail ms.

(** The first character of a printed value opens a string, a number, an
    array or an object. *)
Definition opens_value (c : ascii) : bool :=
  negb (Json.is_ws c) && negb (Json.code_is c 93) && negb (Json.code_is c 125).

Definition list_weight (xs : list Json.value) : nat :=
  fold_right (fun x acc => S (weight x + acc)) 0 xs.

Definition members_weight (ms : list (string * Json.value)) : nat :=
  fold_right (fun '(_, x) acc => S (weight x + acc)) 0 ms.

Definition members_wf (ms : list (string * Json.value)) : bool :=
  forallb (fun '(_, x) => wf x) ms.

(** The fields of a cluster that the JSON export writes. *)
Record exported_cluster : Type := ExportedCluster {
  ec_title : string;
  ec_target_keyword : string;
  ec_search_volume : Z;
  ec_difficulty : string;
  ec_word_count : Z;
  ec_url_slug : string
}.

Record exported_pillar : Type := ExportedPillar {
  ep_title : string;
  ep_target_keyword : string;
  ep_description : string;
  ep_word_count : Z;
  ep_url_slug : string;
  ep_clusters : list exported_cluster
}.

Definition cluster_fields (c : ClusterContent.t) : exported_cluster :=
  ExportedCluster (ClusterContent.title c) (ClusterContent.target_keyword c)
    (ClusterContent.search_volume c) (ClusterContent.difficulty c)
    (ClusterContent.word_count c) (ClusterContent.url_slug c).

Definition pillar_fields (p : PillarPage.t) : exported_pillar :=
  ExportedPillar (PillarPage.title p) (PillarPage.target_keyword p)
    (PillarPage.description p) (PillarPage.word_count p) (PillarPage.url_slug p)
    (map cluster_fields (PillarPage.clusters p)).

(** [d[k]] where a string, an integer or a list is expected. *)
Definition str_field (o : Json.value) (k : string) : option string :=
  match Json.get o k with
  | Some (Json.Str s) => Some s
  | _ => None
  end.

Definition int_field (o : Json.value) (k : string) : option Z :=
  match Json.get o k with
  | Some (Json.Int z) => Some z
  | _ => None
  end.

Definition arr_field (o : Json.value) (k : string) : option (list Json.value) :=
  match Json.get o k with
  | Some (Json.Arr xs) => Some xs
  | _ => None
  end.

Definition read_cluster (o : Json.value) : option exported_cluster :=
  title ← str_field o "title";
  target_keyword ← str_field o "target_keyword";
  search_volume ← int_field o "search_volume";
  difficulty ← str_field o "difficulty";
  word_count ← int_field o "word_count";
  url_slug ← str_field o "url_slug";
  Some (ExportedCluster title target_keyword search_volume difficulty
          word_count url_slug).

Fixpoint read_clusters (os : list Json.value) : option (list exported_cluster) :=
  match os with
  | [] => Some []
  | o :: os' =>
      c ← read_cluster o;
      cs ← read_clusters os';
      Some (c :: cs)
  end.

(** Reading the parsed export back, field by field. *)
Definition read_export (data : Json.value) : option exported_pillar :=
  p ← Json.get data "pillar";
  title ← str_field p "title";
  target_keyword ← str_field p "target_keyword";
  description ← str_field p "description";
  word_count ← int_field p "word_count";
  url_slug ← str_field p "url_slug";
  os ← arr_field data "clusters";
  clusters ← read_clusters os;
  Some (ExportedPillar title target_keyword description word_count url_slug
          clusters).

(** Two clusters that differ in their content type only. *)
Definition brewing (content_type : string) : ClusterContent.t :=
  ClusterContent.make "Brewing tea" "brewing tea" 100 "low" 1200 content_type "".

Definition tea_pillar (content_type : string) : PillarPage.t :=
  PillarPage.make "Tea" "tea" "All about tea" [brewing content_type] 3000 "".

End JsonReference.

(* ================================================================== *)
(** * Notions used by the further properties *)
(* ================================================================== *)

Module Measures.

(** One character of a slug: lowered, with the space replaced. *)
Definition slug_char (c : ascii) : ascii :=
  if Ascii.eqb (PyStr.lower_char c) " " then "-"%char else PyStr.lower_char c.

(** The slug of a title as the specification words it: the title in
    lower case with a hyphen for every space. *)
Fixpoint hyphenated (title : string) : string :=
  match title with
  | EmptyString => EmptyString
  | String c rest => String (slug_char c) (hyphenated rest)
  end.

Fixpoint all_chars (p : ascii -> bool) (s : string) : bool :=
  match s with
  | EmptyString => true
  | String c s' => p c && all_chars p s'
  end.

(** The link from the pillar to one of its clusters: it ends at the
    cluster's slug and is anchored on the cluster's keyword. *)
Definition spoke (pillar : PillarPage.t) (cluster : ClusterContent.t)
    : TopicClusterGenerator.link :=
  {| TopicClusterGenerator.link_from := PillarPage.url_slug pillar;
     TopicClusterGenerator.link_to := ClusterContent.url_slug cluster;
     TopicClusterGenerator.anchor_text := ClusterContent.target_keyword cluster;
     TopicClusterGenerator.context :=
       "Link from pillar page section about " +:+ ClusterContent.title cluster |}.

(** The link from a cluster back to the pillar: it ends at the pillar's
    slug and is anchored on the pillar's keyword. *)
Definition spoke_back (pillar : PillarPage.t) (cluster : ClusterContent.t)
    : TopicClusterGenerator.link :=
  {| TopicClusterGenerator.link_from := ClusterContent.url_slug cluster;
     TopicClusterGenerator.link_to := PillarPage.url_slug pillar;
     TopicClusterGenerator.anchor_text := PillarPage.target_keyword pillar;
     TopicClusterGenerator.context :=
       "Link to main " +:+ PillarPage.title pillar +:+ " guide" |}.

(** A link and the link back have their ends exchanged. *)
Definition mirrored (l1 l2 : TopicClusterGenerator.link) : Prop :=
  TopicClusterGenerator.link_from l1 = TopicClusterGenerator.link_to l2
  /\ TopicClusterGenerator.link_to l1 = TopicClusterGenerator.link_from l2.

(** The table row of one cluster in the Markdown export. *)
Definition markdown_row (cluster : ClusterContent.t) : string :=
  "| " +:+ ClusterContent.title cluster +:+ " | "
  +:+ ClusterContent.target_keyword cluster +:+ " | "
  +:+ NilZero.string_of_int (Z.to_int (ClusterContent.search_volume cluster))
  +:+ " | " +:+ ClusterContent.difficulty cluster +:+ " | "
  +:+ NilZero.string_of_int (Z.to_int (ClusterContent.word_count cluster))
  +:+ " |" +:+ String Json.LF EmptyString.

(** [d.get(k, 0)] on a dict given by its items. *)
Fixpoint dict_get (d : list (string * Z)) (k : string) : Z :=
  match d with
  | [] => 0%Z
  | (k', v) :: d' => if String.eqb k' k then v else dict_get d' k
  end.

(** The number of clusters of a difficulty. *)
Definition difficulty_count (k : string) (clusters : list ClusterContent.t) : Z :=
  Z.of_nat
    (length (filter (fun c => String.eqb (ClusterContent.difficulty c) k = true)
                    clusters)).

(** A word count of at most 53 bits, which a float holds exactly. *)
Definition modest (n : Z) : Prop := (- 2 ^ 53 <= n <= 2 ^ 53)%Z.

(** A pillar whose word counts divide without overflow: the clusters'
    are modest and the pillar's is not below [- 2 ^ 53]. *)
Definition modest_pillar (pillar : PillarPage.t) : Prop :=
  (- 2 ^ 53 <= PillarPage.word_count pillar)%Z
  /\ Forall (fun c => modest (ClusterContent.word_count c))
            (PillarPage.clusters pillar).

(** A pillar with one cluster of [10 ^ 400] words, and a pillar of
    [- 10 ^ 400] words. *)
Definition heavy_cluster_pillar : PillarPage.t :=
  PillarPage.make "Tea" "tea" "All about tea"
    [ ClusterContent.make "Brewing" "brewing tea" 10 "low" (10 ^ 400) "blog_post" "" ]
    3000 "".

Definition heavy_pillar : PillarPage.t :=
  PillarPage.make "Tea" "tea" "All about tea" [] (- 10 ^ 400) "".

(** A pillar that meets the three recommended minimums. *)
Definition excellent_coverage (pillar : PillarPage.t) : bool :=
  (10 <=? Z.of_nat (length (PillarPage.clusters pillar)))%Z
  && (3000 <=? PillarPage.word_count pillar)%Z
  && forallb (fun c => (1500 <=? ClusterContent.word_count c)%Z)
             (PillarPage.clusters pillar).

Definition excellent_coverage_message : string :=
  "Cluster coverage is excellent! Focus on content quality and promotion.".

(** The slug of a new object: the given one unless it is missing or
    empty, and the slug of the title then. *)
Definition slug_or_default (given : option string) (title : string) : string :=
  match given with
  | Some (String c s) => String c s
  | _ => slugify title
  end.

(** The text under which [analyze_query] reports a matched modifier:
    the pattern source with the characters [\] and [b] stripped from
    both ends. *)
Definition reported (modifier : string) : string :=
  PyStr.strip_chars "\b"
    (UserIntentAnalyzer.source (UserIntentAnalyzer.compile_modifier modifier)).

(** [text] begins with [word], whatever the case of the letters: the
    rest of the text behind the word. *)
Fixpoint behind (word text : string) : option string :=
  match word, text with
  | EmptyString, _ => Some text
  | String c word', String d text' =>
      if Ascii.eqb (PyStr.lower_char d) (PyStr.lower_char c)
      then behind word' text' else None
  | String _ _, EmptyString => None
  end.

Definition word_char (o : option ascii) : bool :=
  match o with
  | Some c => PyStr.is_word c
  | None => false
  end.

Definition first_char (s : string) : option ascii :=
  match s with
  | EmptyString => None
  | String c _ => Some c
  end.

Fixpoint last_char (s : string) : option ascii :=
  match s with
  | EmptyString => None
  | String c EmptyString => Some c
  | String _ s' => last_char s'
  end.

(** [word] stands at the head of [text] as a whole word: the character
    [prev] before it, if any, and the character behind it, if any, are
    no letter, digit or underscore. *)
Definition stands_at (word : string) (prev : option ascii) (text : string) : bool :=
  negb (word_char prev)
  && match behind word text with
     | Some rest => negb (word_char (first_char rest))
     | None => false
     end.

Fixpoint whole_word_from (word : string) (prev : option ascii) (text : string) : bool :=
  stands_at word prev text
  || match text with
     | EmptyString => false
     | String c text' => whole_word_from word (Some c) text'
     end.

(** [word] occurs somewhere in [text] as a whole word. *)
Definition whole_word (word text : string) : bool := whole_word_from word None text.

(** A word that begins and ends with a letter, digit or underscore. *)
Definition word_edged (word : string) : bool :=
  word_char (first_char word) && word_char (last_char word).

(** The primary intents of a batch of queries, and how many of them are
    a given intent. *)
Definition intents_of (queries : list string) : list UserIntentAnalyzer.SearchIntent :=
  map (fun q => UserIntentAnalyzer.primary_intent (UserIntentAnalyzer.analyze_query q))
      queries.

Definition tally (intent : UserIntentAnalyzer.SearchIntent)
    (intents : list UserIntentAnalyzer.SearchIntent) : Z :=
  Z.of_nat (Reference.count_where (fun i => bool_decide (i = intent)) intents).

(** Two analyses that agree on all but the echoed query. *)
Definition same_verdict (a b : UserIntentAnalyzer.analysis) : Prop :=
  UserIntentAnalyzer.primary_intent a = UserIntentAnalyzer.primary_intent b
  /\ UserIntentAnalyzer.confidence a = UserIntentAnalyzer.confidence b
  /\ UserIntentAnalyzer.intent_scores a = UserIntentAnalyzer.intent_scores b
  /\ UserIntentAnalyzer.matched_modifiers a = UserIntentAnalyzer.matched_modifiers b
  /\ UserIntentAnalyzer.recommendations a = UserIntentAnalyzer.recommendations b.

(** The characters that end a sentence. *)
Definition is_terminator (c : ascii) : bool :=
  Ascii.eqb c "." || Ascii.eqb c "!" || Ascii.eqb c "?".

Definition praise : string :=
  "Content quality is excellent! Focus on promotion and link building.".

(** A recommendation that does not begin like the line of praise. *)
Definition plain_advice (s : string) : Prop :=
  match s with
  | String c _ => c <> "C"%char
  | EmptyString => True
  end.

(** The intents that list a modifier, in the order of the intents. *)
Definition listed (modifier : string) : list UserIntentAnalyzer.SearchIntent :=
  List.filter
    (fun intent => existsb (String.eqb modifier) (Reference.modifiers_of intent))
    [ UserIntentAnalyzer.INFORMATIONAL; UserIntentAnalyzer.NAVIGATIONAL;
      UserIntentAnalyzer.COMMERCIAL; UserIntentAnalyzer.TRANSACTIONAL ].

(** What the analysis of a query that is one modifier should be: the
    first intent that lists it, with confidence 1 over the number of
    intents that list it. *)
Definition alone_ok (modifier : string) : bool :=
  match listed modifier with
  | [] => false
  | first :: rest =>
      bool_decide
        (UserIntentAnalyzer.primary_intent (UserIntentAnalyzer.analyze_query modifier)
         = first)
      && Qeq_bool
           (UserIntentAnalyzer.confidence (UserIntentAnalyzer.analyze_query modifier))
           (F64.round (F64.div_int 1 (Z.of_nat (S (length rest)))) 2)
  end.

End Measures.

(* ================================================================== *)
(** * Properties of the cluster planner *)
(* ================================================================== *)

Section ListLoops.

Context {A B : Type}.

(** A loop that appends to an accumulator is a [flat_map]. *)
Lemma fold_left_append (f : A -> list B) (l : list A) (init : list B) :
  fold_left (fun acc x => acc ++ f x) l init = init ++ flat_map f l.
Proof.
  revert init. induction l as [|x l IH]; intros init; simpl.
  - now rewrite app_nil_r.
  - rewrite IH. now rewrite <- app_assoc.
Qed.

Lemma fold_left_append_one (f : A -> B) (l : list A) (init : list B) :
  fold_left (fun acc x => acc ++ [f x]) l init = init ++ map f l.
Proof.
  revert init. induction l as [|x l IH]; intros init; simpl.
  - now rewrite app_nil_r.
  - rewrite IH. now rewrite <- app_assoc.
Qed.

(** A loop that appends under a guard. *)
Lemma fold_left_guarded (skip : A -> bool) (f : A -> B) (l : list A) (init : list B) :
  fold_left (fun acc x => if skip x then acc else acc ++ [f x]) l init
  = init ++ flat_map (fun x => if skip x then [] else [f x]) l.
Proof.
  revert init. induction l as [|x l IH]; intros init; simpl.
  - now rewrite app_nil_r.
  - rewrite IH. destruct (skip x); simpl.
    + reflexivity.
    + now rewrite <- app_assoc.
Qed.

(** [enumerate] pairs each element with its index in the whole list. *)
Lemma flat_map_enumerate (f : nat -> A -> list B) (pre l : list A) :
  flat_map (fun '(i, x) => f i x) (zip (seq (length pre) (length l)) l)
  = flat_map (fun i => match (pre ++ l) !! i with
                       | Some x => f i x
                       | None => []
                       end)
             (seq (length pre) (length l)).
Proof.
  revert pre. induction l as [|x l IH]; intros pre; simpl.
  - reflexivity.
  - rewrite list_lookup_middle by reflexivity. f_equal.
    specialize (IH (pre ++ [x])).
    rewrite length_app in IH. simpl in IH.
    rewrite Nat.add_1_r in IH. rewrite <- app_assoc in IH. simpl in IH.
    exact IH.
Qed.

(** The slice [l[k:k+2]] holds the elements at [k] and [k+1] that exist. *)
Lemma flat_map_slice2 (g : A -> list B) (l : list A) (k : nat) :
  flat_map g (PyStr.slice l k (k + 2))
  = flat_map (fun j => match l !! j with Some x => g x | None => [] end)
             [k; k + 1].
Proof.
  unfold PyStr.slice. replace (k + 2 - k) with 2 by lia.
  revert k. induction l as [|x l IH]; intros k.
  - rewrite drop_nil. simpl. rewrite ?lookup_nil. reflexivity.
  - destruct k as [|k].
    + simpl. destruct l as [|y l]; simpl; now rewrite ?app_nil_r.
    + simpl drop. rewrite IH. simpl. reflexivity.
Qed.

End ListLoops.

Section Linking.

Import TopicClusterGenerator Reference.

Lemma related_links_of_window (clusters : list ClusterContent.t) (i : nat)
    (c1 : ClusterContent.t) :
  related_links_of clusters i c1
  = flat_map
      (fun j =>
         match clusters !! j with
         | Some c2 => if decide (c1 = c2) then [] else [related_link c1 c2]
         | None => []
         end)
      [i + 1; i + 2].
Proof.
  unfold related_links_of.
  replace (i + 3) with (i + 1 + 2) by lia.
  replace (i + 2) with (i + 1 + 1) by lia.
  rewrite <- (flat_map_slice2
                (fun c2 => if decide (c1 = c2) then [] else [related_link c1 c2])).
  generalize (PyStr.slice clusters (i + 1) (i + 1 + 2)) as l.
  assert (forall (l : list ClusterContent.t) (init : list link),
             fold_left
               (fun acc cluster2 =>
                  if decide (c1 = cluster2) then acc
                  else acc ++ [related_link c1 cluster2]) l init
             = init ++ flat_map
                         (fun c2 => if decide (c1 = c2) then []
                                    else [related_link c1 c2]) l) as Hloop.
  { induction l as [|x l IH]; intros init; simpl.
    - now rewrite app_nil_r.
    - rewrite IH. destruct (decide (c1 = x)); simpl.
      + reflexivity.
      + now rewrite <- app_assoc. }
  intros l. apply (Hloop l []).
Qed.

(** C1 (amended): the cluster_to_cluster list of
    [generate_internal_linking_strategy] holds, in list order, one link
    cluster[i] -> cluster[i+1] and one link cluster[i] -> cluster[i+2]
    for every index [i] whose target exists and is not equal, field by
    field, to cluster[i]; it holds no other link.  Each link goes from
    the url_slug of cluster[i] to the url_slug of its target and is
    anchored on the target's keyword ([Reference.edge]). *)
Theorem cluster_links_distinct_window (pillar : PillarPage.t) :
  cluster_to_cluster (generate_internal_linking_strategy pillar)
  = distinct_window_links (PillarPage.clusters pillar).
Proof.
  unfold generate_internal_linking_strategy, distinct_window_links, edge. simpl.
  generalize (PillarPage.clusters pillar). intros cs.
  assert (forall (l : list (nat * ClusterContent.t)) (init : list link),
             fold_left
               (fun acc '(i, cluster1) => acc ++ related_links_of cs i cluster1)
               l init
             = init ++ flat_map (fun '(i, c1) => related_links_of cs i c1) l)
    as Hloop.
  { induction l as [|[i c1] l IH]; intros init; simpl.
    - now rewrite app_nil_r.
    - rewrite IH. now rewrite <- app_assoc. }
  rewrite Hloop. simpl. unfold PyStr.enumerate.
  pose proof (flat_map_enumerate (fun i c1 => related_links_of cs i c1) [] cs)
    as Henum.
  simpl in Henum. rewrite Henum. clear Henum Hloop.
  apply flat_map_ext. intros i.
  destruct (cs !! i) as [c1|] eqn:Hi.
  - rewrite related_links_of_window. simpl.
    destruct (cs !! (i + 1)), (cs !! (i + 2)); reflexivity.
  - simpl. destruct (cs !! (i + 1)), (cs !! (i + 2)); reflexivity.
Qed.

(** Where no cluster equals one of its two successors, the guard never
    fires and the window is the one the specification describes. *)
Lemma distinct_window_is_window (clusters : list ClusterContent.t) :
  (forall i j c1 c2, clusters !! i = Some c1 -> clusters !! j = Some c2 ->
                     j = i + 1 \/ j = i + 2 -> c1 <> c2) ->
  distinct_window_links clusters = window_links clusters.
Proof.
  intros Hd. unfold distinct_window_links, window_links.
  apply flat_map_ext. intros i. simpl.
  destruct (clusters !! i) as [c1|] eqn:Hi; [|reflexivity].
  destruct (clusters !! (i + 1)) as [c2|] eqn:H1;
    destruct (clusters !! (i + 2)) as [c3|] eqn:H2;
    repeat match goal with
           | |- context [decide (?a = ?b)] =>
               destruct (decide (a = b)) as [E|_];
               [exfalso; revert E; eapply Hd; eauto; lia|]
           end; reflexivity.
Qed.

(** For four clusters that differ from their successors the links are
    c0->c1, c0->c2, c1->c2, c1->c3, c2->c3. *)
Lemma cluster_links_of_four (pillar : PillarPage.t) (c0 c1 c2 c3 : ClusterContent.t) :
  PillarPage.clusters pillar = [c0; c1; c2; c3] ->
  c0 <> c1 -> c0 <> c2 -> c1 <> c2 -> c1 <> c3 -> c2 <> c3 ->
  cluster_to_cluster (generate_internal_linking_strategy pillar)
  = [ edge c0 c1; edge c0 c2; edge c1 c2; edge c1 c3; edge c2 c3 ].
Proof.
  intros Hcs H01 H02 H12 H13 H23.
  rewrite cluster_links_distinct_window, Hcs.
  unfold distinct_window_links. simpl.
  repeat match goal with
         | |- context [decide (?a = ?b)] =>
             destruct (decide (a = b)); [congruence|]
         end.
  reflexivity.
Qed.

(** C1 (as stated) fails: with two clusters equal by value the window
    rule asks for the link c0 -> c1, and the strategy holds no link. *)
Lemma cluster_links_skip_equal_clusters :
  window_links (PillarPage.clusters twin_pillar) = [edge twin twin]
  /\ cluster_to_cluster (generate_internal_linking_strategy twin_pillar) = []
  /\ cluster_to_cluster (generate_internal_linking_strategy twin_pillar)
     <> window_links (PillarPage.clusters twin_pillar).
Proof.
  split; [reflexivity|]. split; [reflexivity|]. discriminate.
Qed.

End Linking.

Section ClusterIdeas.

Import TopicClusterGenerator Reference.

Lemma append_empty_r (s : string) : s +:+ EmptyString = s.
Proof. induction s as [|c s IH]; simpl; congruence. Qed.

Lemma format_guide (topic : string) :
  map (fun template => format template topic) guide_templates = guide_ideas topic.
Proof. cbn. now rewrite !append_empty_r. Qed.

Lemma format_product (topic : string) :
  map (fun template => format template topic) product_templates = product_ideas topic.
Proof. cbn. now rewrite !append_empty_r. Qed.

Lemma format_service (topic : string) :
  map (fun template => format template topic) service_templates = service_ideas topic.
Proof. cbn. now rewrite ?append_empty_r. Qed.

(** The template list selected for a type, with the guide list as the
    fallback of [dict.get]. *)
Lemma selected_templates (template_type topic : string) :
  map (fun template => format template topic)
      (default guide_templates (SUBTOPIC_TEMPLATES !! template_type))
  = ideas_for template_type topic.
Proof.
  unfold SUBTOPIC_TEMPLATES, ideas_for.
  destruct (String.eqb_spec template_type "product") as [->|Hp];
    [exact (format_product topic)|].
  destruct (String.eqb_spec template_type "service") as [->|Hs];
    [exact (format_service topic)|].
  destruct (decide (template_type = "guide")) as [->|Hg];
    [exact (format_guide topic)|].
  rewrite !lookup_insert_ne by congruence.
  rewrite lookup_empty. exact (format_guide topic).
Qed.

Lemma ideas_for_length (template_type topic : string) :
  length (ideas_for template_type topic) = 10.
Proof.
  unfold ideas_for.
  destruct (String.eqb template_type "product"); [reflexivity|].
  destruct (String.eqb template_type "service"); reflexivity.
Qed.

Lemma slice_to_take {A} (l : list A) (count : Z) :
  PyStr.slice_to l count = take (kept (length l) count) l.
Proof.
  unfold PyStr.slice_to, kept. destruct (count <? 0)%Z; [reflexivity|].
  destruct (Nat.le_gt_cases (Z.to_nat count) (length l)) as [Hle|Hgt].
  - now rewrite Nat.min_l.
  - rewrite Nat.min_r by lia. rewrite take_ge by lia. now rewrite take_ge.
Qed.

(** C9 (amended): [generate_cluster_ideas] returns the templates that
    the slice [templates[:count]] keeps of the selected list (the guide
    list for an unknown type), in template-list order, each with its
    [{topic}] placeholder replaced by the topic: the first
    [min(count, 10)] for [count >= 0] and the first [max(0, 10 + count)]
    for [count < 0]; for ("coffee", "guide", 5) these are the first five
    guide ideas. *)
Theorem generate_cluster_ideas_slice (topic template_type : string) (count : Z) :
  generate_cluster_ideas topic template_type count
  = take (kept 10 count) (ideas_for template_type topic)
  /\ length (generate_cluster_ideas topic template_type count)
     = Nat.min (kept 10 count) 10
  /\ generate_cluster_ideas "coffee" "guide" 5
     = [ "What is coffee"; "How to coffee"; "coffee for beginners";
         "coffee best practices"; "coffee tips and tricks" ].
Proof.
  assert (generate_cluster_ideas topic template_type count
          = take (kept 10 count) (ideas_for template_type topic)) as Heq.
  { unfold generate_cluster_ideas.
    rewrite (fold_left_append_one (fun template => format template topic)).
    simpl. rewrite slice_to_take, <- firstn_map, selected_templates.
    replace (length (default guide_templates (SUBTOPIC_TEMPLATES !! template_type)))
      with 10; [reflexivity|].
    rewrite <- (ideas_for_length template_type topic).
    rewrite <- (selected_templates template_type topic).
    now rewrite length_map. }
  split; [exact Heq|]. split; [|reflexivity].
  rewrite Heq, length_take, ideas_for_length. reflexivity.
Qed.

(** C9 (as stated) fails for a negative count: the claim gives
    [min(-1, 10)] templates, that is none, and the slice keeps nine. *)
Lemma generate_cluster_ideas_negative_count :
  generate_cluster_ideas "coffee" "guide" (-1)
  = [ "What is coffee"; "How to coffee"; "coffee for beginners";
      "coffee best practices"; "coffee tips and tricks";
      "coffee tools and resources"; "coffee examples";
      "coffee mistakes to avoid"; "coffee checklist" ]
  /\ Z.of_nat (length (generate_cluster_ideas "coffee" "guide" (-1)))
     <> Z.min (-1) (Z.of_nat (length guide_templates))
  /\ generate_cluster_ideas "coffee" "guide" (-1)
     <> take (Z.to_nat (Z.min (-1) (Z.of_nat (length guide_templates))))
             (ideas_for "guide" "coffee").
Proof.
  split; [reflexivity|]. split; [discriminate|]. discriminate.
Qed.

End ClusterIdeas.

(* ================================================================== *)
(** * Properties of the intent classifier *)
(* ================================================================== *)

Section IntentScores.

Import UserIntentAnalyzer Reference.

Lemma matches_of_length (modifiers : list string) (text : string) :
  length (matches_of (map compile_modifier modifiers) text)
  = count_where (fun modifier => occurs modifier text) modifiers.
Proof.
  unfold matches_of.
  assert (forall (ms : list string) (init : list string),
             length
               (fold_left
                  (fun matches p =>
                     if Re.search (compiled p) text
                     then matches ++ [PyStr.strip_chars "\b" (source p)]
                     else matches)
                  (map compile_modifier ms) init)
             = length init + count_where (fun m => occurs m text) ms) as Hloop.
  { induction ms as [|m ms IH]; intros init.
    - simpl. lia.
    - cbn [map fold_left count_where]. rewrite IH. unfold occurs at 2.
      destruct (Re.search (compiled (compile_modifier m)) text).
      + rewrite length_app. simpl. lia.
      + lia. }
  apply (Hloop modifiers []).
Qed.

Lemma scores_counts (q : string) :
  scores_of (all_matches (normalized q)) = counts q.
Proof.
  unfold scores_of, all_matches, intent_patterns, _compile_patterns, counts, match_count.
  cbn [map]. now rewrite !matches_of_length.
Qed.

(** The scores of [analyze_query] are the modifier-match counts of the
    four intents, in the fixed order. *)
Lemma intent_scores_counts (q : string) :
  intent_scores (analyze_query q) = counts q.
Proof.
  unfold analyze_query. cbv zeta. fold (normalized q). rewrite scores_counts.
  destruct (decide_intent _ _) as [p c]. reflexivity.
Qed.

Lemma count_where_le {A} (f : A -> bool) (l : list A) :
  count_where f l <= length l.
Proof.
  induction l as [|x l IH]; simpl; [lia|]. destruct (f x); lia.
Qed.

Lemma count_where_zero {A} (f : A -> bool) (l : list A) (x : A) :
  count_where f l = 0 -> In x l -> f x = false.
Proof.
  induction l as [|y l IH]; simpl; [tauto|].
  destruct (f y) eqn:Hy; [discriminate|].
  intros H0 [->|Hin]; auto.
Qed.

Lemma match_count_range (q : string) (intent : SearchIntent) :
  (0 <= match_count q intent <= Z.of_nat (length (modifiers_of intent)))%Z.
Proof.
  unfold match_count.
  pose proof (count_where_le (fun m => occurs m (normalized q)) (modifiers_of intent)).
  lia.
Qed.

(** [analyze_query] in terms of the four counts. *)
Lemma analyze_query_decides (q : string) :
  primary_intent (analyze_query q) = fst (decide_intent (counts q) (normalized q))
  /\ confidence (analyze_query q)
     = F64.round (snd (decide_intent (counts q) (normalized q))) 2.
Proof.
  unfold analyze_query. cbv zeta. fold (normalized q). rewrite scores_counts.
  destruct (decide_intent _ _) as [p c]. split; reflexivity.
Qed.

Lemma decide_intent_fallback (a b c d : Z) (text : string) :
  a = 0%Z -> b = 0%Z -> c = 0%Z -> d = 0%Z ->
  decide_intent [ (INFORMATIONAL, a); (NAVIGATIONAL, b);
                  (COMMERCIAL, c); (TRANSACTIONAL, d) ] text
  = _apply_heuristics text.
Proof. intros -> -> -> ->. reflexivity. Qed.

(** [max(d.items(), key=...)] over the four items: the first maximum. *)
Lemma max_by_four (a b c d : Z) (p : SearchIntent) :
  let count intent :=
    match intent with
    | INFORMATIONAL => a
    | NAVIGATIONAL => b
    | COMMERCIAL => c
    | TRANSACTIONAL => d
    end in
  default INFORMATIONAL
    (fst <$> PyStr.max_by snd [ (INFORMATIONAL, a); (NAVIGATIONAL, b);
                                (COMMERCIAL, c); (TRANSACTIONAL, d) ])
  = p ->
  (forall j, (count j <= count p)%Z)
  /\ (forall j, position j < position p -> (count j < count p)%Z).
Proof.
  intros count <-. unfold PyStr.max_by. cbn [fold_left snd count].
  repeat match goal with
         | |- context [(?x <? ?y)%Z] =>
             is_var x; is_var y; destruct (Z.ltb_spec x y); cbn [snd]
         end;
    (split; intros j; destruct j; cbn; intros; lia).
Qed.

Lemma max_of_four (a b c d : Z) :
  default 0%Z (PyStr.max_by id [a; b; c; d]) = max4 a b c d.
Proof.
  unfold PyStr.max_by, id, max4. cbn [fold_left default].
  repeat match goal with
         | |- context [(?x <? ?y)%Z] =>
             is_var x; is_var y; destruct (Z.ltb_spec x y)
         end; lia.
Qed.

Lemma decide_intent_scored (a b c d : Z) (text : string) :
  (0 <= a)%Z -> (0 <= b)%Z -> (0 <= c)%Z -> (0 <= d)%Z ->
  (0 < sum4 a b c d)%Z ->
  decide_intent [ (INFORMATIONAL, a); (NAVIGATIONAL, b);
                  (COMMERCIAL, c); (TRANSACTIONAL, d) ] text
  = (default INFORMATIONAL
       (fst <$> PyStr.max_by snd [ (INFORMATIONAL, a); (NAVIGATIONAL, b);
                                   (COMMERCIAL, c); (TRANSACTIONAL, d) ]),
     F64.div_int (max4 a b c d) (sum4 a b c d)).
Proof.
  intros Ha Hb Hc Hd Hpos. unfold decide_intent. cbn [map values snd forallb].
  assert (((a =? 0)%Z && ((b =? 0)%Z && ((c =? 0)%Z && ((d =? 0)%Z && true)))) = false)
    as ->.
  { unfold sum4 in Hpos.
    destruct (Z.eqb_spec a 0), (Z.eqb_spec b 0), (Z.eqb_spec c 0), (Z.eqb_spec d 0);
      cbn; try reflexivity; lia. }
  cbv zeta. rewrite max_of_four. unfold sum. cbn [fold_left].
  replace (0 + a + b + c + d)%Z with (sum4 a b c d) by (unfold sum4; lia).
  apply Z.ltb_lt in Hpos. now rewrite Hpos.
Qed.

Lemma analyze_query_fallback (q : string) :
  (forall intent, match_count q intent = 0%Z) ->
  primary_intent (analyze_query q) = fst (_apply_heuristics (normalized q))
  /\ confidence (analyze_query q)
     = F64.round (snd (_apply_heuristics (normalized q))) 2.
Proof.
  intros Hz. destruct (analyze_query_decides q) as [Hp Hc]. rewrite Hp, Hc.
  unfold counts. rewrite decide_intent_fallback by apply Hz. split; reflexivity.
Qed.

Lemma four_counts_positive (a b c d : Z) :
  (0 <= a <= 18)%Z -> (0 <= b <= 8)%Z -> (0 <= c <= 14)%Z -> (0 <= d <= 18)%Z ->
  (a <> 0 \/ b <> 0 \/ c <> 0 \/ d <> 0)%Z ->
  (1 <= max4 a b c d <= sum4 a b c d)%Z /\ (sum4 a b c d <= 58)%Z.
Proof. unfold max4, sum4. lia. Qed.

Lemma counts_positive (q : string) :
  (exists intent, match_count q intent <> 0%Z) ->
  (1 <= max_count q <= total_count q)%Z /\ (total_count q <= 58)%Z.
Proof.
  intros [i Hi].
  apply four_counts_positive.
  - exact (match_count_range q INFORMATIONAL).
  - exact (match_count_range q NAVIGATIONAL).
  - exact (match_count_range q COMMERCIAL).
  - exact (match_count_range q TRANSACTIONAL).
  - destruct i; [left|right; left|right; right; left|right; right; right];
      exact Hi.
Qed.

Lemma analyze_query_scored (q : string) :
  (exists intent, match_count q intent <> 0%Z) ->
  primary_intent (analyze_query q)
  = default INFORMATIONAL (fst <$> PyStr.max_by snd (counts q))
  /\ confidence (analyze_query q)
     = F64.round (F64.div_int (max_count q) (total_count q)) 2.
Proof.
  intros Hnz. destruct (analyze_query_decides q) as [Hp Hc]. rewrite Hp, Hc.
  pose proof (counts_positive q Hnz) as [[Hmax Hle] _].
  unfold counts. rewrite decide_intent_scored.
  - cbn [fst snd]. split; reflexivity.
  - exact (proj1 (match_count_range q INFORMATIONAL)).
  - exact (proj1 (match_count_range q NAVIGATIONAL)).
  - exact (proj1 (match_count_range q COMMERCIAL)).
  - exact (proj1 (match_count_range q TRANSACTIONAL)).
  - revert Hmax Hle. generalize (max_count q), (total_count q). intros; lia.
Qed.

(** C5: when some intent has a nonzero modifier-match count, the
    primary intent of [analyze_query] has the maximum count, and every
    intent before it in the order informational, navigational,
    commercial_investigation, transactional has a strictly smaller count;
    the counts are the [intent_scores] of the result. *)
Theorem primary_intent_first_maximum (q : string) :
  (exists intent, match_count q intent <> 0%Z) ->
  intent_scores (analyze_query q) = counts q
  /\ (forall j, (match_count q j <= match_count q (primary_intent (analyze_query q)))%Z)
  /\ (forall j, position j < position (primary_intent (analyze_query q)) ->
                (match_count q j < match_count q (primary_intent (analyze_query q)))%Z).
Proof.
  intros Hnz. split; [apply intent_scores_counts|].
  destruct (analyze_query_scored q Hnz) as [Hp _].
  pose proof (max_by_four (match_count q INFORMATIONAL) (match_count q NAVIGATIONAL)
                (match_count q COMMERCIAL) (match_count q TRANSACTIONAL)
                (primary_intent (analyze_query q)) (eq_sym Hp)) as [Hle Hlt].
  split.
  - intros j. specialize (Hle j).
    destruct j, (primary_intent (analyze_query q)); exact Hle.
  - intros j Hpos. specialize (Hlt j Hpos).
    destruct j, (primary_intent (analyze_query q)); exact Hlt.
Qed.

Lemma primary_intent_first_maximum_witness :
  (exists intent, match_count "seo tools comparison" intent <> 0%Z)
  /\ primary_intent (analyze_query "seo tools comparison") = INFORMATIONAL
  /\ (forall j, (match_count "seo tools comparison" j
                 <= match_count "seo tools comparison"
                      (primary_intent (analyze_query "seo tools comparison")))%Z).
Proof.
  assert (exists intent, match_count "seo tools comparison" intent <> 0%Z) as Hnz.
  { exists COMMERCIAL. vm_compute. discriminate. }
  split; [exact Hnz|]. split; [vm_compute; reflexivity|].
  exact (proj1 (proj2 (primary_intent_first_maximum "seo tools comparison" Hnz))).
Defined.

Lemma forallb_seq (f : nat -> bool) (a n : nat) :
  forallb f (seq a n) = true -> forall m, a <= m < a + n -> f m = true.
Proof.
  intros Hall m Hm. rewrite forallb_forall in Hall. apply Hall, in_seq. lia.
Qed.

Lemma ratio_table_ok :
  forallb (fun t => forallb (fun m => ratio_close m t) (seq 1 t)) (seq 1 58) = true.
Proof. vm_compute. reflexivity. Qed.

Lemma ratio_close_in_range (m t : nat) :
  1 <= m <= t -> t <= 58 -> ratio_close m t = true.
Proof.
  intros Hm Ht.
  pose proof (forallb_seq (fun t => forallb (fun m => ratio_close m t) (seq 1 t))
                1 58 ratio_table_ok t ltac:(lia)) as Hrow.
  exact (forallb_seq (fun m => ratio_close m t) 1 t Hrow m ltac:(lia)).
Qed.

(** C7 (amended): when some intent has a nonzero modifier-match count,
    the confidence of [analyze_query] is the ratio of the maximum count
    to the sum of the four counts rounded to two decimal places: the
    float of a decimal k/100 with 0 <= k <= 100 that lies within 0.0051
    of the ratio. *)
Theorem confidence_rounded_ratio (q : string) :
  (exists intent, match_count q intent <> 0%Z) ->
  confidence (analyze_query q)
  = F64.round (F64.div_int (max_count q) (total_count q)) 2
  /\ (exists k, (0 <= k <= 100)%Z
                /\ confidence (analyze_query q) = F64.rnd (inject_Z k / 100))
  /\ (Qabs (confidence (analyze_query q)
            - inject_Z (max_count q) / inject_Z (total_count q)) <= 51 # 10000)%Q.
Proof.
  intros Hnz. destruct (analyze_query_scored q Hnz) as [_ Hc].
  split; [exact Hc|]. rewrite Hc.
  pose proof (counts_positive q Hnz) as Hr. clear Hnz Hc.
  revert Hr. generalize (max_count q) as m. generalize (total_count q) as t.
  intros t m Hr.
  pose proof (ratio_close_in_range (Z.to_nat m) (Z.to_nat t)) as Hclose.
  specialize (Hclose ltac:(lia) ltac:(lia)).
  unfold ratio_close in Hclose. cbv zeta in Hclose.
  rewrite !Z2Nat.id in Hclose by lia.
  apply andb_prop in Hclose. destruct Hclose as [Hk Hq].
  apply andb_prop in Hk. destruct Hk as [Hk0 Hk1].
  apply Z.leb_le in Hk0, Hk1. apply Qle_bool_iff in Hq.
  split; [|exact Hq].
  eexists. split; [split; [exact Hk0|exact Hk1]|]. reflexivity.
Qed.

Lemma confidence_rounded_ratio_witness :
  (exists intent, match_count "how what best" intent <> 0%Z)
  /\ confidence (analyze_query "how what best")
     = F64.round (F64.div_int (max_count "how what best")
                              (total_count "how what best")) 2.
Proof.
  assert (exists intent, match_count "how what best" intent <> 0%Z) as Hnz.
  { exists INFORMATIONAL. vm_compute. discriminate. }
  split; [exact Hnz|].
  exact (proj1 (confidence_rounded_ratio "how what best" Hnz)).
Defined.

(** C7 (as stated) fails: for "how what best" the counts are 2, 0, 1, 0;
    the confidence is the float of 0.67, which is neither the ratio 2/3
    nor the float quotient 2 / 3. *)
Lemma confidence_not_exact_ratio :
  max_count "how what best" = 2%Z
  /\ total_count "how what best" = 3%Z
  /\ confidence (analyze_query "how what best") = F64.rnd (67 # 100)
  /\ ~ (confidence (analyze_query "how what best") == 2 # 3)%Q
  /\ ~ (confidence (analyze_query "how what best") == F64.div_int 2 3)%Q.
Proof.
  split; [vm_compute; reflexivity|]. split; [vm_compute; reflexivity|].
  split; [vm_compute; reflexivity|].
  split; vm_compute; discriminate.
Qed.

Lemma prefix_split (p s : string) :
  String.prefix p s = true -> exists rest, s = p +:+ rest.
Proof.
  revert s. induction p as [|c p IH]; intros s.
  - intros _. now exists s.
  - destruct s as [|d s]; simpl; [discriminate|].
    destruct (ascii_dec c d) as [->|]; [|discriminate].
    intros Hp. destruct (IH s Hp) as [rest ->]. now exists rest.
Qed.

(** A text that starts with an interrogative word and a space contains
    that word as a whole word. *)
Lemma interrogative_occurs (word text : string) :
  In word [ "how"; "what"; "why"; "when"; "where" ] ->
  PyStr.startswith (word +:+ " ") text = true ->
  occurs word text = true.
Proof.
  intros Hin Hp. apply prefix_split in Hp. destruct Hp as [rest ->].
  simpl in Hin.
  repeat (destruct Hin as [<-|Hin]; [vm_compute; reflexivity|]).
  destruct Hin.
Qed.

Lemma two_place_literals :
  F64.round (F64.lit (6 # 10)) 2 = F64.lit (6 # 10)
  /\ F64.round (F64.lit (5 # 10)) 2 = F64.lit (5 # 10)
  /\ F64.round (F64.lit (4 # 10)) 2 = F64.lit (4 # 10).
Proof. repeat split; vm_compute; reflexivity. Qed.

(** C10: for a query with no modifier match at all, the text handed to
    the fallback does not start with "how ", "what ", "why ", "when " or
    "where ", since such a start would be an informational match; so the
    fallback returns navigational with 0.6 or informational with 0.5 or
    0.4, and never its first branch with 0.8. *)
Theorem interrogative_fallback_unreachable (q : string) :
  (forall intent, match_count q intent = 0%Z) ->
  existsb (fun p => PyStr.startswith p (normalized q))
          [ "how "; "what "; "why "; "when "; "where " ] = false
  /\ ((primary_intent (analyze_query q) = NAVIGATIONAL
       /\ confidence (analyze_query q) = F64.lit (6 # 10))
      \/ (primary_intent (analyze_query q) = INFORMATIONAL
          /\ confidence (analyze_query q) = F64.lit (5 # 10))
      \/ (primary_intent (analyze_query q) = INFORMATIONAL
          /\ confidence (analyze_query q) = F64.lit (4 # 10))).
Proof.
  intros Hz.
  assert (forall word, In word [ "how"; "what"; "why"; "when"; "where" ] ->
                       PyStr.startswith (word +:+ " ") (normalized q) = false) as Hno.
  { intros word Hin.
    destruct (PyStr.startswith (word +:+ " ") (normalized q)) eqn:Hp; [|reflexivity].
    pose proof (interrogative_occurs word (normalized q) Hin Hp) as Hocc.
    specialize (Hz INFORMATIONAL). unfold match_count in Hz.
    assert (count_where (fun m => occurs m (normalized q))
                        (modifiers_of INFORMATIONAL) = 0) as H0 by lia.
    rewrite (count_where_zero _ _ word H0) in Hocc; [discriminate|].
    simpl in Hin. simpl. tauto. }
  assert (existsb (fun p => PyStr.startswith p (normalized q))
                  [ "how "; "what "; "why "; "when "; "where " ] = false) as Hstart.
  { pose proof (Hno "how" ltac:(simpl; tauto)) as H1.
    pose proof (Hno "what" ltac:(simpl; tauto)) as H2.
    pose proof (Hno "why" ltac:(simpl; tauto)) as H3.
    pose proof (Hno "when" ltac:(simpl; tauto)) as H4.
    pose proof (Hno "where" ltac:(simpl; tauto)) as H5.
    cbn [String.append] in H1, H2, H3, H4, H5.
    cbn [existsb]. now rewrite H1, H2, H3, H4, H5. }
  split; [exact Hstart|].
  destruct (analyze_query_fallback q Hz) as [Hp Hc]. rewrite Hp, Hc.
  unfold _apply_heuristics. rewrite Hstart. cbn [fst snd].
  destruct two_place_literals as [H6 [H5 H4]].
  destruct (_ && _); [left; split; [reflexivity|exact H6]|].
  destruct (3 <=? _); right; [left|right]; (split; [reflexivity|assumption]).
Qed.

Lemma interrogative_fallback_unreachable_witness :
  (forall intent, match_count "starbucks" intent = 0%Z)
  /\ primary_intent (analyze_query "starbucks") = NAVIGATIONAL
  /\ existsb (fun p => PyStr.startswith p (normalized "starbucks"))
             [ "how "; "what "; "why "; "when "; "where " ] = false.
Proof.
  assert (forall intent, match_count "starbucks" intent = 0%Z) as Hz.
  { intros intent. destruct intent; vm_compute; reflexivity. }
  split; [exact Hz|]. split; [vm_compute; reflexivity|].
  exact (proj1 (interrogative_fallback_unreachable "starbucks" Hz)).
Defined.

(** C2 (failing input): on the empty query list the percentage
    computation divides by the length of the list, and
    [get_intent_distribution] raises instead of returning a report. *)
Theorem distribution_of_no_queries_raises :
  get_intent_distribution [] = Raise ZeroDivisionError.
Proof. reflexivity. Qed.

End IntentScores.

(* ================================================================== *)
(** * Properties of the quality scorer *)
(* ================================================================== *)

Section Rounding.

(** [round_half_even x] is an integer within one half of [x]. *)
Lemma round_half_even_cases (x : Q) :
  let n := Qnum x in
  let d := Z.pos (Qden x) in
  let k := F64.round_half_even x in
  (2 * (k * d - n) <= d /\ 2 * (n - k * d) <= d)%Z.
Proof.
  intros n d k. unfold k, F64.round_half_even. fold n. fold d.
  assert (0 < d)%Z as Hd by (unfold d; lia).
  pose proof (Z.div_mod n d ltac:(lia)) as Hdm.
  pose proof (Z.mod_pos_bound n d Hd) as Hmod.
  set (f := (n / d)%Z) in *.
  destruct (Z.ltb_spec (2 * (n - f * d)) d);
    [|destruct (Z.ltb_spec d (2 * (n - f * d))); [|destruct (Z.even f)]]; nia.
Qed.

Lemma round_half_even_close (x : Q) :
  (Qabs (inject_Z (F64.round_half_even x) - x) <= 1 # 2)%Q.
Proof.
  pose proof (round_half_even_cases x) as [H1 H2]. cbv zeta in H1, H2.
  apply Qabs_Qle_condition. destruct x as [n d]. cbn [Qnum Qden] in *.
  set (k := F64.round_half_even (n # d)) in *.
  unfold Qle, Qminus, Qplus, Qopp, inject_Z. cbn [Qnum Qden].
  split; lia.
Qed.

Lemma round_half_even_bounds (x : Q) (lo hi : Z) :
  (inject_Z lo <= x)%Q -> (x <= inject_Z hi)%Q ->
  (lo <= F64.round_half_even x <= hi)%Z.
Proof.
  intros Hlo Hhi. pose proof (round_half_even_cases x) as [H1 H2].
  cbv zeta in H1, H2. destruct x as [n d]. cbn [Qnum Qden] in *.
  set (k := F64.round_half_even (n # d)) in *.
  unfold Qle, inject_Z in Hlo, Hhi. cbn [Qnum Qden] in Hlo, Hhi.
  split; nia.
Qed.

(** [round(x, 1)] is the float of a one-place decimal within 0.05 of [x]. *)
Lemma round1_decimal (x : Q) :
  exists k : Z,
    F64.round x 1 = F64.rnd (inject_Z k / 10)
    /\ (Qabs (inject_Z k / 10 - x) <= 1 # 20)%Q.
Proof.
  exists (F64.round_half_even (x * 10)). split; [reflexivity|].
  pose proof (round_half_even_close (x * 10)) as Hc.
  apply Qabs_Qle_condition in Hc. apply Qabs_Qle_condition.
  destruct Hc as [Hc1 Hc2]. unfold Qdiv. change (/ 10)%Q with (1 # 10)%Q.
  split; lra.
Qed.

Lemma tenth_table_ok : forallb Reference.tenth_in_range (seq 0 1001) = true.
Proof. vm_compute. reflexivity. Qed.

(** Rounding a score to one place keeps it between 0 and 100. *)
Lemma round1_score (x : Q) :
  (0 <= x <= 100)%Q -> (0 <= F64.round x 1 <= 100)%Q.
Proof.
  intros [H0 H100].
  pose proof (round_half_even_bounds (x * inject_Z (10 ^ Z.of_nat 1)) 0 1000) as Hk.
  assert (0 <= F64.round_half_even (x * inject_Z (10 ^ Z.of_nat 1)) <= 1000)%Z
    as Hr.
  { apply Hk; change (inject_Z (10 ^ Z.of_nat 1)) with 10%Q;
      [change (inject_Z 0) with 0%Q | change (inject_Z 1000) with 1000%Q]; lra. }
  clear Hk. unfold F64.round. cbv zeta.
  revert Hr. generalize (F64.round_half_even (x * inject_Z (10 ^ Z.of_nat 1))).
  intros k Hr.
  pose proof tenth_table_ok as Htab. rewrite forallb_forall in Htab.
  specialize (Htab (Z.to_nat k)).
  assert (In (Z.to_nat k) (seq 0 1001)) as Hin by (apply in_seq; lia).
  specialize (Htab Hin). unfold Reference.tenth_in_range in Htab.
  cbv zeta in Htab. rewrite Z2Nat.id in Htab by lia.
  apply andb_prop in Htab. destruct Htab as [Ha Hb].
  apply Qle_bool_iff in Ha, Hb. split; assumption.
Qed.

(** The clamp [max(0, min(100, x))]. *)
Lemma ltb_spec (x y : Q) :
  (F64.ltb x y = true /\ (x < y)%Q) \/ (F64.ltb x y = false /\ (y <= x)%Q).
Proof.
  unfold F64.ltb. destruct (Qle_bool y x) eqn:H; cbn [negb].
  - right. split; [reflexivity|]. now apply Qle_bool_iff.
  - left. split; [reflexivity|]. apply Qnot_le_lt. rewrite <- Qle_bool_iff. congruence.
Qed.

Lemma clamp_score (x : Q) : (0 <= F64.max 0 (F64.min 100 x) <= 100)%Q.
Proof.
  unfold F64.max, F64.min.
  destruct (ltb_spec x 100) as [[-> H1]|[-> H1]].
  - destruct (ltb_spec 0 x) as [[-> H2]|[-> H2]]; lra.
  - destruct (ltb_spec 0 100) as [[-> H2]|[-> H2]]; lra.
Qed.

End Rounding.

(* ================================================================== *)
(** * Floats: rounding keeps the order and stays close *)
(* ================================================================== *)

Section Floats.

Local Open Scope Q_scope.

Lemma pow2_Qpower (e : Z) : F64.pow2 e == 2 ^ e.
Proof.
  unfold F64.pow2. destruct (Z.leb_spec 0 e) as [H|H].
  - exact (Zpower_Qpower 2 e H).
  - destruct e as [|p|p]; try lia.
    change (- Z.neg p)%Z with (Z.pos p).
    change (2 ^ Z.neg p) with (/ (2 ^ Z.pos p)).
    rewrite <- (Zpower_Qpower 2 (Z.pos p)) by lia.
    assert (0 < 2 ^ Z.pos p)%Z as Hp by (apply Z.pow_pos_nonneg; lia).
    destruct (2 ^ Z.pos p)%Z as [|q|q]; try lia.
    reflexivity.
Qed.

Lemma pow2_pos (e : Z) : 0 < F64.pow2 e.
Proof. rewrite pow2_Qpower. apply Qpower_0_lt. reflexivity. Qed.

Lemma Qpower2_succ (e : Z) : 2 ^ (e + 1) == 2 * 2 ^ e.
Proof.
  rewrite Qpower_plus by discriminate. change (2 ^ 1) with 2. ring.
Qed.

Lemma Qpower2_pos (e : Z) : 0 < 2 ^ e.
Proof. apply Qpower_0_lt. reflexivity. Qed.

(** [ilog2 x] is the binary exponent of [x]. *)
Lemma ilog2_spec (x : Q) :
  0 < x -> 2 ^ F64.ilog2 x <= x /\ x < 2 ^ (F64.ilog2 x + 1).
Proof.
  intros Hx. destruct x as [n d].
  assert (0 < n)%Z as Hn by (unfold Qlt in Hx; simpl in Hx; lia).
  unfold F64.ilog2. cbn [Qnum Qden].
  pose proof (Z.log2_spec n Hn) as [Ha1 Ha2].
  pose proof (Z.log2_spec (Z.pos d) eq_refl) as [Hb1 Hb2].
  pose proof (Z.log2_nonneg n) as Ha0.
  pose proof (Z.log2_nonneg (Z.pos d)) as Hb0.
  set (a := Z.log2 n) in *. set (b := Z.log2 (Z.pos d)) in *.
  rewrite Z.pow_succ_r in Ha2, Hb2 by assumption.
  assert (2 ^ (a - b) * inject_Z (2 ^ b) == inject_Z (2 ^ a)) as He.
  { rewrite !Zpower_Qpower by assumption.
    change (inject_Z 2) with 2.
    rewrite <- Qpower_plus by discriminate.
    now replace (a - b + b)%Z with a by lia. }
  assert (0 < inject_Z (2 ^ b)) as HB.
  { change 0 with (inject_Z 0). rewrite <- Zlt_Qlt. lia. }
  pose proof (Qpower2_pos (a - b)) as Hq.
  set (q := 2 ^ (a - b)) in *.
  assert ((n # d) * inject_Z (Z.pos d) == inject_Z n) as Hxd.
  { rewrite (Qmake_Qdiv n d). field. discriminate. }
  assert (inject_Z (2 ^ a) <= inject_Z n) as HA1 by (rewrite <- Zle_Qle; lia).
  assert (inject_Z n < 2 * inject_Z (2 ^ a)) as HA2.
  { change 2 with (inject_Z 2). rewrite <- inject_Z_mult, <- Zlt_Qlt. lia. }
  assert (inject_Z (2 ^ b) <= inject_Z (Z.pos d)) as HB1 by (rewrite <- Zle_Qle; lia).
  assert (inject_Z (Z.pos d) < 2 * inject_Z (2 ^ b)) as HB2.
  { change 2 with (inject_Z 2). rewrite <- inject_Z_mult, <- Zlt_Qlt. lia. }
  set (N := inject_Z n) in *. set (D := inject_Z (Z.pos d)) in *.
  set (A := inject_Z (2 ^ a)) in *. set (B := inject_Z (2 ^ b)) in *.
  set (x := n # d) in *.
  destruct (Qle_bool (F64.pow2 (a - b)) x) eqn:Hle.
  - apply Qle_bool_iff in Hle. rewrite pow2_Qpower in Hle. fold q in Hle.
    split; [exact Hle|]. rewrite Qpower2_succ. fold q. nra.
  - assert (x < q) as Hlt.
    { apply Qnot_le_lt. intros H.
      assert (F64.pow2 (a - b) <= x) as H' by (rewrite pow2_Qpower; exact H).
      apply Qle_bool_iff in H'. congruence. }
    replace (a - b - 1 + 1)%Z with (a - b)%Z by lia. fold q.
    split; [|exact Hlt].
    assert (2 * 2 ^ (a - b - 1) == q) as Hh.
    { rewrite <- Qpower2_succ. unfold q.
      now replace (a - b - 1 + 1)%Z with (a - b)%Z by lia. }
    set (h := 2 ^ (a - b - 1)) in *. nra.
Qed.

Lemma round_half_even_tie (x : Q) :
  let n := Qnum x in
  let d := Z.pos (Qden x) in
  let k := F64.round_half_even x in
  (2 * (k * d - n) = d \/ 2 * (n - k * d) = d)%Z -> Z.even k = true.
Proof.
  intros n d k. unfold k, F64.round_half_even. fold n d. cbv zeta.
  pose proof (Z.div_mod n d ltac:(lia)) as Hdm.
  pose proof (Z.mod_pos_bound n d ltac:(lia)) as Hmod.
  set (f := (n / d)%Z) in *.
  destruct (Z.ltb_spec (2 * (n - f * d)) d); [intros; lia|].
  destruct (Z.ltb_spec d (2 * (n - f * d))); [intros; lia|].
  destruct (Z.even f) eqn:E; [auto|]. intros _.
  replace (f + 1)%Z with (Z.succ f) by lia.
  rewrite Z.even_succ, <- Z.negb_even, E. reflexivity.
Qed.

(** Rounding to the nearest integer keeps the order. *)
Lemma round_half_even_mono (x y : Q) :
  x <= y -> (F64.round_half_even x <= F64.round_half_even y)%Z.
Proof.
  intros Hxy.
  pose proof (round_half_even_cases x) as [Hx1 _].
  pose proof (round_half_even_cases y) as [_ Hy2].
  pose proof (round_half_even_tie x) as Tx.
  pose proof (round_half_even_tie y) as Ty.
  cbv zeta in *. unfold Qle in Hxy.
  set (kx := F64.round_half_even x) in *. set (ky := F64.round_half_even y) in *.
  set (n := Qnum x) in *. set (n' := Qnum y) in *.
  set (d := Z.pos (Qden x)) in *. set (d' := Z.pos (Qden y)) in *.
  assert (0 < d)%Z as Hd by (unfold d; lia).
  assert (0 < d')%Z as Hd' by (unfold d'; lia).
  destruct (Z_le_gt_dec kx ky) as [|Hgt]; [assumption|exfalso].
  assert ((kx - ky) * (d * d') + (n' * d - n * d') <= d * d')%Z as Hsum by nia.
  assert (kx = ky + 1)%Z as Hk by nia.
  assert (n' * d = n * d')%Z as Hn by nia.
  assert (2 * (kx * d - n) = d)%Z as Hex by nia.
  assert (2 * (n' - ky * d') = d')%Z as Hey by nia.
  specialize (Tx (or_introl Hex)). specialize (Ty (or_intror Hey)).
  rewrite Hk in Tx. replace (ky + 1)%Z with (Z.succ ky) in Tx by lia.
  rewrite Z.even_succ, <- Z.negb_even, Ty in Tx. discriminate.
Qed.

Lemma scaled_range (x : Q) :
  0 < x ->
  inject_Z (2 ^ 52) <= x / 2 ^ (F64.ilog2 x - 52)
  /\ x / 2 ^ (F64.ilog2 x - 52) <= inject_Z (2 ^ 53).
Proof.
  intros Hx. destruct (ilog2_spec x Hx) as [Hlo Hhi].
  rewrite Qpower2_succ in Hhi.
  set (l := F64.ilog2 x) in *.
  assert (2 ^ l == 2 ^ (l - 52) * inject_Z (2 ^ 52)) as Hl.
  { rewrite (Zpower_Qpower 2 52) by lia. change (inject_Z 2) with 2.
    rewrite <- Qpower_plus by discriminate.
    now replace (l - 52 + 52)%Z with l by lia. }
  pose proof (Qpower2_pos (l - 52)) as Hs.
  set (s := 2 ^ (l - 52)) in *.
  assert (inject_Z (2 ^ 53) == 2 * inject_Z (2 ^ 52)) as H53 by reflexivity.
  split.
  - apply Qle_shift_div_l; [exact Hs|]. nra.
  - apply Qle_shift_div_r; [exact Hs|]. nra.
Qed.

Lemma rnd_pos_eq (x : Q) :
  F64.rnd_pos x
  == inject_Z (F64.round_half_even (x / 2 ^ (F64.ilog2 x - 52)))
     * 2 ^ (F64.ilog2 x - 52).
Proof.
  unfold F64.rnd_pos. cbv zeta. rewrite Qred_correct.
  assert (x / F64.pow2 (F64.ilog2 x - 52) == x / 2 ^ (F64.ilog2 x - 52)) as H
    by (now rewrite pow2_Qpower).
  assert (F64.round_half_even (x / F64.pow2 (F64.ilog2 x - 52))
          = F64.round_half_even (x / 2 ^ (F64.ilog2 x - 52))) as Hk.
  { apply Z.le_antisymm; apply round_half_even_mono; rewrite H; apply Qle_refl. }
  rewrite Hk, pow2_Qpower. reflexivity.
Qed.

Lemma rnd_pos_bounds (x : Q) :
  0 < x ->
  2 ^ F64.ilog2 x <= F64.rnd_pos x /\ F64.rnd_pos x <= 2 ^ (F64.ilog2 x + 1).
Proof.
  intros Hx. rewrite rnd_pos_eq. destruct (scaled_range x Hx) as [Hlo Hhi].
  pose proof (round_half_even_bounds _ _ _ Hlo Hhi) as [Hk1 Hk2].
  rewrite Zle_Qle in Hk1, Hk2.
  rewrite Qpower2_succ.
  set (l := F64.ilog2 x) in *.
  assert (2 ^ l == 2 ^ (l - 52) * inject_Z (2 ^ 52)) as Hl.
  { rewrite (Zpower_Qpower 2 52) by lia. change (inject_Z 2) with 2.
    rewrite <- Qpower_plus by discriminate.
    now replace (l - 52 + 52)%Z with l by lia. }
  pose proof (Qpower2_pos (l - 52)) as Hs.
  set (s := 2 ^ (l - 52)) in *.
  assert (inject_Z (2 ^ 53) == 2 * inject_Z (2 ^ 52)) as H53 by reflexivity.
  set (k := inject_Z (F64.round_half_even (x / s))) in *.
  rewrite Hl. split; nra.
Qed.

Lemma rnd_pos_mono (x y : Q) :
  0 < x -> x <= y -> F64.rnd_pos x <= F64.rnd_pos y.
Proof.
  intros Hx Hxy. assert (0 < y) as Hy by lra.
  destruct (ilog2_spec x Hx) as [Hx1 Hx2].
  destruct (ilog2_spec y Hy) as [Hy1 Hy2].
  assert (F64.ilog2 x < F64.ilog2 y + 1)%Z as Hl.
  { apply (Qpower_lt_compat_l_inv 2); [lra|reflexivity]. }
  destruct (Z.eq_dec (F64.ilog2 x) (F64.ilog2 y)) as [E|NE].
  - rewrite !rnd_pos_eq, E.
    pose proof (Qpower2_pos (F64.ilog2 y - 52)) as Hs.
    apply Qmult_le_compat_r; [|lra].
    rewrite <- Zle_Qle. apply round_half_even_mono.
    apply Qmult_le_compat_r; [exact Hxy|].
    apply Qlt_le_weak, Qinv_lt_0_compat, Hs.
  - destruct (rnd_pos_bounds x Hx) as [_ Hbx].
    destruct (rnd_pos_bounds y Hy) as [Hby _].
    assert (2 ^ (F64.ilog2 x + 1) <= 2 ^ F64.ilog2 y) as Hp.
    { apply Qpower_le_compat_l; [lia|discriminate]. }
    lra.
Qed.

Lemma rnd_pos_positive (x : Q) : 0 < x -> 0 < F64.rnd_pos x.
Proof.
  intros Hx. destruct (rnd_pos_bounds x Hx) as [H _].
  pose proof (Qpower2_pos (F64.ilog2 x)). lra.
Qed.

(** Rounding to a float keeps the order. *)
Lemma rnd_mono (x y : Q) : x <= y -> F64.rnd x <= F64.rnd y.
Proof.
  intros Hxy. unfold F64.rnd.
  destruct x as [nx dx], y as [ny dy]. cbn [Qnum].
  assert (forall n d, 0 < Z.pos n # d) as Hpos by (intros; reflexivity).
  assert (forall n d, Z.neg n # d < 0) as Hneg by (intros; reflexivity).
  assert (forall n d, 0 < - (Z.neg n # d)) as Hopp by (intros; reflexivity).
  destruct nx as [|px|px], ny as [|py|py];
    rewrite ?Qred_correct;
    try (exfalso; unfold Qle in Hxy; simpl in Hxy; lia).
  - apply Qle_refl.
  - apply Qlt_le_weak, rnd_pos_positive, Hpos.
  - apply rnd_pos_mono; [apply Hpos|exact Hxy].
  - pose proof (rnd_pos_positive _ (Hopp px dx)). lra.
  - pose proof (rnd_pos_positive _ (Hopp px dx)).
    pose proof (rnd_pos_positive _ (Hpos py dy)). lra.
  - pose proof (rnd_pos_mono (- (Z.neg py # dy)) (- (Z.neg px # dx)) (Hopp py dy)).
    lra.
Qed.

Lemma rnd_canonical (x : Q) : Qred (F64.rnd x) = F64.rnd x.
Proof.
  unfold F64.rnd. destruct (Qnum x); [reflexivity| |];
    unfold F64.rnd_pos; cbv zeta;
    apply Qred_complete, Qred_correct.
Qed.

(** Equal rationals round to the same float. *)
Lemma rnd_eq (x y : Q) : x == y -> F64.rnd x = F64.rnd y.
Proof.
  intros H. rewrite <- (rnd_canonical x), <- (rnd_canonical y).
  apply Qred_complete, Qle_antisym; apply rnd_mono; rewrite H; apply Qle_refl.
Qed.

(** [round(x, ndigits)] keeps the order. *)
Lemma round_mono (x y : Q) (ndigits : nat) :
  x <= y -> F64.round x ndigits <= F64.round y ndigits.
Proof.
  intros Hxy. unfold F64.round. cbv zeta. apply rnd_mono.
  assert (0 < inject_Z (10 ^ Z.of_nat ndigits)) as Hp.
  { change 0 with (inject_Z 0). rewrite <- Zlt_Qlt.
    apply Z.pow_pos_nonneg; lia. }
  apply Qmult_le_compat_r; [|apply Qlt_le_weak, Qinv_lt_0_compat, Hp].
  rewrite <- Zle_Qle. apply round_half_even_mono.
  apply Qmult_le_compat_r; [exact Hxy|lra].
Qed.


Lemma rnd_between (x lo hi a b : Q) :
  lo <= x <= hi -> a <= F64.rnd lo -> F64.rnd hi <= b -> a <= F64.rnd x <= b.
Proof.
  intros [H1 H2] Ha Hb.
  pose proof (rnd_mono _ _ H1). pose proof (rnd_mono _ _ H2). lra.
Qed.


Lemma round_half_even_int (x : Q) (k : Z) :
  x == inject_Z k -> F64.round_half_even x = k.
Proof.
  intros H.
  assert (inject_Z k <= x) as H1 by (rewrite H; apply Qle_refl).
  assert (x <= inject_Z k) as H2 by (rewrite H; apply Qle_refl).
  pose proof (round_half_even_bounds x k k H1 H2). lia.
Qed.

Lemma rnd_pos_int (z : Z) :
  (0 < z < 2 ^ 53)%Z -> F64.rnd_pos (inject_Z z) == inject_Z z.
Proof.
  intros Hz.
  assert (0 < inject_Z z) as Hx by (change 0 with (inject_Z 0); rewrite <- Zlt_Qlt; lia).
  destruct (ilog2_spec _ Hx) as [Hlo Hhi].
  rewrite rnd_pos_eq.
  set (l := F64.ilog2 (inject_Z z)) in *.
  assert (l <= 52)%Z as Hl.
  { destruct (Z_le_gt_dec l 52) as [|Hgt]; [assumption|exfalso].
    assert (2 ^ 53 <= 2 ^ l) as Hp by (apply Qpower_le_compat_l; [lia|discriminate]).
    assert (inject_Z z < 2 ^ 53) as Hzq.
    { rewrite <- (Zpower_Qpower 2 53) by lia. rewrite <- Zlt_Qlt. lia. }
    lra. }
  pose proof (Qpower2_pos (l - 52)) as Hs.
  assert (2 ^ (l - 52) * inject_Z (2 ^ (52 - l)) == 1) as He.
  { rewrite Zpower_Qpower by lia. change (inject_Z 2) with 2.
    rewrite <- Qpower_plus by discriminate.
    now replace (l - 52 + (52 - l))%Z with 0%Z by lia. }
  set (s := 2 ^ (l - 52)) in *. set (t := inject_Z (2 ^ (52 - l))) in *.
  assert (inject_Z z / s == inject_Z (z * 2 ^ (52 - l))) as Hq.
  { rewrite inject_Z_mult. fold t.
    apply Qmult_inj_r with s; [lra|].
    unfold Qdiv. rewrite <- !Qmult_assoc, (Qmult_comm (/ s) s), (Qmult_comm t s), He.
    rewrite Qmult_inv_r by lra. reflexivity. }
  rewrite (round_half_even_int _ _ Hq), inject_Z_mult. fold t.
  rewrite <- Qmult_assoc, (Qmult_comm t s), He. ring.
Qed.

(** An integer of at most 53 bits is a float. *)
Lemma rnd_int_exact (z : Z) :
  (- 2 ^ 53 <= z <= 2 ^ 53)%Z -> F64.rnd (inject_Z z) == inject_Z z.
Proof.
  intros Hz. destruct (Z.eq_dec z (2 ^ 53)%Z) as [->|N1]; [vm_compute; reflexivity|].
  destruct (Z.eq_dec z (- 2 ^ 53)%Z) as [->|N2]; [vm_compute; reflexivity|].
  destruct z as [|p|p].
  - reflexivity.
  - change (F64.rnd (inject_Z (Z.pos p))) with (F64.rnd_pos (inject_Z (Z.pos p))).
    apply rnd_pos_int. lia.
  - change (F64.rnd (inject_Z (Z.neg p)))
      with (Qred (- F64.rnd_pos (inject_Z (Z.pos p)))).
    rewrite Qred_correct, rnd_pos_int by lia. reflexivity.
Qed.

(** Rounding to a float moves a positive number by at most one part in
    [2 ^ 53]. *)
Lemma rnd_pos_error (x : Q) :
  0 < x ->
  - (x * (1 # 2 ^ 53)) <= F64.rnd_pos x - x <= x * (1 # 2 ^ 53).
Proof.
  intros Hx. rewrite rnd_pos_eq.
  destruct (ilog2_spec x Hx) as [Hlo _].
  set (l := F64.ilog2 x) in *.
  assert (2 ^ l == 2 ^ (l - 52) * inject_Z (2 ^ 52)) as Hl.
  { rewrite (Zpower_Qpower 2 52) by lia. change (inject_Z 2) with 2.
    rewrite <- Qpower_plus by discriminate.
    now replace (l - 52 + 52)%Z with l by lia. }
  pose proof (Qpower2_pos (l - 52)) as Hs.
  set (s := 2 ^ (l - 52)) in *.
  pose proof (round_half_even_close (x / s)) as Hc.
  apply Qabs_Qle_condition in Hc. destruct Hc as [Hc1 Hc2].
  set (k := inject_Z (F64.round_half_even (x / s))) in *.
  assert (x == x / s * s) as Hy by (field; lra).
  revert Hc1 Hc2 Hy. generalize (x / s) as y. intros y Hc1 Hc2 Hy.
  assert (inject_Z (2 ^ 52) == 4503599627370496) as E52 by reflexivity.
  assert ((1 # 2 ^ 53) == (1 # 9007199254740992)) as E53 by reflexivity.
  rewrite E53. rewrite Hl, E52 in Hlo.
  clearbody k s. clear Hl E52 E53.
  assert ((k - y) * s <= (1 # 2) * s) as U1
    by (apply Qmult_le_compat_r; lra).
  assert ((- (1 # 2)) * s <= (k - y) * s) as U2
    by (apply Qmult_le_compat_r; lra).
  rewrite Hy in *. split; lra.
Qed.

Lemma rnd_error (x bound : Q) :
  - bound <= x <= bound ->
  - (bound * (1 # 2 ^ 53)) <= F64.rnd x - x <= bound * (1 # 2 ^ 53).
Proof.
  intros [Hb1 Hb2].
  assert ((1 # 2 ^ 53) == (1 # 9007199254740992)) as E53 by reflexivity.
  unfold F64.rnd. destruct x as [n d]. cbn [Qnum].
  destruct n as [|p|p].
  - assert (0 # d == 0) as E by reflexivity. rewrite E in *. rewrite E53. lra.
  - assert (0 < Z.pos p # d) as Hpos by reflexivity.
    pose proof (rnd_pos_error _ Hpos) as He. rewrite E53 in *. lra.
  - assert (0 < - (Z.neg p # d)) as Hpos by reflexivity.
    pose proof (rnd_pos_error _ Hpos) as He. rewrite Qred_correct.
    rewrite E53 in *. lra.
Qed.

(** A quotient of integers that rounds into a range of 53 bits does
    not overflow. *)
Lemma truediv_within (a b lo hi : Z) :
  b <> 0%Z -> (- 2 ^ 53 <= lo)%Z -> (hi <= 2 ^ 53)%Z ->
  inject_Z lo <= inject_Z a / inject_Z b <= inject_Z hi ->
  F64.truediv a b = Ok (F64.div_int a b)
  /\ inject_Z lo <= F64.div_int a b <= inject_Z hi.
Proof.
  intros Hb Hlo Hhi [H1 H2].
  assert (inject_Z lo <= F64.div_int a b <= inject_Z hi) as Hr.
  { assert (lo <= hi)%Z as Hlh by (rewrite Zle_Qle; lra).
    unfold F64.div_int. split.
    - rewrite <- (rnd_int_exact lo) by lia. apply rnd_mono, H1.
    - rewrite <- (rnd_int_exact hi) by lia. apply rnd_mono, H2. }
  split; [|exact Hr].
  unfold F64.truediv. destruct (Z.eqb_spec b 0) as [|_]; [contradiction|].
  cbv zeta. revert Hr. generalize (F64.div_int a b) as q. intros q [Q1 Q2].
  assert (- inject_Z (2 ^ 53) <= inject_Z lo) as B1.
  { rewrite <- inject_Z_opp, <- Zle_Qle. lia. }
  assert (inject_Z hi <= inject_Z (2 ^ 53)) as B2 by (rewrite <- Zle_Qle; lia).
  assert (F64.overflows q = false) as ->; [|reflexivity].
  unfold F64.overflows. destruct (Qle_bool _ _) eqn:E; [exfalso|reflexivity].
  apply Qle_bool_iff in E.
  assert (Qabs q <= inject_Z (2 ^ 53)) as Habs.
  { apply Qabs_Qle_condition. split; lra. }
  assert (inject_Z (2 ^ 53) < inject_Z (2 ^ 1024)) as Hbig by (vm_compute; reflexivity).
  lra.
Qed.

(** A part of a whole divides to a float between 0 and 1. *)
Lemma truediv_unit (a n : Z) :
  (0 <= a <= n)%Z -> (0 < n)%Z ->
  F64.truediv a n = Ok (F64.div_int a n) /\ 0 <= F64.div_int a n <= 1.
Proof.
  intros Ha Hn.
  apply (truediv_within a n 0 1); [lia|vm_compute; discriminate|vm_compute; discriminate|].
  assert (0 < inject_Z n) as Hq by (change 0 with (inject_Z 0); rewrite <- Zlt_Qlt; lia).
  assert (0 <= inject_Z a) as Ha0 by (change 0 with (inject_Z 0); rewrite <- Zle_Qle; lia).
  assert (inject_Z a <= inject_Z n) as Han by (rewrite <- Zle_Qle; lia).
  change (inject_Z 0) with 0. change (inject_Z 1) with 1. split.
  - apply Qle_shift_div_l; [exact Hq|]. lra.
  - apply Qle_shift_div_r; [exact Hq|]. lra.
Qed.

End Floats.

Section SubScores.

Import ContentQualityChecker.

(** One scoring step adds a bonus or leaves the score as it is. *)
Lemma bump2 (c : bool) (s k : Z) :
  (0 <= k)%Z -> (0 <= s)%Z -> (0 <= if c then s + k else s)%Z.
Proof. destruct c; lia. Qed.

Lemma bump3 (c1 c2 : bool) (s k1 k2 : Z) :
  (0 <= k1)%Z -> (0 <= k2)%Z -> (0 <= s)%Z ->
  (0 <= if c1 then s + k1 else if c2 then s + k2 else s)%Z.
Proof. destruct c1, c2; lia. Qed.

Lemma bump4 (c1 c2 c3 : bool) (s k1 k2 k3 : Z) :
  (0 <= k1)%Z -> (0 <= k2)%Z -> (0 <= k3)%Z -> (0 <= s)%Z ->
  (0 <= if c1 then s + k1 else if c2 then s + k2 else if c3 then s + k3 else s)%Z.
Proof. destruct c1, c2, c3; lia. Qed.

Lemma bump_guarded (c0 c1 c2 : bool) (s k1 k2 : Z) :
  (0 <= k1)%Z -> (0 <= k2)%Z -> (0 <= s)%Z ->
  (0 <= if c0 then (if c1 then s + k1 else if c2 then s + k2 else s) else s)%Z.
Proof. destruct c0, c1, c2; lia. Qed.

Lemma range_if (c : bool) (a b : Z) :
  (0 <= a <= 100)%Z -> (0 <= b <= 100)%Z -> (0 <= (if c then a else b) <= 100)%Z.
Proof. destruct c; tauto. Qed.

Ltac bump :=
  lazymatch goal with
  | |- (0 <= if _ then ?s + _ else if _ then ?s + _ else if _ then ?s + _ else ?s)%Z =>
      apply bump4; [lia|lia|lia|]
  | |- (0 <= if _ then ?s + _ else if _ then ?s + _ else ?s)%Z =>
      apply bump3; [lia|lia|]
  | |- (0 <= if _ then (if _ then ?s + _ else if _ then ?s + _ else ?s) else ?s)%Z =>
      apply bump_guarded; [lia|lia|]
  | |- (0 <= if _ then ?s + _ else ?s)%Z =>
      apply bump2; [lia|]
  end.

Lemma readability_in_range (content : string) :
  (0 <= calculate_readability content <= 100)%Q.
Proof.
  unfold calculate_readability. cbv zeta.
  destruct (_split_sentences content) as [|s sentences];
    [destruct (_split_words content); lra|].
  destruct (_split_words content) as [|w words]; [lra|].
  apply clamp_score.
Qed.

Lemma eeat_in_range (content : string) :
  (0 <= calculate_eeat_score content <= 100)%Z.
Proof.
  unfold calculate_eeat_score. cbv zeta. cbn [fold_left].
  split; [|apply Z.le_min_l].
  apply Z.min_glb; [lia|]. repeat bump.
  unfold indicator_count, count_if.
  repeat match goal with
         | |- context [Z.of_nat ?n] =>
             lazymatch n with
             | length _ => generalize n; intro
             | Re.findall_count _ _ => generalize n; intro
             end
         end.
  lia.
Qed.

(** The SEO score is a chain of bonus steps; the chain is walked with
    the intermediate scores kept as local definitions. *)
Ltac open_lets :=
  repeat lazymatch goal with
         | |- (0 <= let x := ?a in @?b x)%Z =>
             change (let x := a in (0 <= b x)%Z); cbv beta; intro
         | |- ((let x := ?a in @?b x) <= 100)%Z =>
             change (let x := a in (b x <= 100)%Z); cbv beta; intro
         end.

Ltac nonneg_chain :=
  repeat match goal with
         | x := _ : Z |- _ =>
             assert (0 <= x)%Z by (unfold x; cbv zeta; first [lia | bump; assumption]);
             clearbody x
         end.

Lemma seo_in_range (content : string) (metadata : gmap string string) :
  (0 <= calculate_seo_score content metadata <= 100)%Z.
Proof.
  cbv beta delta [calculate_seo_score]. split.
  - open_lets. destruct (String.eqb _ _); [lia|]. open_lets.
    apply Z.min_glb; [lia|]. nonneg_chain. assumption.
  - open_lets. destruct (String.eqb _ _); [lia|]. open_lets.
    apply Z.le_min_l.
Qed.

Lemma completeness_in_range (content : string) (metadata : gmap string string) :
  (0 <= calculate_completeness content metadata <= 100)%Z.
Proof.
  unfold calculate_completeness. cbv zeta.
  split; [|apply Z.le_min_l].
  apply Z.min_glb; [lia|]. repeat bump. lia.
Qed.

(** The record that [check_content] builds. *)
Lemma check_content_fields (content : string) (metadata : option (gmap string string)) :
  check_content content metadata
  = let m := default ∅ metadata in
    let readability := calculate_readability content in
    let eeat := calculate_eeat_score content in
    let seo := calculate_seo_score content m in
    let completeness := calculate_completeness content m in
    let overall := weighted_average readability eeat seo completeness in
    Build_QualityScore (F64.round overall 1) (F64.round readability 1)
      eeat seo completeness (_get_grade overall)
      (_generate_recommendations readability eeat seo completeness content m).
Proof. reflexivity. Qed.

(** C8: each of the four sub-scores, as computed and as returned by
    [check_content], lies between 0 and 100. *)
Theorem sub_scores_in_range (content : string) (metadata : option (gmap string string)) :
  ((0 <= calculate_readability content <= 100)%Q
   /\ (0 <= calculate_eeat_score content <= 100)%Z
   /\ (0 <= calculate_seo_score content (default ∅ metadata) <= 100)%Z
   /\ (0 <= calculate_completeness content (default ∅ metadata) <= 100)%Z)
  /\ ((0 <= readability_score (check_content content metadata) <= 100)%Q
      /\ (0 <= eeat_score (check_content content metadata) <= 100)%Z
      /\ (0 <= seo_score (check_content content metadata) <= 100)%Z
      /\ (0 <= completeness_score (check_content content metadata) <= 100)%Z).
Proof.
  pose proof (readability_in_range content) as Hr.
  pose proof (eeat_in_range content) as He.
  pose proof (seo_in_range content (default ∅ metadata)) as Hs.
  pose proof (completeness_in_range content (default ∅ metadata)) as Hc.
  split; [tauto|].
  rewrite check_content_fields. cbv zeta.
  cbn [readability_score eeat_score seo_score completeness_score].
  split; [apply round1_score; exact Hr|]. tauto.
Qed.

(** With a keyword that is absent or empty the typed score is 50. *)
Lemma seo_neutral_of_strings (content : string) (metadata : gmap string string) :
  PyStr.lower (get metadata "target_keyword") = EmptyString ->
  calculate_seo_score content metadata = 50%Z.
Proof.
  intros Hempty. cbv beta delta [calculate_seo_score].
  repeat lazymatch goal with
         | |- (let x := ?a in @?b x) = 50%Z =>
             change (let x := a in b x = 50%Z); cbv beta; intro
         end.
  subst target_keyword. rewrite Hempty. reflexivity.
Qed.

(** A metadata of strings only is read as its strings. *)
Lemma texts_of_strings (metadata : gmap string string) :
  texts (Text <$> metadata) = metadata.
Proof.
  apply map_eq. intros key. unfold texts.
  rewrite lookup_omap, lookup_fmap. now destruct (metadata !! key).
Qed.

Lemma get_lower_of_strings (metadata : gmap string string) (key : string) :
  get_lower (Text <$> metadata) key = Ok (PyStr.lower (get metadata key)).
Proof.
  unfold get_lower, get. rewrite lookup_fmap. now destruct (metadata !! key).
Qed.

Lemma seo_score_of_strings (content : string) (metadata : gmap string string) :
  calculate_seo_score_any content (Text <$> metadata)
  = Ok (calculate_seo_score content metadata).
Proof.
  unfold calculate_seo_score_any. rewrite !get_lower_of_strings. cbn [bind].
  rewrite texts_of_strings.
  destruct (String.eqb_spec (PyStr.lower (get metadata "target_keyword")) EmptyString)
    as [E|_]; [|reflexivity].
  now rewrite (seo_neutral_of_strings content metadata E).
Qed.

(** C3 (amended): for a metadata mapping whose [title] and
    [meta_description], where present, are strings, and whose
    [target_keyword] is absent or the empty string, the SEO sub-score is
    exactly 50, whatever the content and the other metadata keys are;
    where all values are strings, that 50 is the SEO sub-score that
    [check_content] returns. *)
Theorem seo_neutral_without_keyword (content : string)
    (metadata : gmap string meta_value) :
  metadata !! "target_keyword" = None
  \/ metadata !! "target_keyword" = Some (Text "") ->
  metadata !! "title" <> Some Other ->
  metadata !! "meta_description" <> Some Other ->
  calculate_seo_score_any content metadata = Ok 50%Z
  /\ forall strings : gmap string string,
       metadata = Text <$> strings ->
       calculate_seo_score content strings = 50%Z
       /\ seo_score (check_content content (Some strings)) = 50%Z.
Proof.
  intros Hkey Htitle Hdescription.
  assert (calculate_seo_score_any content metadata = Ok 50%Z) as Hany.
  { unfold calculate_seo_score_any, get_lower.
    destruct (metadata !! "title") as [[title|]|]; [|congruence|];
      (destruct (metadata !! "meta_description") as [[description|]|];
       [|congruence|]);
      destruct Hkey as [-> | ->]; reflexivity. }
  split; [exact Hany|].
  intros strings ->. rewrite seo_score_of_strings in Hany.
  assert (calculate_seo_score content strings = 50%Z) as Hseo by congruence.
  split; [exact Hseo|].
  rewrite check_content_fields. cbv zeta. cbn [seo_score default]. exact Hseo.
Qed.

Lemma seo_neutral_without_keyword_witness :
  (<["title" := Text "Tea"]> (∅ : gmap string meta_value)) !! "target_keyword" = None
  /\ calculate_seo_score_any "Tea is good." (<["title" := Text "Tea"]> ∅) = Ok 50%Z.
Proof.
  assert ((<["title" := Text "Tea"]> (∅ : gmap string meta_value)) !! "target_keyword"
          = None) as Habsent by (vm_compute; reflexivity).
  split; [exact Habsent|].
  refine (proj1 (seo_neutral_without_keyword "Tea is good."
                   (<["title" := Text "Tea"]> ∅) (or_introl Habsent) _ _));
    vm_compute; discriminate.
Defined.

(** C3 (as stated) fails: a metadata without [target_keyword] whose
    [title] is not a string has no SEO sub-score, the read of the title
    raises [AttributeError] before the keyword is tested. *)
Lemma seo_score_needs_string_title :
  (<["title" := Other]> (∅ : gmap string meta_value)) !! "target_keyword" = None
  /\ calculate_seo_score_any "Tea is good." (<["title" := Other]> ∅)
     = Raise AttributeError
  /\ calculate_seo_score_any "Tea is good." (<["title" := Other]> ∅) <> Ok 50%Z.
Proof.
  split; [vm_compute; reflexivity|].
  split; [vm_compute; reflexivity|vm_compute; discriminate].
Qed.

(** Without a metadata argument the score is neutral as well. *)
Lemma seo_neutral_without_metadata (content : string) :
  seo_score (check_content content None) = 50%Z.
Proof.
  rewrite check_content_fields. cbv zeta. cbn [seo_score default].
  cbv beta delta [calculate_seo_score].
  repeat lazymatch goal with
         | |- (let x := ?a in @?b x) = 50%Z =>
             change (let x := a in b x = 50%Z); cbv beta; intro
         end.
  reflexivity.
Qed.

Lemma get_grade_cases (w : Q) :
  ((90 <= w)%Q /\ _get_grade w = "A")
  \/ ((80 <= w)%Q /\ (w < 90)%Q /\ _get_grade w = "B")
  \/ ((70 <= w)%Q /\ (w < 80)%Q /\ _get_grade w = "C")
  \/ ((60 <= w)%Q /\ (w < 70)%Q /\ _get_grade w = "D")
  \/ ((w < 60)%Q /\ _get_grade w = "F").
Proof.
  unfold _get_grade, F64.leb.
  destruct (Qle_bool 90 w) eqn:H90.
  { left. split; [now apply Qle_bool_iff|reflexivity]. }
  assert (w < 90)%Q as L90 by (apply Qnot_le_lt; rewrite <- Qle_bool_iff; congruence).
  right. destruct (Qle_bool 80 w) eqn:H80.
  { left. split; [now apply Qle_bool_iff|]. split; [exact L90|reflexivity]. }
  assert (w < 80)%Q as L80 by (apply Qnot_le_lt; rewrite <- Qle_bool_iff; congruence).
  right. destruct (Qle_bool 70 w) eqn:H70.
  { left. split; [now apply Qle_bool_iff|]. split; [exact L80|reflexivity]. }
  assert (w < 70)%Q as L70 by (apply Qnot_le_lt; rewrite <- Qle_bool_iff; congruence).
  right. destruct (Qle_bool 60 w) eqn:H60.
  { left. split; [now apply Qle_bool_iff|]. split; [exact L70|reflexivity]. }
  assert (w < 60)%Q as L60 by (apply Qnot_le_lt; rewrite <- Qle_bool_iff; congruence).
  right. split; [exact L60|reflexivity].
Qed.

(** The sum that [check_content] computes is the weighted sum of the
    specification, evaluated in floats. *)
Lemma weighted_average_is_sum (readability : Q) (eeat seo completeness : Z) :
  weighted_average readability eeat seo completeness
  = Reference.float_weighted_sum readability eeat seo completeness.
Proof. reflexivity. Qed.

(** On scores between 0 and 100 the float evaluation stays within
    [10 ^ -12] of the exact weighted sum. *)
Lemma float_weighted_sum_close (readability : Q) (eeat seo completeness : Z) :
  (0 <= readability <= 100)%Q ->
  (0 <= eeat <= 100)%Z -> (0 <= seo <= 100)%Z -> (0 <= completeness <= 100)%Z ->
  (Qabs (Reference.float_weighted_sum readability eeat seo completeness
         - Reference.exact_weighted_sum readability eeat seo completeness)
   <= 1 # 1000000000000)%Q.
Proof.
  intros Hr He Hs Hc.
  unfold Reference.float_weighted_sum, Reference.exact_weighted_sum. cbv zeta.
  assert (F64.rnd (25 # 100) == 1 # 4)%Q as W25 by (vm_compute; reflexivity).
  assert ((3 # 10) - (1 # 10 ^ 16) <= F64.rnd (30 # 100) <= (3 # 10) + (1 # 10 ^ 16))%Q
    as W30 by (vm_compute; split; discriminate).
  assert ((2 # 10) - (1 # 10 ^ 16) <= F64.rnd (20 # 100) <= (2 # 10) + (1 # 10 ^ 16))%Q
    as W20 by (vm_compute; split; discriminate).
  assert (forall n, (0 <= n <= 100)%Z ->
                    (F64.rnd (inject_Z n) == inject_Z n
                     /\ 0 <= inject_Z n <= 100)%Q) as Hint.
  { intros n Hn. split.
    - apply rnd_int_exact. lia.
    - change 0%Q with (inject_Z 0). change 100%Q with (inject_Z 100).
      rewrite <- !Zle_Qle. exact Hn. }
  destruct (Hint eeat He) as [Ee Re]. destruct (Hint seo Hs) as [Es Rs].
  destruct (Hint completeness Hc) as [Ec Rc]. clear Hint.
  revert W25 W30 W20 Ee Es Ec.
  generalize (F64.rnd (25 # 100)) as w25. generalize (F64.rnd (30 # 100)) as w30.
  generalize (F64.rnd (20 # 100)) as w20.
  generalize (F64.rnd (inject_Z eeat)) as fe. generalize (F64.rnd (inject_Z seo)) as fs.
  generalize (F64.rnd (inject_Z completeness)) as fc.
  revert Re Rs Rc.
  generalize (inject_Z eeat) as e. generalize (inject_Z seo) as s.
  generalize (inject_Z completeness) as c.
  intros c s e Re Rs Rc fc fs fe w20 w30 w25 W25 W30 W20 Ee Es Ec.
  assert ((1 # 10 ^ 16) == (1 # 10000000000000000))%Q as E17 by reflexivity.
  rewrite E17 in W30, W20. clear E17.
  assert ((1 # 2 ^ 53) == (1 # 9007199254740992))%Q as E53 by reflexivity.
  assert (readability * w25 == readability * (1 # 4))%Q as P1 by (now rewrite W25).
  assert ((3 # 10) * e - (1 # 100000000000000) <= fe * w30
          <= (3 # 10) * e + (1 # 100000000000000))%Q as P2 by (rewrite Ee; nra).
  assert (fs * w25 == s * (1 # 4))%Q as P3 by (now rewrite W25, Es).
  assert ((2 # 10) * c - (1 # 100000000000000) <= fc * w20
          <= (2 # 10) * c + (1 # 100000000000000))%Q as P4 by (rewrite Ec; nra).
  revert P1 P2 P3 P4.
  generalize (readability * w25)%Q as p1. generalize (fe * w30)%Q as p2.
  generalize (fs * w25)%Q as p3. generalize (fc * w20)%Q as p4.
  intros p4 p3 p2 p1 P1 P2 P3 P4.
  pose proof (rnd_error p1 26) as R1. pose proof (rnd_error p2 31) as R2.
  pose proof (rnd_error p3 26) as R3. pose proof (rnd_error p4 21) as R4.
  rewrite E53 in R1, R2, R3, R4.
  specialize (R1 ltac:(lra)). specialize (R2 ltac:(lra)).
  specialize (R3 ltac:(lra)). specialize (R4 ltac:(lra)).
  revert R1 R2 R3 R4.
  generalize (F64.rnd p1) as q1. generalize (F64.rnd p2) as q2.
  generalize (F64.rnd p3) as q3. generalize (F64.rnd p4) as q4.
  intros q4 q3 q2 q1 R1 R2 R3 R4.
  pose proof (rnd_error (q1 + q2) 57) as S1. rewrite E53 in S1.
  specialize (S1 ltac:(lra)). revert S1.
  generalize (F64.rnd (q1 + q2)) as s1. intros s1 S1.
  pose proof (rnd_error (s1 + q3) 83) as S2. rewrite E53 in S2.
  specialize (S2 ltac:(lra)). revert S2.
  generalize (F64.rnd (s1 + q3)) as s2. intros s2 S2.
  pose proof (rnd_error (s2 + q4) 104) as S3. rewrite E53 in S3.
  specialize (S3 ltac:(lra)). revert S3.
  generalize (F64.rnd (s2 + q4)) as s3. intros s3 S3.
  apply Qabs_Qle_condition. split; lra.
Qed.

(** C4 (amended): the overall score returned by [check_content] is the
    weighted sum of the four sub-scores rounded to one decimal place
    (the float of a decimal k/10 within 0.05 of the sum); the weighted
    sum is 0.25 readability + 0.30 eeat + 0.25 seo + 0.20 completeness
    as floats evaluate it, within [10 ^ -12] of the exact value; and
    the grade is taken from the sum before it is rounded: A from 90, B
    from 80, C from 70, D from 60, F below. *)
Theorem overall_and_grade (content : string) (metadata : option (gmap string string)) :
  overall_score (check_content content metadata)
  = F64.round (Reference.weighted_score content metadata) 1
  /\ (Qabs (Reference.weighted_score content metadata
            - Reference.exact_weighted_sum
                (calculate_readability content)
                (calculate_eeat_score content)
                (calculate_seo_score content (default ∅ metadata))
                (calculate_completeness content (default ∅ metadata)))
      <= 1 # 1000000000000)%Q
  /\ (exists k : Z,
         overall_score (check_content content metadata) = F64.rnd (inject_Z k / 10)
         /\ (Qabs (inject_Z k / 10 - Reference.weighted_score content metadata)
             <= 1 # 20)%Q)
  /\ (((90 <= Reference.weighted_score content metadata)%Q
       /\ grade (check_content content metadata) = "A")
      \/ ((80 <= Reference.weighted_score content metadata)%Q
          /\ (Reference.weighted_score content metadata < 90)%Q
          /\ grade (check_content content metadata) = "B")
      \/ ((70 <= Reference.weighted_score content metadata)%Q
          /\ (Reference.weighted_score content metadata < 80)%Q
          /\ grade (check_content content metadata) = "C")
      \/ ((60 <= Reference.weighted_score content metadata)%Q
          /\ (Reference.weighted_score content metadata < 70)%Q
          /\ grade (check_content content metadata) = "D")
      \/ ((Reference.weighted_score content metadata < 60)%Q
          /\ grade (check_content content metadata) = "F")).
Proof.
  rewrite check_content_fields. cbv zeta. cbn [overall_score grade].
  rewrite weighted_average_is_sum. unfold Reference.weighted_score.
  pose proof (readability_in_range content) as Hr.
  pose proof (eeat_in_range content) as He.
  pose proof (seo_in_range content (default ∅ metadata)) as Hs.
  pose proof (completeness_in_range content (default ∅ metadata)) as Hc.
  revert Hr He Hs Hc.
  generalize (calculate_readability content) as r.
  generalize (calculate_eeat_score content) as e.
  generalize (calculate_seo_score content (default ∅ metadata)) as s.
  generalize (calculate_completeness content (default ∅ metadata)) as c.
  intros c s e r Hr He Hs Hc.
  split; [reflexivity|].
  split; [apply float_weighted_sum_close; assumption|].
  generalize (Reference.float_weighted_sum r e s c) as w. intros w.
  split; [apply round1_decimal|].
  apply get_grade_cases.
Qed.

(** C4 (as stated) fails at a rounding boundary: for the tea guide the
    weighted average is 59.967..., so the overall score returned is 60.0
    while the grade is F, not D. *)
Lemma grade_below_rounded_overall :
  overall_score (check_content Reference.tea_guide (Some Reference.tea_metadata)) = 60%Q
  /\ (60 <= overall_score
              (check_content Reference.tea_guide (Some Reference.tea_metadata)))%Q
  /\ grade (check_content Reference.tea_guide (Some Reference.tea_metadata)) = "F"
  /\ grade (check_content Reference.tea_guide (Some Reference.tea_metadata)) <> "D"
  /\ (5996 # 100 < Reference.weighted_score Reference.tea_guide
                     (Some Reference.tea_metadata))%Q
  /\ (Reference.weighted_score Reference.tea_guide (Some Reference.tea_metadata)
      < 5997 # 100)%Q.
Proof.
  split; [vm_compute; reflexivity|].
  split; [vm_compute; discriminate|].
  split; [vm_compute; reflexivity|].
  split; [vm_compute; discriminate|].
  split; vm_compute; reflexivity.
Qed.

End SubScores.

(* ================================================================== *)
(** * Properties of the JSON export *)
(* ================================================================== *)

Section JsonExport.

Import TopicClusterGenerator JsonReference.

Lemma delimited_head (c : ascii) (rest : string) :
  delimited (String c rest) = true ->
  PyStr.is_digit c = false /\ Json.starts_fraction (String c rest) = false
  /\ Json.is_ws c || Json.code_is c 44 = true.
Proof.
  unfold delimited, Json.starts_fraction, Json.is_ws, Json.code_is, PyStr.is_digit,
    PyStr.in_range.
  intros H. apply orb_prop in H.
  destruct H as [H|H]; apply N.eqb_eq in H; rewrite H; repeat split; reflexivity.
Qed.

Lemma append_assoc (a b c : string) : (a +:+ b) +:+ c = a +:+ (b +:+ c).
Proof. induction a as [|x a IH]; simpl; congruence. Qed.

Lemma span_digits_uint (u : Decimal.uint) (rest : string) :
  match rest with EmptyString => True | String c _ => PyStr.is_digit c = false end ->
  Json.span_digits (NilEmpty.string_of_uint u +:+ rest)
  = (NilEmpty.string_of_uint u, rest).
Proof.
  intros Hrest. induction u; simpl;
    try (change (PyStr.is_digit _) with true; cbn iota; rewrite IHu; reflexivity).
  destruct rest as [|c rest]; [reflexivity|]. simpl. now rewrite Hrest.
Qed.

Lemma to_uint_head (p : positive) :
  exists d more, NilEmpty.string_of_uint (Pos.to_uint p) = String d more
                 /\ Json.code_is d 48 = false /\ Json.code_is d 45 = false.
Proof.
  pose proof (Unsigned.to_uint_nonnil p) as Hnil.
  pose proof (Unsigned.to_uint_nonzero p) as Hzero.
  assert (Decimal.unorm (Pos.to_uint p) = Pos.to_uint p) as Hnorm.
  { rewrite <- (Unsigned.to_of (Pos.to_uint p)), Unsigned.of_to. reflexivity. }
  destruct (Pos.to_uint p) as [|u|u|u|u|u|u|u|u|u|u] eqn:E;
    try (eexists; eexists; split; [reflexivity|split; reflexivity]).
  - congruence.
  - exfalso. rewrite unorm_D0 in Hnorm.
    destruct (Decimal.nzhead u) eqn:Hh;
      [apply unorm_0 in Hh; rewrite Hh in Hnorm; congruence|..];
      (assert (Decimal.nzhead u <> Decimal.Nil) as Hne by congruence;
       rewrite (unorm_nzhead u Hne) in Hnorm; exact (nzhead_nonzero u u Hnorm)).
Qed.

Lemma parse_number_uint (p : positive) (rest : string) :
  delimited rest = true ->
  Json.span_digits (NilEmpty.string_of_uint (Pos.to_uint p) +:+ rest)
  = (NilEmpty.string_of_uint (Pos.to_uint p), rest)
  /\ Json.starts_fraction rest = false
  /\ NilZero.uint_of_string (NilEmpty.string_of_uint (Pos.to_uint p))
     = Some (Pos.to_uint p)
  /\ Z.of_N (N.of_uint (Pos.to_uint p)) = Z.pos p.
Proof.
  intros Hd.
  assert (match rest with
          | EmptyString => True
          | String c _ => PyStr.is_digit c = false
          end /\ Json.starts_fraction rest = false) as [Hdig Hfrac].
  { destruct rest as [|c rest]; [split; [exact I|reflexivity]|].
    destruct (delimited_head c rest Hd) as [H1 [H2 _]]. split; assumption. }
  split; [now apply span_digits_uint|]. split; [exact Hfrac|]. split.
  - destruct (to_uint_head p) as [d [more [E _]]].
    unfold NilZero.uint_of_string. rewrite E. rewrite <- E. apply NilEmpty.usu.
  - unfold N.of_uint. now rewrite Unsigned.of_to.
Qed.

Lemma string_of_uint_pos (p : positive) :
  NilZero.string_of_uint (Pos.to_uint p) = NilEmpty.string_of_uint (Pos.to_uint p).
Proof.
  pose proof (Unsigned.to_uint_nonnil p) as Hnil.
  unfold NilZero.string_of_uint. destruct (Pos.to_uint p); congruence.
Qed.

(** Reading back a printed integer. *)
Lemma parse_number_print (z : Z) (rest : string) :
  delimited rest = true ->
  Json.parse_number (NilZero.string_of_int (Z.to_int z) +:+ rest) = Some (z, rest).
Proof.
  intros Hd. destruct z as [|p|p].
  - cbn [Z.to_int NilZero.string_of_int NilZero.string_of_uint NilEmpty.string_of_uint].
    destruct rest as [|c rest]; [reflexivity|].
    destruct (delimited_head c rest Hd) as [H1 [H2 _]].
    unfold Json.parse_number. cbn [String.append].
    change (Json.code_is "0" 45) with false. cbn iota.
    cbn [Json.span_digits]. change (PyStr.is_digit "0") with true. cbn iota.
    rewrite H1, H2. reflexivity.
  - cbn [Z.to_int NilZero.string_of_int]. rewrite string_of_uint_pos.
    destruct (parse_number_uint p rest Hd) as [Hspan [Hfrac [Hu Hn]]].
    destruct (to_uint_head p) as [d [more [E [H0 Hm]]]].
    unfold Json.parse_number. rewrite E. cbn [String.append]. rewrite Hm.
    rewrite E in Hspan. cbn [String.append] in Hspan. rewrite Hspan.
    rewrite H0. cbn [andb]. rewrite Hfrac. rewrite <- E, Hu, Hn. reflexivity.
  - cbn [Z.to_int NilZero.string_of_int]. rewrite string_of_uint_pos.
    destruct (parse_number_uint p rest Hd) as [Hspan [Hfrac [Hu Hn]]].
    destruct (to_uint_head p) as [d [more [E [H0 Hm]]]].
    unfold Json.parse_number. cbn [String.append].
    change (Json.code_is "-" 45) with true. cbn iota.
    rewrite Hspan. rewrite E. rewrite H0. cbn [andb]. rewrite Hfrac.
    rewrite <- E, Hu, Hn. reflexivity.
Qed.

Lemma skip_ws_spaces (n : nat) (s : string) :
  Json.skip_ws (Json.spaces n +:+ s) = Json.skip_ws s.
Proof. induction n as [|n IH]; [reflexivity|]. simpl. exact IH. Qed.

Lemma skip_ws_newline_indent (n : nat) (s : string) :
  Json.skip_ws (Json.newline_indent n +:+ s) = Json.skip_ws s.
Proof. unfold Json.newline_indent. simpl. apply skip_ws_spaces. Qed.

Lemma parse_chars_escape_char (c : ascii) (rest : string) :
  Json.parse_chars (Json.escape_char c +:+ rest)
  = Json.cons_char c (Json.parse_chars rest).
Proof.
  destruct c as [[] [] [] [] [] [] [] []]; reflexivity.
Qed.

Lemma parse_chars_escape (s rest : string) :
  Json.parse_chars (Json.escape s +:+ String Json.DQ rest) = Some (s, rest).
Proof.
  induction s as [|c s IH]; [reflexivity|].
  cbn [Json.escape]. rewrite append_assoc, parse_chars_escape_char, IH. reflexivity.
Qed.

Lemma encode_string_app (s rest : string) :
  Json.encode_string s +:+ rest
  = String Json.DQ (Json.escape s +:+ String Json.DQ rest).
Proof.
  unfold Json.encode_string. cbn [String.append]. now rewrite append_assoc.
Qed.

Lemma elems_app (n : nat) (xs : list Json.value) (tail rest : string) :
  elems n xs tail +:+ rest = elems n xs (tail +:+ rest).
Proof.
  induction xs as [|y xs IH]; [reflexivity|].
  cbn [elems fold_right] in *. fold (elems n xs tail). fold (elems n xs (tail +:+ rest)).
  cbn [String.append]. rewrite !append_assoc. now rewrite IH.
Qed.

Lemma membs_app (n : nat) (ms : list (string * Json.value)) (tail rest : string) :
  membs n ms tail +:+ rest = membs n ms (tail +:+ rest).
Proof.
  induction ms as [|[k y] ms IH]; [reflexivity|].
  cbn [membs fold_right] in *. fold (membs n ms tail). fold (membs n ms (tail +:+ rest)).
  cbn [String.append]. rewrite !append_assoc. cbn [String.append].
  rewrite !append_assoc. now rewrite IH.
Qed.

Lemma dump_arr_app (n : nat) (x : Json.value) (xs : list Json.value) (rest : string) :
  Json.dump n (Json.Arr (x :: xs)) +:+ rest
  = String "[" (Json.newline_indent (n + 2)
                +:+ (Json.dump (n + 2) x
                     +:+ elems n xs (Json.newline_indent n +:+ String "]" rest))).
Proof.
  cbn [Json.dump]. fold (elems n xs (Json.newline_indent n +:+ "]")).
  cbn [String.append]. rewrite !append_assoc, elems_app, append_assoc. reflexivity.
Qed.

Lemma dump_obj_app (n : nat) (k : string) (x : Json.value)
    (ms : list (string * Json.value)) (rest : string) :
  Json.dump n (Json.Obj ((k, x) :: ms)) +:+ rest
  = String "{" (Json.newline_indent (n + 2)
                +:+ (Json.encode_string k
                     +:+ String ":" (String " "
                          (Json.dump (n + 2) x
                           +:+ membs n ms (Json.newline_indent n +:+ String "}" rest))))).
Proof.
  cbn [Json.dump]. fold (membs n ms (Json.newline_indent n +:+ "}")).
  cbn [String.append]. rewrite !append_assoc. cbn [String.append].
  rewrite !append_assoc, membs_app, append_assoc. reflexivity.
Qed.

Lemma digit_head (d : ascii) :
  PyStr.is_digit d = true ->
  Json.is_ws d = false /\ Json.code_is d 34 = false /\ Json.code_is d 91 = false
  /\ Json.code_is d 123 = false /\ Json.code_is d 93 = false
  /\ Json.code_is d 125 = false.
Proof.
  unfold PyStr.is_digit, PyStr.in_range, Json.is_ws, Json.code_is.
  intros H. apply andb_prop in H. destruct H as [H1 H2].
  apply N.leb_le in H1, H2.
  repeat match goal with
         | |- context [(?x =? ?y)%N] => destruct (N.eqb_spec x y); [lia|]
         end.
  repeat split; reflexivity.
Qed.

Lemma uint_digits (u : Decimal.uint) (d : ascii) (more : string) :
  NilEmpty.string_of_uint u = String d more -> PyStr.is_digit d = true.
Proof. destruct u; simpl; intros [= <- _]; reflexivity || discriminate. Qed.

(** A printed integer starts with a digit or a minus sign. *)
Lemma int_head (z : Z) :
  exists c s, NilZero.string_of_int (Z.to_int z) = String c s
              /\ Json.is_ws c = false /\ Json.code_is c 34 = false
              /\ Json.code_is c 91 = false /\ Json.code_is c 123 = false
              /\ Json.code_is c 93 = false /\ Json.code_is c 125 = false.
Proof.
  destruct z as [|p|p].
  - exists "0"%char, EmptyString. repeat split; reflexivity.
  - cbn [Z.to_int NilZero.string_of_int]. rewrite string_of_uint_pos.
    destruct (to_uint_head p) as [d [more [E _]]].
    exists d, more. split; [exact E|]. apply digit_head. eapply uint_digits, E.
  - cbn [Z.to_int NilZero.string_of_int].
    eexists; eexists. split; [reflexivity|]. repeat split; reflexivity.
Qed.

Lemma dump_head (v : Json.value) (n : nat) (rest : string) :
  exists c s, Json.dump n v +:+ rest = String c s /\ opens_value c = true.
Proof.
  destruct v as [s|z|[|x xs]|[|[k x] ms]].
  - cbn [Json.dump]. rewrite encode_string_app. eexists; eexists. split; reflexivity.
  - destruct (int_head z) as [c [s [E [H1 [_ [_ [_ [H2 H3]]]]]]]].
    cbn [Json.dump]. rewrite E. cbn [String.append].
    eexists; eexists. split; [reflexivity|]. unfold opens_value.
    now rewrite H1, H2, H3.
  - eexists; eexists. split; reflexivity.
  - rewrite dump_arr_app. eexists; eexists. split; reflexivity.
  - eexists; eexists. split; reflexivity.
  - rewrite dump_obj_app. eexists; eexists. split; reflexivity.
Qed.

Lemma skip_ws_opens (c : ascii) (s : string) :
  opens_value c = true -> Json.skip_ws (String c s) = String c s.
Proof.
  unfold opens_value. intros H. cbn [Json.skip_ws].
  destruct (Json.is_ws c); [discriminate|reflexivity].
Qed.

Lemma skip_ws_dump (v : Json.value) (n : nat) (rest : string) :
  Json.skip_ws (Json.dump n v +:+ rest) = Json.dump n v +:+ rest.
Proof.
  destruct (dump_head v n rest) as [c [s [-> H]]]. now apply skip_ws_opens.
Qed.

(** Inserting fresh keys one after the other keeps the items as they are. *)
Lemma dict_set_fresh (d : list (string * Json.value)) (k : string) (v : Json.value) :
  existsb (String.eqb k) (map fst d) = false ->
  Json.dict_set d k v = d ++ [(k, v)].
Proof.
  induction d as [|[k' v'] d IH]; [reflexivity|].
  cbn [map fst existsb Json.dict_set]. intros H.
  apply orb_false_elim in H. destruct H as [Hk Hd].
  rewrite String.eqb_sym, Hk. cbn [app]. now rewrite IH.
Qed.

Lemma existsb_app_false {A} (f : A -> bool) (l1 l2 : list A) :
  existsb f (l1 ++ l2) = false -> existsb f l1 = false /\ existsb f l2 = false.
Proof. rewrite existsb_app. apply orb_false_elim. Qed.

Lemma dict_of_distinct (ms : list (string * Json.value)) :
  distinct (map fst ms) = true -> Json.dict_of ms = ms.
Proof.
  unfold Json.dict_of.
  assert (forall (ms acc : list (string * Json.value)),
             distinct (map fst (acc ++ ms)) = true ->
             fold_left (fun d '(k, v) => Json.dict_set d k v) ms acc = acc ++ ms)
    as Hgen.
  { clear ms. induction ms as [|[k v] ms IH]; intros acc Hd.
    - now rewrite app_nil_r.
    - cbn [fold_left]. rewrite dict_set_fresh.
      + rewrite IH; rewrite <- app_assoc; [reflexivity|exact Hd].
      + clear IH. induction acc as [|[k' v'] acc IHacc]; [reflexivity|].
        cbn [app map fst distinct existsb] in *.
        apply andb_prop in Hd. destruct Hd as [Hk Hd].
        rewrite (IHacc Hd), orb_false_r.
        apply negb_true_iff in Hk. rewrite map_app in Hk.
        apply existsb_app_false in Hk. destruct Hk as [_ Hk].
        cbn [map fst existsb] in Hk. apply orb_false_elim in Hk.
        rewrite String.eqb_sym. exact (proj1 Hk). }
  intros Hd. exact (Hgen ms [] Hd).
Qed.

Lemma delimited_elems (n : nat) (xs : list Json.value) (rest : string) :
  delimited (elems n xs (Json.newline_indent n +:+ rest)) = true.
Proof. destruct xs; reflexivity. Qed.

Lemma delimited_membs (n : nat) (ms : list (string * Json.value)) (rest : string) :
  delimited (membs n ms (Json.newline_indent n +:+ rest)) = true.
Proof. destruct ms as [|[k y] ms]; reflexivity. Qed.

(** Decoding what [dump] wrote, with enough fuel. *)
Lemma parse_dump (fuel : nat) :
  (forall v n rest,
      wf v = true -> weight v <= fuel -> delimited rest = true ->
      Json.parse_value fuel (Json.dump n v +:+ rest) = Some (v, rest))
  /\ (forall x xs n rest,
         forallb wf (x :: xs) = true -> list_weight (x :: xs) <= fuel ->
         Json.parse_elements fuel
           (Json.dump (n + 2) x +:+ elems n xs (Json.newline_indent n +:+ String "]" rest))
         = Some (x :: xs, rest))
  /\ (forall k x ms n rest,
         members_wf ((k, x) :: ms) = true -> members_weight ((k, x) :: ms) <= fuel ->
         Json.parse_members fuel
           (Json.encode_string k
            +:+ String ":" (String " "
                 (Json.dump (n + 2) x
                  +:+ membs n ms (Json.newline_indent n +:+ String "}" rest))))
         = Some ((k, x) :: ms, rest)).
Proof.
  induction fuel as [|fuel [IHv [IHe IHm]]].
  { split; [|split].
    - intros v n rest _ Hw. destruct v; cbn in Hw; lia.
    - intros x xs n rest _ Hw. cbn in Hw. lia.
    - intros k x ms n rest _ Hw. cbn in Hw. lia. }
  split; [|split].
  - intros v n rest Hwf Hw Hd.
    destruct v as [s|z|[|x xs]|[|[k x] ms]].
    + cbn [Json.dump]. rewrite encode_string_app. cbn [Json.parse_value].
      change (Json.code_is Json.DQ 34) with true. cbn iota.
      rewrite parse_chars_escape. reflexivity.
    + cbn [Json.dump].
      destruct (int_head z) as [c [s [E [_ [H34 [H91 [H123 _]]]]]]].
      pose proof (parse_number_print z rest Hd) as Hnum.
      rewrite E in *. cbn [String.append] in *. cbn [Json.parse_value].
      rewrite H34, H91, H123, Hnum. reflexivity.
    + reflexivity.
    + rewrite dump_arr_app. cbn [Json.parse_value].
      change (Json.code_is "[" 34) with false. change (Json.code_is "[" 91) with true.
      cbn iota. rewrite skip_ws_newline_indent.
      destruct (dump_head x (n + 2)
                  (elems n xs (Json.newline_indent n +:+ String "]" rest)))
        as [c [s [E Hc]]].
      pose proof (IHe x xs n rest) as He. rewrite E in *.
      rewrite (skip_ws_opens c s Hc).
      unfold opens_value in Hc. destruct (Json.code_is c 93) eqn:H93.
      { rewrite andb_false_r in Hc. discriminate. }
      rewrite He; [reflexivity|exact Hwf|]. cbn in Hw. unfold list_weight. cbn. lia.
    + reflexivity.
    + rewrite dump_obj_app. cbn [Json.parse_value].
      change (Json.code_is "{" 34) with false. change (Json.code_is "{" 91) with false.
      change (Json.code_is "{" 123) with true. cbn iota.
      rewrite skip_ws_newline_indent. rewrite encode_string_app.
      rewrite (skip_ws_opens Json.DQ _ eq_refl).
      change (Json.code_is Json.DQ 125) with false. cbn iota.
      rewrite <- encode_string_app.
      cbn [wf] in Hwf. apply andb_prop in Hwf. destruct Hwf as [Hkeys Hwf].
      rewrite IHm; [|exact Hwf|cbn in Hw; unfold members_weight; cbn; lia].
      cbn [Json.tag]. now rewrite dict_of_distinct.
  - intros x xs n rest Hwf Hw.
    cbn [forallb] in Hwf. apply andb_prop in Hwf. destruct Hwf as [Hx Hxs].
    unfold list_weight in Hw. cbn [fold_right] in Hw. fold (list_weight xs) in Hw.
    cbn [Json.parse_elements].
    rewrite IHv; [|exact Hx|lia|apply delimited_elems].
    destruct xs as [|y ys].
    + cbn [elems fold_right]. rewrite skip_ws_newline_indent. reflexivity.
    + cbn [elems fold_right].
      fold (elems n ys (Json.newline_indent n +:+ String "]" rest)).
      cbn [String.append].
      rewrite (skip_ws_opens "," _ eq_refl).
      change (Json.code_is "," 93) with false. change (Json.code_is "," 44) with true.
      cbn iota. rewrite skip_ws_newline_indent, skip_ws_dump.
      rewrite IHe; [reflexivity|exact Hxs|lia].
  - intros k x ms n rest Hwf Hw.
    unfold members_wf in Hwf. cbn [forallb] in Hwf. fold (members_wf ms) in Hwf.
    apply andb_prop in Hwf. destruct Hwf as [Hx Hms].
    unfold members_weight in Hw. cbn [fold_right] in Hw. fold (members_weight ms) in Hw.
    rewrite encode_string_app. cbn [Json.parse_members].
    change (Json.code_is Json.DQ 34) with true. cbn iota.
    rewrite parse_chars_escape.
    rewrite (skip_ws_opens ":" _ eq_refl).
    change (Json.code_is ":" 58) with true. cbn iota.
    change (Json.skip_ws (String " " ?s)) with (Json.skip_ws s).
    cbn [Json.skip_ws]. change (Json.is_ws " ") with true. cbn iota.
    rewrite skip_ws_dump.
    rewrite IHv; [|exact Hx|lia|apply delimited_membs].
    destruct ms as [|[k' y] ms'].
    + cbn [membs fold_right]. rewrite skip_ws_newline_indent. reflexivity.
    + cbn [membs fold_right].
      fold (membs n ms' (Json.newline_indent n +:+ String "}" rest)).
      cbn [String.append].
      rewrite (skip_ws_opens "," _ eq_refl).
      change (Json.code_is "," 125) with false. change (Json.code_is "," 44) with true.
      cbn iota. rewrite skip_ws_newline_indent.
      rewrite encode_string_app. rewrite (skip_ws_opens Json.DQ _ eq_refl).
      rewrite <- encode_string_app.
      rewrite IHm; [reflexivity|exact Hms|lia].
Qed.

Lemma length_append (a b : string) :
  String.length (a +:+ b) = String.length a + String.length b.
Proof. induction a as [|c a IH]; simpl; congruence. Qed.

Lemma length_elems (n : nat) (xs : list Json.value) (tail : string) :
  (forall x, In x xs -> weight x <= String.length (Json.dump (n + 2) x)) ->
  list_weight xs + String.length tail <= String.length (elems n xs tail).
Proof.
  induction xs as [|y ys IH]; intros Hall; [cbn; lia|].
  cbn [elems fold_right list_weight]. fold (elems n ys tail). fold (list_weight ys).
  cbn [String.append String.length]. rewrite !length_append.
  pose proof (Hall y (or_introl eq_refl)).
  specialize (IH (fun x Hx => Hall x (or_intror Hx))). lia.
Qed.

Lemma length_membs (n : nat) (ms : list (string * Json.value)) (tail : string) :
  (forall k x, In (k, x) ms -> weight x <= String.length (Json.dump (n + 2) x)) ->
  members_weight ms + String.length tail <= String.length (membs n ms tail).
Proof.
  induction ms as [|[k y] ms IH]; intros Hall; [cbn; lia|].
  cbn [membs fold_right members_weight]. fold (membs n ms tail).
  fold (members_weight ms).
  cbn [String.append String.length]. rewrite !length_append.
  cbn [String.append String.length]. rewrite !length_append.
  pose proof (Hall k y (or_introl eq_refl)).
  specialize (IH (fun k' x Hx => Hall k' x (or_intror Hx))). lia.
Qed.

Lemma length_newline_indent (n : nat) (s : string) :
  1 <= String.length (Json.newline_indent n)
  /\ 1 <= String.length (Json.newline_indent n +:+ s).
Proof. unfold Json.newline_indent. cbn [String.append String.length]. lia. Qed.

(** The fuel that [loads] starts with covers the whole document. *)
Lemma weight_le_length (bound : nat) :
  forall v n, weight v <= bound -> weight v <= String.length (Json.dump n v).
Proof.
  induction bound as [|bound IH]; intros v n Hb.
  { destruct v; cbn in Hb; lia. }
  destruct v as [s|z|[|x xs]|[|[k x] ms]].
  - cbn. lia.
  - destruct (int_head z) as [c [s [E _]]]. cbn [Json.dump weight]. rewrite E. cbn. lia.
  - cbn. lia.
  - pose proof (dump_arr_app n x xs EmptyString) as Hshape.
    rewrite append_empty_r in Hshape. rewrite Hshape.
    cbn [weight fold_right] in *. fold (list_weight xs) in *.
    cbn [String.length]. rewrite !length_append.
    pose proof (length_elems n xs (Json.newline_indent n +:+ "]")) as Hxs.
    assert (weight x <= String.length (Json.dump (n + 2) x)) by (apply IH; lia).
    assert (forall y, In y xs -> weight y <= String.length (Json.dump (n + 2) y)) as Hall.
    { intros y Hy. apply IH.
      assert (weight y <= list_weight xs); [|lia].
      clear -Hy. induction xs as [|a xs IHxs]; [destruct Hy|].
      cbn [list_weight fold_right]. fold (list_weight xs).
      destruct Hy as [->|Hy]; [lia|]. specialize (IHxs Hy). lia. }
    specialize (Hxs Hall).
    pose proof (length_newline_indent (n + 2) EmptyString).
    pose proof (length_newline_indent n "]"). lia.
  - cbn. lia.
  - pose proof (dump_obj_app n k x ms EmptyString) as Hshape.
    rewrite append_empty_r in Hshape. rewrite Hshape.
    cbn [weight fold_right] in *. fold (members_weight ms) in *.
    cbn [String.length]. rewrite !length_append. cbn [String.length].
    rewrite !length_append.
    pose proof (length_membs n ms (Json.newline_indent n +:+ "}")) as Hms.
    assert (weight x <= String.length (Json.dump (n + 2) x)) by (apply IH; lia).
    assert (forall k' y, In (k', y) ms ->
                         weight y <= String.length (Json.dump (n + 2) y)) as Hall.
    { intros k' y Hy. apply IH.
      assert (weight y <= members_weight ms); [|lia].
      clear -Hy. induction ms as [|[a b] ms IHms]; [destruct Hy|].
      cbn [members_weight fold_right]. fold (members_weight ms).
      destruct Hy as [[= -> ->]|Hy]; [lia|]. specialize (IHms Hy). lia. }
    specialize (Hms Hall).
    pose proof (length_newline_indent (n + 2) EmptyString).
    pose proof (length_newline_indent n "}"). lia.
Qed.

(** [json.loads(json.dumps(v, indent=2))] is [v] for a document whose
    objects have distinct keys. *)
Lemma loads_dumps (v : Json.value) :
  wf v = true -> Json.loads (Json.dumps v) = Some v.
Proof.
  intros Hwf. unfold Json.loads, Json.dumps.
  pose proof (skip_ws_dump v 0 EmptyString) as Hskip.
  rewrite append_empty_r in Hskip. rewrite Hskip.
  pose proof (proj1 (parse_dump (S (String.length (Json.dump 0 v)))) v 0 EmptyString Hwf)
    as Hparse.
  rewrite append_empty_r in Hparse. rewrite Hparse; [reflexivity| |reflexivity].
  pose proof (weight_le_length (weight v) v 0 (le_n _)). lia.
Qed.

Lemma forallb_map_true {A B : Type} (f : A -> B) (g : B -> bool) (l : list A) :
  (forall x, g (f x) = true) -> forallb g (map f l) = true.
Proof.
  intros H. induction l as [|x l IH]; [reflexivity|].
  cbn [map forallb]. now rewrite H, IH.
Qed.

Lemma link_json_wf (l : link) : wf (link_json l) = true.
Proof. reflexivity. Qed.

Lemma strategy_json_wf (s : strategy) : wf (strategy_json s) = true.
Proof.
  unfold strategy_json. cbn [wf map fst forallb].
  rewrite !(forallb_map_true link_json wf) by apply link_json_wf.
  reflexivity.
Qed.

Lemma export_data_wf (pillar : PillarPage.t) : wf (export_data pillar) = true.
Proof.
  unfold export_data. cbn [wf map fst forallb].
  fold (wf (strategy_json (generate_internal_linking_strategy pillar))).
  rewrite strategy_json_wf.
  rewrite forallb_map_true by (intros c; reflexivity).
  reflexivity.
Qed.

Lemma read_clusters_export (cs : list ClusterContent.t) :
  read_clusters
    (map (fun c =>
            Json.Obj
              [ ("title", Json.Str (ClusterContent.title c));
                ("target_keyword", Json.Str (ClusterContent.target_keyword c));
                ("search_volume", Json.Int (ClusterContent.search_volume c));
                ("difficulty", Json.Str (ClusterContent.difficulty c));
                ("word_count", Json.Int (ClusterContent.word_count c));
                ("url_slug", Json.Str (ClusterContent.url_slug c)) ]) cs)
  = Some (map cluster_fields cs).
Proof.
  induction cs as [|c cs IH]; [reflexivity|].
  cbn [map read_clusters]. rewrite IH. reflexivity.
Qed.

Lemma read_export_data (pillar : PillarPage.t) :
  read_export (export_data pillar) = Some (pillar_fields pillar).
Proof.
  unfold read_export, export_data, arr_field.
  cbn [Json.get Json.member String.eqb Ascii.eqb Bool.eqb mbind option_bind].
  simpl. rewrite read_clusters_export. reflexivity.
Qed.

(** C6 (amended): the JSON export parses back to the exported dict, and
    reading that dict gives the pillar's title, target keyword,
    description, word count and slug and, for every cluster in order,
    its title, target keyword, search volume, difficulty, word count and
    slug. *)
Theorem export_json_round_trip (pillar : PillarPage.t) :
  export_cluster_map pillar "json" = Some (_export_json pillar)
  /\ Json.loads (_export_json pillar) = Some (export_data pillar)
  /\ read_export (export_data pillar) = Some (pillar_fields pillar).
Proof.
  split; [reflexivity|]. split.
  - apply loads_dumps, export_data_wf.
  - apply read_export_data.
Qed.

(** C6 (as stated) fails: the content type of a cluster is not written,
    so two pillars whose clusters differ in it have the same export and
    the parsed cluster has no such field. *)
Lemma export_json_without_content_type :
  _export_json (tea_pillar "video") = _export_json (tea_pillar "blog_post")
  /\ PillarPage.clusters (tea_pillar "video")
     <> PillarPage.clusters (tea_pillar "blog_post")
  /\ (data ← Json.loads (_export_json (tea_pillar "video"));
      os ← arr_field data "clusters";
      Some (map (fun o => Json.get o "content_type") os))
     = Some [None].
Proof.
  split; [reflexivity|]. split; [discriminate|].
  vm_compute. reflexivity.
Qed.

End JsonExport.

(* ================================================================== *)
(** * Further properties of the cluster planner *)
(* ================================================================== *)

Section Slugs.

Import Measures.

Lemma slugify_chars (title : string) : slugify title = hyphenated title.
Proof.
  unfold slugify. induction title as [|c s IH]; [reflexivity|].
  cbn [PyStr.lower PyStr.replace_char hyphenated]. rewrite IH. reflexivity.
Qed.

Lemma slug_char_facts (c : ascii) :
  slug_char (slug_char c) = slug_char c
  /\ Ascii.eqb (slug_char c) " " = false
  /\ PyStr.is_upper (slug_char c) = false.
Proof.
  destruct c as [[] [] [] [] [] [] [] []]; vm_compute; auto.
Qed.

(** X1: the default slug of a cluster or a pillar is the slug of its
    title: the title in lower case with a hyphen for every space, so
    [Green Tea Guide] becomes [green-tea-guide].  The slug is a fixed
    point of the slug function, as long as the title, with no space and
    no capital letter in it. *)
Theorem slugify_normal_form (title target_keyword description difficulty
    content_type : string) (search_volume word_count : Z)
    (clusters : list ClusterContent.t) :
  ClusterContent.url_slug
    (ClusterContent.make title target_keyword search_volume difficulty word_count
       content_type "")
  = hyphenated title
  /\ PillarPage.url_slug
       (PillarPage.make title target_keyword description clusters word_count "")
     = hyphenated title
  /\ slugify title = hyphenated title
  /\ slugify "Green Tea Guide" = "green-tea-guide"
  /\ slugify "SEO  basics-2024" = "seo--basics-2024"
  /\ slugify (slugify title) = slugify title
  /\ String.length (slugify title) = String.length title
  /\ PyStr.mem_char " " (slugify title) = false
  /\ all_chars (fun c => negb (PyStr.is_upper c)) (slugify title) = true.
Proof.
  split; [exact (slugify_chars title)|]. split; [exact (slugify_chars title)|].
  split; [exact (slugify_chars title)|].
  split; [reflexivity|]. split; [reflexivity|]. repeat split.
  - rewrite !slugify_chars. induction title as [|c s IH]; [reflexivity|].
    cbn [hyphenated]. rewrite IH. now rewrite (proj1 (slug_char_facts c)).
  - rewrite slugify_chars. induction title as [|c s IH]; [reflexivity|].
    cbn [String.length hyphenated]. now rewrite IH.
  - rewrite slugify_chars. induction title as [|c s IH]; [reflexivity|].
    cbn [PyStr.mem_char hyphenated]. rewrite IH.
    now rewrite (proj1 (proj2 (slug_char_facts c))).
  - rewrite slugify_chars. induction title as [|c s IH]; [reflexivity|].
    cbn [all_chars hyphenated]. rewrite IH.
    now rewrite (proj2 (proj2 (slug_char_facts c))).
Qed.

End Slugs.

Section HubLinks.

Import Measures.

Import TopicClusterGenerator.

(** X2: the strategy holds one link from the pillar to every cluster and
    one link back, in cluster order.  The link to a cluster goes from the
    pillar's slug to the cluster's slug and is anchored on the cluster's
    keyword; the link back goes from the cluster's slug to the pillar's
    slug and is anchored on the pillar's keyword.  Each pair has its ends
    exchanged, and the related links are at most two per cluster. *)
Theorem hub_and_spoke_links (pillar : PillarPage.t) :
  let s := generate_internal_linking_strategy pillar in
  pillar_to_clusters s = map (spoke pillar) (PillarPage.clusters pillar)
  /\ clusters_to_pillar s = map (spoke_back pillar) (PillarPage.clusters pillar)
  /\ (forall i cluster,
        PillarPage.clusters pillar !! i = Some cluster ->
        exists forth back,
          pillar_to_clusters s !! i = Some forth
          /\ clusters_to_pillar s !! i = Some back
          /\ link_from forth = PillarPage.url_slug pillar
          /\ link_to forth = ClusterContent.url_slug cluster
          /\ anchor_text forth = ClusterContent.target_keyword cluster
          /\ link_from back = ClusterContent.url_slug cluster
          /\ link_to back = PillarPage.url_slug pillar
          /\ anchor_text back = PillarPage.target_keyword pillar)
  /\ length (pillar_to_clusters s) = PillarPage.get_cluster_count pillar
  /\ length (clusters_to_pillar s) = PillarPage.get_cluster_count pillar
  /\ Forall2 mirrored (pillar_to_clusters s) (clusters_to_pillar s)
  /\ length (cluster_to_cluster s) <= 2 * PillarPage.get_cluster_count pillar.
Proof.
  cbv zeta. unfold generate_internal_linking_strategy.
  cbn [pillar_to_clusters clusters_to_pillar cluster_to_cluster].
  rewrite !fold_left_append_one. cbn [app].
  change (pillar_link pillar) with (spoke pillar).
  change (back_link pillar) with (spoke_back pillar).
  unfold PillarPage.get_cluster_count. rewrite !length_map.
  split; [reflexivity|]. split; [reflexivity|]. split.
  { intros i cluster Hi. exists (spoke pillar cluster), (spoke_back pillar cluster).
    rewrite !list_lookup_fmap, Hi. repeat split. }
  repeat split.
  - induction (PillarPage.clusters pillar) as [|c cs IH]; constructor; [|exact IH].
    split; reflexivity.
  - assert (forall (l : list (nat * ClusterContent.t)) init,
               length (fold_left
                         (fun acc '(i, cluster1) =>
                            acc ++ related_links_of (PillarPage.clusters pillar) i cluster1)
                         l init)
               <= length init + 2 * length l) as H.
    { induction l as [|[i c] l IH]; intros init; cbn [fold_left length]; [lia|].
      etransitivity; [apply IH|]. rewrite length_app, related_links_of_window.
      cbn [flat_map]. rewrite !length_app.
      destruct (PillarPage.clusters pillar !! (i + 1)) as [c2|];
        destruct (PillarPage.clusters pillar !! (i + 2)) as [c3|];
        repeat match goal with
               | |- context [decide (?a = ?b)] => destruct (decide (a = b))
               end; cbn [length]; lia. }
    etransitivity; [apply H|]. cbn [length].
    unfold PyStr.enumerate. rewrite length_zip_with, length_seq. lia.
Qed.

Lemma prefix_append (t rest : string) : String.prefix t (t +:+ rest) = true.
Proof.
  induction t as [|c t IH]; [destruct rest; reflexivity|].
  cbn [String.append String.prefix].
  destruct (ascii_dec c c); [exact IH|contradiction].
Qed.

Lemma contains_append (pre t post : string) :
  PyStr.contains t (pre +:+ t +:+ post) = true.
Proof.
  induction pre as [|c pre IH].
  - cbn [String.append]. destruct (t +:+ post) eqn:E; cbn [PyStr.contains];
      rewrite <- E, prefix_append; reflexivity.
  - cbn [String.append PyStr.contains]. rewrite IH. apply orb_true_r.
Qed.

Lemma contains_prefix (t post : string) : PyStr.contains t (t +:+ post) = true.
Proof. exact (contains_append EmptyString t post). Qed.

Lemma contains_suffix (pre t : string) : PyStr.contains t (pre +:+ t) = true.
Proof.
  pose proof (contains_append pre t EmptyString) as H.
  now rewrite append_empty_r in H.
Qed.

(** X3: every idea holds the pillar topic, whatever the template type
    and the count; a template type that is not known gives the ideas of
    the guide templates. *)
Theorem cluster_ideas_hold_topic (topic template_type : string) (count : Z) :
  Forall (fun idea => PyStr.contains topic idea = true)
         (generate_cluster_ideas topic template_type count)
  /\ (template_type <> "product" -> template_type <> "service" ->
      generate_cluster_ideas topic template_type count
      = generate_cluster_ideas topic "guide" count).
Proof.
  assert (forall ty, generate_cluster_ideas topic ty count
                     = PyStr.slice_to (Reference.ideas_for ty topic) count) as Heq.
  { intros ty. unfold generate_cluster_ideas.
    rewrite (fold_left_append_one (fun template => format template topic)).
    cbn [app]. rewrite <- selected_templates.
    unfold PyStr.slice_to. rewrite length_map.
    destruct (count <? 0)%Z; now rewrite <- firstn_map. }
  split.
  - rewrite Heq. unfold PyStr.slice_to.
    assert (Forall (fun idea => PyStr.contains topic idea = true)
                   (Reference.ideas_for template_type topic)) as Hall.
    { unfold Reference.ideas_for, Reference.guide_ideas, Reference.product_ideas,
        Reference.service_ideas.
      destruct (String.eqb template_type "product");
        [|destruct (String.eqb template_type "service")];
        repeat constructor;
        first [apply contains_prefix | apply contains_suffix | apply contains_append]. }
    destruct (count <? 0)%Z; apply Forall_take, Hall.
  - intros Hp Hs. rewrite !Heq. unfold Reference.ideas_for.
    destruct (String.eqb_spec template_type "product"); [contradiction|].
    destruct (String.eqb_spec template_type "service"); [contradiction|].
    reflexivity.
Qed.

(** X4: adding a cluster to a pillar adds the row of that cluster to the
    end of the Markdown export and changes nothing before it. *)
Theorem markdown_export_add_cluster (pillar : PillarPage.t) (cluster : ClusterContent.t) :
  _export_markdown (PillarPage.add_cluster pillar cluster)
  = _export_markdown pillar +:+ markdown_row cluster
  /\ export_cluster_map (PillarPage.add_cluster pillar cluster) "markdown"
     = (fun md => md +:+ markdown_row cluster) <$> export_cluster_map pillar "markdown".
Proof.
  assert (_export_markdown (PillarPage.add_cluster pillar cluster)
          = _export_markdown pillar +:+ markdown_row cluster) as H.
  { unfold _export_markdown, PillarPage.add_cluster.
    cbn [PillarPage.clusters PillarPage.title PillarPage.target_keyword
         PillarPage.description PillarPage.word_count].
    cbv zeta. rewrite fold_left_app. cbn [fold_left].
    unfold markdown_row.
    generalize (fold_left
       (fun (md : string) (cluster0 : ClusterContent.t) =>
        md +:+ "| " +:+ ClusterContent.title cluster0 +:+ " | " +:+
        ClusterContent.target_keyword cluster0 +:+ " | " +:+
        NilZero.string_of_int (Z.to_int (ClusterContent.search_volume cluster0)) +:+
        " | " +:+ ClusterContent.difficulty cluster0 +:+ " | " +:+
        NilZero.string_of_int (Z.to_int (ClusterContent.word_count cluster0)) +:+
        " |" +:+ String Json.LF "") (PillarPage.clusters pillar)).
    intros f. reflexivity. }
  split; [exact H|]. unfold export_cluster_map.
  change (String.eqb "markdown" "json") with false.
  change (String.eqb "markdown" "markdown") with true.
  cbv iota. rewrite H. reflexivity.
Qed.

End HubLinks.

Section Coverage.

Import Measures.

Import TopicClusterGenerator.

Lemma calculate_completeness_ok (pillar : PillarPage.t) :
  (- 2 ^ 53 <= PillarPage.word_count pillar)%Z ->
  exists score, _calculate_completeness pillar = Ok score.
Proof.
  intros Hwc. unfold _calculate_completeness. cbv zeta.
  set (n := Z.of_nat (length (PillarPage.clusters pillar))).
  set (adequate :=
         Z.of_nat
           (length (filter (fun c => (1500 <=? ClusterContent.word_count c)%Z = true)
                           (PillarPage.clusters pillar)))).
  assert (0 <= adequate <= n)%Z as Had.
  { unfold adequate, n. pose proof (length_filter
      (fun c => (1500 <=? ClusterContent.word_count c)%Z = true)
      (PillarPage.clusters pillar)). lia. }
  assert (exists s1,
             (if (10 <=? n)%Z then Ok (PyNum.add (PyNum.Int 0) (PyNum.Int 40))
              else bind (F64.truediv n 10)
                     (fun r => Ok (PyNum.add (PyNum.Int 0) (PyNum.Float (F64.mul r 40)))))
             = Ok s1) as [s1 ->].
  { destruct (Z.leb_spec 10 n) as [Hn|Hn]; [eexists; reflexivity|].
    destruct (truediv_unit n 10) as [-> _]; [unfold n in *; lia|lia|].
    eexists; reflexivity. }
  cbn [bind].
  assert (exists s2,
             (if (3000 <=? PillarPage.word_count pillar)%Z
              then Ok (PyNum.add s1 (PyNum.Int 30))
              else bind (F64.truediv (PillarPage.word_count pillar) 3000)
                     (fun r => Ok (PyNum.add s1 (PyNum.Float (F64.mul r 30)))))
             = Ok s2) as [s2 ->].
  { destruct (Z.leb_spec 3000 (PillarPage.word_count pillar)) as [Hw|Hw];
      [eexists; reflexivity|].
    destruct (truediv_within (PillarPage.word_count pillar) 3000 (- 2 ^ 53) 1)
      as [-> _]; [lia|lia|vm_compute; discriminate| |eexists; reflexivity].
    split.
    - apply Qle_shift_div_l; [reflexivity|].
      rewrite <- inject_Z_mult, <- Zle_Qle. lia.
    - apply Qle_shift_div_r; [reflexivity|].
      rewrite <- inject_Z_mult, <- Zle_Qle. lia. }
  cbn [bind].
  destruct (PillarPage.clusters pillar) as [|c cs] eqn:E; [eexists; reflexivity|].
  destruct (truediv_unit adequate n) as [-> _];
    [exact Had|unfold n; cbn [length]; lia|].
  eexists; reflexivity.
Qed.

Lemma sum_word_counts_app (l1 l2 : list ClusterContent.t) :
  sum_word_counts (l1 ++ l2) = (sum_word_counts l1 + sum_word_counts l2)%Z.
Proof.
  unfold sum_word_counts. rewrite map_app, fold_left_app.
  generalize (fold_left Z.add (map ClusterContent.word_count l1) 0%Z) as a.
  induction (map ClusterContent.word_count l2) as [|x l IH]; intros a; cbn [fold_left].
  - lia.
  - rewrite IH, (IH (0 + x)%Z). lia.
Qed.

Lemma sum_word_counts_bounds (clusters : list ClusterContent.t) (lo hi : Z) :
  Forall (fun c => (lo <= ClusterContent.word_count c <= hi)%Z) clusters ->
  (Z.of_nat (length clusters) * lo <= sum_word_counts clusters
   <= Z.of_nat (length clusters) * hi)%Z.
Proof.
  induction 1 as [|c cs Hc Hcs IH].
  - cbn. lia.
  - change (c :: cs) with ([c] ++ cs). rewrite sum_word_counts_app.
    change (sum_word_counts [c]) with (0 + ClusterContent.word_count c)%Z.
    cbn [length app]. lia.
Qed.

(** The mean of word counts between two integers of at most 53 bits
    is a float between them. *)
Lemma mean_word_count (clusters : list ClusterContent.t) (lo hi : Z) :
  clusters <> [] ->
  (- 2 ^ 53 <= lo)%Z -> (hi <= 2 ^ 53)%Z ->
  Forall (fun c => (lo <= ClusterContent.word_count c <= hi)%Z) clusters ->
  F64.truediv (sum_word_counts clusters) (Z.of_nat (length clusters))
  = Ok (F64.div_int (sum_word_counts clusters) (Z.of_nat (length clusters)))
  /\ (inject_Z lo
      <= F64.div_int (sum_word_counts clusters) (Z.of_nat (length clusters))
      <= inject_Z hi)%Q.
Proof.
  intros Hne Hlo Hhi Hall.
  pose proof (sum_word_counts_bounds _ lo hi Hall) as Hsum.
  assert (0 < Z.of_nat (length clusters))%Z as Hn.
  { destruct clusters; [congruence|cbn [length]; lia]. }
  revert Hsum Hn.
  generalize (sum_word_counts clusters) as total.
  generalize (Z.of_nat (length clusters)) as n.
  intros n total Hsum Hn.
  apply truediv_within; [lia|exact Hlo|exact Hhi|].
  assert (0 < inject_Z n)%Q as Hq
    by (change 0%Q with (inject_Z 0); rewrite <- Zlt_Qlt; lia).
  split.
  - apply Qle_shift_div_l; [exact Hq|].
    rewrite <- inject_Z_mult, <- Zle_Qle. lia.
  - apply Qle_shift_div_r; [exact Hq|].
    rewrite <- inject_Z_mult, <- Zle_Qle. lia.
Qed.

Lemma analyze_cluster_coverage_ok (pillar : PillarPage.t) :
  modest_pillar pillar ->
  exists average completeness,
    _calculate_completeness pillar = Ok completeness
    /\ (PillarPage.clusters pillar = [] -> average = 0%Z)
    /\ analyze_cluster_coverage pillar
       = Ok (Coverage (PillarPage.title pillar)
               (Z.of_nat (length (PillarPage.clusters pillar)))
               (PillarPage.word_count pillar
                + sum_word_counts (PillarPage.clusters pillar))
               average
               (fold_left
                  (fun d cluster => count_key d (ClusterContent.difficulty cluster))
                  (PillarPage.clusters pillar) [])
               completeness
               (_get_coverage_recommendations pillar)).
Proof.
  intros [Hwc Hall].
  destruct (calculate_completeness_ok pillar Hwc) as [score Hs].
  unfold analyze_cluster_coverage. cbv zeta. rewrite Hs.
  destruct (Z.ltb_spec 0 (Z.of_nat (length (PillarPage.clusters pillar)))) as [H|H].
  - destruct (mean_word_count (PillarPage.clusters pillar) (- 2 ^ 53) (2 ^ 53))
      as [-> _]; [intros E; rewrite E in H; cbn in H; lia|lia|lia|exact Hall|].
    cbn [bind].
    eexists _, score. split; [reflexivity|]. split; [|reflexivity].
    intros E. rewrite E in H. cbn in H. lia.
  - cbn [bind]. exists 0%Z, score. auto.
Qed.

Lemma modest_add_cluster (pillar : PillarPage.t) (cluster : ClusterContent.t) :
  modest_pillar pillar -> modest (ClusterContent.word_count cluster) ->
  modest_pillar (PillarPage.add_cluster pillar cluster).
Proof.
  intros [Hwc Hall] Hc. split; [exact Hwc|].
  cbn [PillarPage.add_cluster PillarPage.clusters].
  apply Forall_app. split; [exact Hall|]. constructor; [exact Hc|constructor].
Qed.

(** X5: the coverage analysis returns for every pillar whose word
    counts have at most 53 bits (the pillar's may be larger), also for
    one without clusters, whose average cluster length is 0; the totals
    count the clusters and add their word counts to the pillar's, so a
    further cluster adds one cluster and its word count.  Beyond the
    range of a float the analysis raises [OverflowError]: for a cluster
    of [10 ^ 400] words, and for a pillar of [- 10 ^ 400] words. *)
Theorem coverage_analysis_returns (pillar : PillarPage.t) (cluster : ClusterContent.t) :
  modest_pillar pillar -> modest (ClusterContent.word_count cluster) ->
  (exists c c',
      analyze_cluster_coverage pillar = Ok c
      /\ analyze_cluster_coverage (PillarPage.add_cluster pillar cluster) = Ok c'
      /\ pillar_title c = PillarPage.title pillar
      /\ total_clusters c = Z.of_nat (PillarPage.get_cluster_count pillar)
      /\ (PillarPage.clusters pillar = [] ->
          average_cluster_length c = 0%Z
          /\ total_word_count c = PillarPage.word_count pillar
          /\ difficulty_distribution c = [])
      /\ total_clusters c' = (total_clusters c + 1)%Z
      /\ total_word_count c'
         = (total_word_count c + ClusterContent.word_count cluster)%Z)
  /\ analyze_cluster_coverage heavy_cluster_pillar = Raise OverflowError
  /\ analyze_cluster_coverage heavy_pillar = Raise OverflowError.
Proof.
  intros Hp Hc.
  split; [|split; vm_compute; reflexivity].
  destruct (analyze_cluster_coverage_ok pillar Hp) as (a & s & _ & Ha & H).
  destruct (analyze_cluster_coverage_ok (PillarPage.add_cluster pillar cluster)
              (modest_add_cluster pillar cluster Hp Hc))
    as (a' & s' & _ & _ & H').
  eexists _, _. split; [exact H|]. split; [exact H'|].
  cbn [pillar_title total_clusters total_word_count average_cluster_length
       difficulty_distribution PillarPage.add_cluster PillarPage.clusters
       PillarPage.word_count PillarPage.title].
  unfold PillarPage.get_cluster_count.
  split; [reflexivity|]. split; [reflexivity|]. split.
  - intros E. rewrite (Ha E), E. cbn. split; [reflexivity|]. split; [lia|reflexivity].
  - rewrite length_app, sum_word_counts_app. cbn [length].
    change (sum_word_counts [cluster]) with (0 + ClusterContent.word_count cluster)%Z.
    split; lia.
Qed.

Lemma coverage_analysis_returns_witness :
  modest_pillar (JsonReference.tea_pillar "video")
  /\ exists c,
       analyze_cluster_coverage (JsonReference.tea_pillar "video") = Ok c
       /\ pillar_title c = PillarPage.title (JsonReference.tea_pillar "video").
Proof.
  assert (modest_pillar (JsonReference.tea_pillar "video")) as Hp.
  { split; [vm_compute; discriminate|].
    repeat constructor; vm_compute; discriminate. }
  assert (modest (ClusterContent.word_count
                    (ClusterContent.make "Brewing" "brewing tea" 10 "low" 1200
                       "blog_post" ""))) as Hc
    by (split; vm_compute; discriminate).
  split; [exact Hp|].
  destruct (coverage_analysis_returns _ _ Hp Hc)
    as [(c & c' & H & _ & Ht & _) _].
  exists c. split; [exact H|exact Ht].
Defined.

Lemma dict_get_count_key (d : list (string * Z)) (k k' : string) :
  dict_get (count_key d k) k'
  = (dict_get d k' + if String.eqb k k' then 1 else 0)%Z.
Proof.
  induction d as [|[k0 v] d IH]; cbn [count_key dict_get].
  - destruct (String.eqb k k'); lia.
  - destruct (String.eqb_spec k0 k) as [->|Hne]; cbn [dict_get].
    + destruct (String.eqb k k'); lia.
    + destruct (String.eqb_spec k0 k') as [->|Hne'].
      * destruct (String.eqb_spec k k'); [congruence|lia].
      * exact IH.
Qed.

Lemma keys_count_key (d : list (string * Z)) (k : string) :
  map fst (count_key d k)
  = if existsb (String.eqb k) (map fst d) then map fst d else map fst d ++ [k].
Proof.
  induction d as [|[k0 v] d IH]; cbn [count_key map fst existsb app]; [reflexivity|].
  rewrite (String.eqb_sym k k0).
  destruct (String.eqb_spec k0 k) as [->|Hne]; cbn [map fst orb]; [reflexivity|].
  rewrite IH. destruct (existsb (String.eqb k) (map fst d)); reflexivity.
Qed.

Lemma existsb_eqb_In (k : string) (l : list string) :
  existsb (String.eqb k) l = true <-> In k l.
Proof.
  rewrite existsb_exists. split.
  - intros (x & Hx & E). apply String.eqb_eq in E. now subst.
  - intros H. exists k. split; [exact H|apply String.eqb_refl].
Qed.

Lemma sum_count_key (d : list (string * Z)) (k : string) :
  fold_right Z.add 0%Z (map snd (count_key d k))
  = (fold_right Z.add 0%Z (map snd d) + 1)%Z.
Proof.
  induction d as [|[k0 v] d IH]; cbn [count_key map snd fold_right]; [lia|].
  destruct (String.eqb k0 k); cbn [map snd fold_right]; lia.
Qed.

Lemma positive_count_key (d : list (string * Z)) (k : string) :
  Forall (fun kv => (1 <= snd kv)%Z) d ->
  Forall (fun kv => (1 <= snd kv)%Z) (count_key d k).
Proof.
  induction 1 as [|[k0 v] d Hv Hd IH]; cbn [count_key].
  - constructor; [cbn; lia|constructor].
  - destruct (String.eqb k0 k); constructor; cbn [snd] in *; auto; lia.
Qed.

(** X6: for a pillar whose word counts have at most 53 bits (the
    pillar's may be larger) the difficulty distribution lists every
    difficulty of the clusters once, with the number of clusters that
    have it; the numbers are positive and add up to the number of
    clusters. *)
Theorem difficulty_distribution_counts (pillar : PillarPage.t) :
  modest_pillar pillar ->
  exists c,
    analyze_cluster_coverage pillar = Ok c
    /\ NoDup (map fst (difficulty_distribution c))
    /\ (forall k, In k (map fst (difficulty_distribution c))
                  <-> In k (map ClusterContent.difficulty (PillarPage.clusters pillar)))
    /\ (forall k, dict_get (difficulty_distribution c) k
                  = difficulty_count k (PillarPage.clusters pillar))
    /\ Forall (fun kv => (1 <= snd kv)%Z) (difficulty_distribution c)
    /\ fold_right Z.add 0%Z (map snd (difficulty_distribution c)) = total_clusters c.
Proof.
  intros Hp.
  destruct (analyze_cluster_coverage_ok pillar Hp) as (a & s & _ & _ & H).
  eexists. split; [exact H|].
  cbn [difficulty_distribution total_clusters].
  pose (step := fun (d : list (string * Z)) (cluster : ClusterContent.t) =>
                  count_key d (ClusterContent.difficulty cluster)).
  fold step.
  assert (forall cs d,
             NoDup (map fst d) ->
             Forall (fun kv => (1 <= snd kv)%Z) d ->
             NoDup (map fst (fold_left step cs d))
             /\ (forall k, In k (map fst (fold_left step cs d))
                           <-> In k (map fst d)
                               \/ In k (map ClusterContent.difficulty cs))
             /\ (forall k, dict_get (fold_left step cs d) k
                           = (dict_get d k + difficulty_count k cs)%Z)
             /\ Forall (fun kv => (1 <= snd kv)%Z) (fold_left step cs d)
             /\ fold_right Z.add 0%Z (map snd (fold_left step cs d))
                = (fold_right Z.add 0%Z (map snd d) + Z.of_nat (length cs))%Z) as Hinv.
  { induction cs as [|c cs IH]; intros d Hnd Hpos; cbn [fold_left].
    - unfold difficulty_count. simpl.
      split; [exact Hnd|]. split; [intros k; tauto|]. split; [intros k; lia|].
      split; [exact Hpos|lia].
    - assert (NoDup (map fst (step d c))) as Hnd'.
      { unfold step. rewrite keys_count_key.
        destruct (existsb (String.eqb (ClusterContent.difficulty c)) (map fst d)) eqn:E;
          [exact Hnd|].
        apply NoDup_app. split; [exact Hnd|]. split; [|apply NoDup_singleton].
        intros x Hx Hk. apply list_elem_of_singleton in Hk. subst x.
        apply list_elem_of_In, existsb_eqb_In in Hx. congruence. }
      destruct (IH (step d c) Hnd' (positive_count_key d _ Hpos))
        as (I1 & I2 & I3 & I4 & I5).
      split; [exact I1|]. split; [|split; [|split; [exact I4|]]].
      + intros k. rewrite I2. unfold step. rewrite keys_count_key. cbn [map In].
        destruct (existsb (String.eqb (ClusterContent.difficulty c)) (map fst d)) eqn:E.
        * apply existsb_eqb_In in E. split; [tauto|].
          intros [?|[<-|?]]; tauto.
        * rewrite in_app_iff. cbn [In]. tauto.
      + intros k. rewrite I3. unfold step. rewrite dict_get_count_key.
        unfold difficulty_count. rewrite filter_cons.
        destruct (String.eqb_spec (ClusterContent.difficulty c) k) as [E|NE].
        * rewrite decide_True by reflexivity. cbn [length]. lia.
        * rewrite decide_False by (intros X; discriminate X). lia.
      + rewrite I5. unfold step. rewrite sum_count_key. cbn [length]. lia. }
  destruct (Hinv (PillarPage.clusters pillar) [] (NoDup_nil_2) (Forall_nil_2 _))
    as (I1 & I2 & I3 & I4 & I5).
  split; [exact I1|]. split; [|split; [|split; [exact I4|]]].
  - intros k. rewrite I2. cbn. tauto.
  - intros k. rewrite I3. cbn. lia.
  - rewrite I5. cbn. lia.
Qed.

Lemma difficulty_distribution_counts_witness :
  modest_pillar (JsonReference.tea_pillar "video")
  /\ exists c,
       analyze_cluster_coverage (JsonReference.tea_pillar "video") = Ok c
       /\ NoDup (map fst (difficulty_distribution c)).
Proof.
  assert (modest_pillar (JsonReference.tea_pillar "video")) as Hp.
  { split; [vm_compute; discriminate|].
    repeat constructor; vm_compute; discriminate. }
  split; [exact Hp|].
  destruct (difficulty_distribution_counts _ Hp) as (c & H & Hnd & _).
  exists c. split; [exact H|exact Hnd].
Defined.

End Coverage.

Section CoverageScore.

Import Measures.

Import TopicClusterGenerator.

Local Open Scope Q_scope.

Lemma filter_all {A} (P : A -> Prop) `{forall x, Decision (P x)} (l : list A) :
  Forall P l -> filter P l = l.
Proof.
  induction 1 as [|x l Hx Hl IH]; [reflexivity|].
  rewrite filter_cons, decide_True by assumption. now rewrite IH.
Qed.

Lemma filter_none {A} (P : A -> Prop) `{forall x, Decision (P x)} (l : list A) :
  Forall (fun x => ~ P x) l -> filter P l = [].
Proof.
  induction 1 as [|x l Hx Hl IH]; [reflexivity|].
  now rewrite filter_cons, decide_False by assumption.
Qed.

Lemma div_int_same (n : Z) : n <> 0%Z -> F64.div_int n n = 1.
Proof.
  intros Hn. unfold F64.div_int.
  rewrite (rnd_eq (inject_Z n / inject_Z n) 1); [reflexivity|].
  field. intros H. apply Hn. unfold Qeq in H. simpl in H. lia.
Qed.

(** X7: the coverage recommendations are never empty.  A pillar with
    ten clusters or more, 3000 words or more and only clusters of 1500
    words or more gets the single message of praise and the
    completeness score 100.0; any other pillar gets no praise. *)
Theorem coverage_recommendations_praise (pillar : PillarPage.t) :
  _get_coverage_recommendations pillar <> []
  /\ if excellent_coverage pillar
     then _get_coverage_recommendations pillar = [excellent_coverage_message]
          /\ _calculate_completeness pillar = Ok (PyNum.Float 100)
     else ~ In excellent_coverage_message (_get_coverage_recommendations pillar).
Proof.
  unfold excellent_coverage, _get_coverage_recommendations. cbv zeta.
  set (n := Z.of_nat (length (PillarPage.clusters pillar))).
  set (short := filter (fun c => (ClusterContent.word_count c <? 1500)%Z = true)
                       (PillarPage.clusters pillar)).
  assert (forallb (fun c => (1500 <=? ClusterContent.word_count c)%Z)
                  (PillarPage.clusters pillar) = true -> short = []) as Hshort.
  { intros Hall. apply filter_none. rewrite forallb_forall in Hall.
    apply List.Forall_forall. intros c Hc. specialize (Hall c Hc).
    destruct (Z.ltb_spec (ClusterContent.word_count c) 1500); [lia|discriminate]. }
  assert (forallb (fun c => (1500 <=? ClusterContent.word_count c)%Z)
                  (PillarPage.clusters pillar) = false -> short <> []) as Hlong.
  { intros Hall E.
    assert (forallb (fun c => (1500 <=? ClusterContent.word_count c)%Z)
                    (PillarPage.clusters pillar) = true); [|congruence].
    apply forallb_forall. intros c Hc.
    destruct (Z.leb_spec 1500 (ClusterContent.word_count c)) as [|Hlt]; [reflexivity|].
    assert (c ∈ short) as Hin.
    { apply list_elem_of_filter. split; [|now apply list_elem_of_In].
      now apply Z.ltb_lt. }
    rewrite E in Hin. inversion Hin. }
  destruct (Z.leb_spec 10 n) as [Hn|Hn]; cbn [andb].
  - destruct (Z.ltb_spec n 10) as [|_]; [lia|].
    destruct (Z.leb_spec 3000 (PillarPage.word_count pillar)) as [Hw|Hw]; cbn [andb].
    + destruct (Z.ltb_spec (PillarPage.word_count pillar) 3000) as [|_]; [lia|].
      destruct (forallb _ (PillarPage.clusters pillar)) eqn:Hall.
      * rewrite (Hshort eq_refl). split; [discriminate|]. split; [reflexivity|].
        unfold _calculate_completeness. cbv zeta. fold n.
        destruct (Z.leb_spec 10 n) as [_|]; [|lia].
        destruct (Z.leb_spec 3000 (PillarPage.word_count pillar)) as [_|]; [|lia].
        cbn [bind PyNum.add Z.add].
        rewrite filter_all.
        2:{ rewrite forallb_forall in Hall. apply List.Forall_forall.
            intros c Hc. exact (Hall c Hc). }
        fold n. destruct (PillarPage.clusters pillar) as [|c cs] eqn:E;
          [cbn in n; lia|].
        destruct (truediv_unit n n) as [-> _]; [lia|lia|].
        cbn [bind]. rewrite div_int_same by lia.
        reflexivity.
      * specialize (Hlong eq_refl). destruct short as [|c cs]; [congruence|].
        cbn [app]. split; [discriminate|]. intros [E|[]]. discriminate E.
    + destruct (Z.ltb_spec (PillarPage.word_count pillar) 3000) as [_|]; [|lia].
      cbn [app]. destruct short; cbn [app]; (split; [discriminate|]).
      * intros [E|[]]. discriminate E.
      * intros [E|[E|[]]]; discriminate E.
  - destruct (Z.ltb_spec n 10) as [_|]; [|lia]. cbn [app].
    destruct (PillarPage.word_count pillar <? 3000)%Z; cbn [app];
      destruct short; cbn [app]; (split; [discriminate|]);
      intros H; repeat (destruct H as [H|H]; [discriminate H|]); exact H.
Qed.

End CoverageScore.

Section CoverageRange.

Import Measures.

Import TopicClusterGenerator.

Local Open Scope Q_scope.

Lemma div_int_unit (a n : Z) :
  (0 <= a <= n)%Z -> (0 < n)%Z -> 0 <= F64.div_int a n <= 1.
Proof.
  intros Ha Hn. unfold F64.div_int.
  apply (rnd_between _ 0 1); [|vm_compute; discriminate|vm_compute; discriminate].
  assert (0 < inject_Z n) as Hq by (change 0 with (inject_Z 0); rewrite <- Zlt_Qlt; lia).
  assert (0 <= inject_Z a) as Ha0 by (change 0 with (inject_Z 0); rewrite <- Zle_Qle; lia).
  assert (inject_Z a <= inject_Z n) as Han by (rewrite <- Zle_Qle; lia).
  split.
  - apply Qle_shift_div_l; [exact Hq|]. lra.
  - apply Qle_shift_div_r; [exact Hq|]. lra.
Qed.

Lemma mul_unit (r k : Q) :
  0 <= r <= 1 -> 0 <= k -> F64.rnd k <= k -> 0 <= F64.mul r k <= k.
Proof.
  intros Hr Hk Hx. unfold F64.mul.
  apply (rnd_between _ 0 k); [nra|vm_compute; discriminate|exact Hx].
Qed.

Lemma to_float_range (s : PyNum.num) (h : Q) :
  0 <= PyNum.value s <= h -> F64.rnd h <= h -> 0 <= PyNum.to_float s <= h.
Proof.
  intros Hs Hh. destruct s as [m|x]; cbn [PyNum.value PyNum.to_float] in *; [|exact Hs].
  unfold F64.of_int. apply (rnd_between _ 0 h); [exact Hs| |exact Hh].
  vm_compute; discriminate.
Qed.

Lemma add_range (s t : PyNum.num) (h k : Q) :
  0 <= PyNum.value s <= h -> 0 <= PyNum.value t <= k ->
  F64.rnd h <= h -> F64.rnd k <= k -> F64.rnd (h + k) <= h + k ->
  0 <= PyNum.value (PyNum.add s t) <= h + k.
Proof.
  intros Hs Ht Hh Hk Hhk.
  pose proof (to_float_range s h Hs Hh) as Fs.
  pose proof (to_float_range t k Ht Hk) as Ft.
  assert (0 <= F64.add (PyNum.to_float s) (PyNum.to_float t) <= h + k) as Hadd.
  { unfold F64.add. apply (rnd_between _ 0 (h + k)); [lra| |exact Hhk].
    vm_compute; discriminate. }
  destruct s as [m|x], t as [n|y]; cbn [PyNum.add PyNum.value] in *;
    try exact Hadd.
  rewrite inject_Z_plus. lra.
Qed.

Lemma round_range (s : PyNum.num) :
  0 <= PyNum.value s <= 100 -> 0 <= PyNum.value (PyNum.round s 1) <= 100.
Proof.
  intros Hs. destruct s as [m|x]; cbn [PyNum.round PyNum.value] in *; [exact Hs|].
  destruct Hs as [H1 H2].
  pose proof (round_mono _ _ 1 H1) as R1. pose proof (round_mono _ _ 1 H2) as R2.
  assert (F64.round 0 1 = 0) as E0 by (vm_compute; reflexivity).
  assert (F64.round 100 1 = 100) as E1 by (vm_compute; reflexivity).
  rewrite E0 in R1. rewrite E1 in R2. split; assumption.
Qed.

Ltac exact_float :=
  lazymatch goal with
  | |- F64.rnd ?c <= ?c => vm_compute; discriminate
  end.

Lemma bind_range (r : py_result PyNum.num) (k : PyNum.num -> py_result PyNum.num)
    (h h' : Q) :
  (exists s, r = Ok s /\ 0 <= PyNum.value s <= h) ->
  (forall s, 0 <= PyNum.value s <= h ->
             exists s', k s = Ok s' /\ 0 <= PyNum.value s' <= h') ->
  exists s', bind r k = Ok s' /\ 0 <= PyNum.value s' <= h'.
Proof.
  intros (s & -> & Hs) Hk. cbn [bind]. exact (Hk s Hs).
Qed.

(** X8: for a pillar whose word count is not negative the completeness
    score of the coverage analysis lies between 0 and 100. *)
Theorem coverage_completeness_in_range (pillar : PillarPage.t) :
  (0 <= PillarPage.word_count pillar)%Z ->
  exists score,
    _calculate_completeness pillar = Ok score
    /\ 0 <= PyNum.value score <= 100.
Proof.
  intros Hwc. unfold _calculate_completeness. cbv zeta.
  set (n := Z.of_nat (length (PillarPage.clusters pillar))).
  set (adequate :=
         Z.of_nat
           (length (filter (fun c => (1500 <=? ClusterContent.word_count c)%Z = true)
                           (PillarPage.clusters pillar)))).
  assert (0 <= adequate <= n)%Z as Had.
  { unfold adequate, n. pose proof (length_filter
      (fun c => (1500 <=? ClusterContent.word_count c)%Z = true)
      (PillarPage.clusters pillar)). lia. }
  apply (bind_range _ _ (0 + 40)).
  { destruct (Z.leb_spec 10 n) as [Hn|Hn].
    - eexists. split; [reflexivity|]. vm_compute. split; discriminate.
    - destruct (truediv_unit n 10) as [-> Hu]; [unfold n in *; lia|lia|].
      cbn [bind]. eexists. split; [reflexivity|].
      apply add_range; try exact_float; [vm_compute; split; discriminate|].
      cbn [PyNum.value]. apply mul_unit; [exact Hu|lra|exact_float]. }
  intros s1 R1. apply (bind_range _ _ (0 + 40 + 30)).
  { destruct (Z.leb_spec 3000 (PillarPage.word_count pillar)) as [Hw|Hw].
    - eexists. split; [reflexivity|].
      apply add_range; try exact_float; [exact R1|]. vm_compute. split; discriminate.
    - destruct (truediv_unit (PillarPage.word_count pillar) 3000) as [-> Hu];
        [lia|lia|].
      cbn [bind]. eexists. split; [reflexivity|].
      apply add_range; try exact_float; [exact R1|].
      cbn [PyNum.value]. apply mul_unit; [exact Hu|lra|exact_float]. }
  intros s2 R2. apply (bind_range _ _ (0 + 40 + 30 + 30)).
  { destruct (PillarPage.clusters pillar) as [|c cs] eqn:E.
    - exists s2. split; [reflexivity|lra].
    - assert (0 < n)%Z as Hn by (unfold n; cbn [length]; lia).
      destruct (truediv_unit adequate n) as [-> Hu]; [lia|lia|].
      cbn [bind]. eexists. split; [reflexivity|].
      apply add_range; try exact_float; [exact R2|].
      cbn [PyNum.value]. apply mul_unit; [exact Hu|lra|exact_float]. }
  intros s3 R3. eexists. split; [reflexivity|].
  apply round_range. lra.
Qed.

Lemma coverage_completeness_in_range_witness :
  (0 <= PillarPage.word_count (PillarPage.make "Tea" "tea" "All about tea" [] 1200 ""))%Z
  /\ exists score,
       _calculate_completeness (PillarPage.make "Tea" "tea" "All about tea" [] 1200 "")
       = Ok score
       /\ 0 <= PyNum.value score <= 100.
Proof.
  split; [cbn; lia|].
  apply (coverage_completeness_in_range
           (PillarPage.make "Tea" "tea" "All about tea" [] 1200 "")).
  cbn; lia.
Defined.

End CoverageRange.

Section AverageLength.

Import Measures.

Import TopicClusterGenerator.

Local Open Scope Q_scope.

(** X9: for a pillar of at least [- 2 ^ 53] words with clusters whose
    word counts lie between two integers of at most 53 bits, the average
    cluster length lies between them too. *)
Theorem average_cluster_length_bounds (pillar : PillarPage.t) (lo hi : Z) :
  PillarPage.clusters pillar <> [] ->
  (- 2 ^ 53 <= PillarPage.word_count pillar)%Z ->
  (- 2 ^ 53 <= lo)%Z -> (hi <= 2 ^ 53)%Z ->
  Forall (fun c => (lo <= ClusterContent.word_count c <= hi)%Z)
         (PillarPage.clusters pillar) ->
  exists c,
    analyze_cluster_coverage pillar = Ok c
    /\ (lo <= average_cluster_length c <= hi)%Z.
Proof.
  intros Hne Hwc Hlo Hhi Hall.
  destruct (calculate_completeness_ok pillar Hwc) as [score Hs].
  unfold analyze_cluster_coverage. cbv zeta. rewrite Hs.
  destruct (mean_word_count _ lo hi Hne Hlo Hhi Hall) as [-> [Q1 Q2]].
  assert (0 < Z.of_nat (length (PillarPage.clusters pillar)))%Z as Hn.
  { destruct (PillarPage.clusters pillar); [congruence|cbn [length]; lia]. }
  destruct (Z.ltb_spec 0 (Z.of_nat (length (PillarPage.clusters pillar))))
    as [_|]; [|lia].
  cbn [bind]. eexists. split; [reflexivity|].
  cbn [average_cluster_length].
  apply round_half_even_bounds; assumption.
Qed.

Lemma average_cluster_length_bounds_witness :
  PillarPage.clusters (JsonReference.tea_pillar "video") <> []
  /\ exists c,
       analyze_cluster_coverage (JsonReference.tea_pillar "video") = Ok c
       /\ (1000 <= average_cluster_length c <= 1500)%Z.
Proof.
  split; [discriminate|].
  apply (average_cluster_length_bounds (JsonReference.tea_pillar "video") 1000 1500).
  - discriminate.
  - vm_compute. discriminate.
  - vm_compute. discriminate.
  - vm_compute. discriminate.
  - repeat constructor; cbn; lia.
Defined.

End AverageLength.

Section FreshPillar.

Import Measures.

Import TopicClusterGenerator.

(** X10: [create_pillar] adds the new pillar at the end of the
    generator's list and returns it without clusters, with the slug of
    its title.  For a word count of at least [- 2 ^ 53] its coverage
    analysis counts no cluster, divides by nothing, and asks first for
    ten cluster pieces; with 3000 words or more that is its only
    recommendation and the completeness is 30.0. *)
Theorem fresh_pillar_coverage (self : state) (title target_keyword description : string)
    (word_count : Z) :
  (- 2 ^ 53 <= word_count)%Z ->
  let '(self', pillar) := create_pillar self title target_keyword description word_count in
  self' = self ++ [pillar]
  /\ PillarPage.clusters pillar = []
  /\ PillarPage.url_slug pillar = slugify title
  /\ exists c,
       analyze_cluster_coverage pillar = Ok c
       /\ total_clusters c = 0%Z
       /\ average_cluster_length c = 0%Z
       /\ total_word_count c = word_count
       /\ head (recommendations c)
          = Some "Add 10 more cluster pieces (minimum 10 recommended)"
       /\ if (3000 <=? word_count)%Z
          then completeness_score c = PyNum.Float 30
               /\ recommendations c
                  = [ "Add 10 more cluster pieces (minimum 10 recommended)" ]
          else length (recommendations c) = 2.
Proof.
  intros Hwc. unfold create_pillar. cbv zeta.
  split; [reflexivity|]. split; [reflexivity|]. split; [reflexivity|].
  unfold analyze_cluster_coverage, _calculate_completeness,
    _get_coverage_recommendations. cbv zeta.
  cbn [PillarPage.make PillarPage.clusters PillarPage.word_count PillarPage.title
       length Z.of_nat].
  change (Z.of_nat 0) with 0%Z.
  change (F64.truediv 0 10) with (Ok (F64.div_int 0 10)).
  change (10 <=? 0)%Z with false. change (0 <? 0)%Z with false.
  change (0 <? 10)%Z with true. cbv iota.
  cbn [bind].
  destruct (Z.leb_spec 3000 word_count) as [H|H].
  - destruct (Z.ltb_spec word_count 3000) as [|_]; [lia|].
    eexists. split; [reflexivity|].
    cbn [total_clusters average_cluster_length total_word_count recommendations
         completeness_score].
    split; [reflexivity|]. split; [reflexivity|].
    split; [unfold sum_word_counts; cbn; lia|].
    split; [reflexivity|]. split; [vm_compute; reflexivity|reflexivity].
  - destruct (Z.ltb_spec word_count 3000) as [_|]; [|lia].
    destruct (truediv_within word_count 3000 (- 2 ^ 53) 1) as [-> _];
      [lia|lia|vm_compute; discriminate| |].
    { split.
      - apply Qle_shift_div_l; [reflexivity|].
        rewrite <- inject_Z_mult, <- Zle_Qle. lia.
      - apply Qle_shift_div_r; [reflexivity|].
        rewrite <- inject_Z_mult, <- Zle_Qle. lia. }
    cbn [bind].
    eexists. split; [reflexivity|].
    cbn [total_clusters average_cluster_length total_word_count recommendations
         completeness_score].
    split; [reflexivity|]. split; [reflexivity|].
    split; [unfold sum_word_counts; cbn; lia|].
    split; reflexivity.
Qed.

Lemma fresh_pillar_coverage_witness :
  (- 2 ^ 53 <= 3500)%Z
  /\ exists c,
       analyze_cluster_coverage
         (snd (create_pillar [] "Green Tea" "green tea" "All about tea" 3500)) = Ok c
       /\ total_clusters c = 0%Z.
Proof.
  assert (- 2 ^ 53 <= 3500)%Z as Hwc by (vm_compute; discriminate).
  split; [exact Hwc|].
  pose proof (fresh_pillar_coverage [] "Green Tea" "green tea" "All about tea" 3500 Hwc)
    as H.
  cbv beta iota zeta delta [create_pillar] in H.
  destruct H as (_ & _ & _ & c & Hc & Hn & _).
  exists c. split; [exact Hc|exact Hn].
Defined.

End FreshPillar.

Section ClusterData.

Import Measures.

Import TopicClusterGenerator JsonReference.

Lemma fold_add_cluster {A} (mk : A -> ClusterContent.t) (l : list A) (p : PillarPage.t) :
  fold_left (fun p x => PillarPage.add_cluster p (mk x)) l p
  = PillarPage.Build (PillarPage.title p) (PillarPage.target_keyword p)
      (PillarPage.description p) (PillarPage.clusters p ++ map mk l)
      (PillarPage.word_count p) (PillarPage.url_slug p).
Proof.
  revert p. induction l as [|x l IH]; intros p; cbn [fold_left map].
  - rewrite app_nil_r. now destruct p.
  - rewrite IH. unfold PillarPage.add_cluster.
    cbn [PillarPage.title PillarPage.target_keyword PillarPage.description
         PillarPage.clusters PillarPage.word_count PillarPage.url_slug].
    now rewrite <- app_assoc.
Qed.

(** X11: [add_clusters_to_pillar] leaves the pillar's own fields and its
    clusters as they are and adds one cluster per dict after them, in
    the order of the dicts; a new cluster takes its title from the dict
    or the empty title, and its slug is always the slug of that title.
    Adding two lists one after the other adds their concatenation. *)
Theorem add_clusters_appends (pillar : PillarPage.t) (data more : list cluster_data) :
  let p := add_clusters_to_pillar pillar data in
  let added := drop (PillarPage.get_cluster_count pillar) (PillarPage.clusters p) in
  PillarPage.get_cluster_count p
  = PillarPage.get_cluster_count pillar + length data
  /\ take (PillarPage.get_cluster_count pillar) (PillarPage.clusters p)
     = PillarPage.clusters pillar
  /\ map ClusterContent.title added = map (fun d => default "" (data_title d)) data
  /\ Forall (fun c => ClusterContent.url_slug c = slugify (ClusterContent.title c)) added
  /\ (PillarPage.title p, PillarPage.target_keyword p, PillarPage.description p,
      PillarPage.word_count p, PillarPage.url_slug p)
     = (PillarPage.title pillar, PillarPage.target_keyword pillar,
        PillarPage.description pillar, PillarPage.word_count pillar,
        PillarPage.url_slug pillar)
  /\ add_clusters_to_pillar p more = add_clusters_to_pillar pillar (data ++ more).
Proof.
  cbv zeta. unfold add_clusters_to_pillar at 1 2 3 4 5 6 7 8 9.
  rewrite (fold_add_cluster
             (fun data =>
                ClusterContent.make (default "" (data_title data))
                  (default "" (data_target_keyword data))
                  (default 0%Z (data_search_volume data))
                  (default "medium" (data_difficulty data))
                  (default 1500%Z (data_word_count data))
                  (default "blog_post" (data_content_type data)) "")).
  unfold PillarPage.get_cluster_count.
  cbn [PillarPage.title PillarPage.target_keyword PillarPage.description
       PillarPage.clusters PillarPage.word_count PillarPage.url_slug].
  rewrite length_app, length_map, take_app_length, drop_app_length.
  split; [reflexivity|]. split; [reflexivity|]. split.
  { rewrite map_map. reflexivity. }
  split.
  { apply List.Forall_forall. intros c Hc. apply in_map_iff in Hc.
    destruct Hc as (d & <- & _). reflexivity. }
  split; [reflexivity|].
  unfold add_clusters_to_pillar. now rewrite fold_left_app.
Qed.

Lemma forallb_map_id {A} (f : A -> bool) (l : list A) :
  (forall x, f x = true) -> forallb f l = true.
Proof. intros H. induction l; cbn; [reflexivity|]. now rewrite H. Qed.

(** X12: the pillar that the adapter builds from a request keeps the
    given title, keyword, description, word count and slug, with the
    defaults ['' / 3000 / slug of the title] for missing keys, and has one
    cluster per dict in order, each with the content type [blog_post];
    its JSON export parses back to these values. *)
Theorem adapter_pillar_exported (request : CliWrapper.pillar_data) :
  let p := CliWrapper._dict_to_pillar request in
  exists e,
    Json.loads (_export_json p) = Some (export_data p)
    /\ read_export (export_data p) = Some e
    /\ ep_title e = default "" (CliWrapper.data_title request)
    /\ ep_target_keyword e = default "" (CliWrapper.data_target_keyword request)
    /\ ep_description e = default "" (CliWrapper.data_description request)
    /\ ep_word_count e = default 3000%Z (CliWrapper.data_word_count request)
    /\ ep_url_slug e
       = slug_or_default (CliWrapper.data_url_slug request)
           (default "" (CliWrapper.data_title request))
    /\ map ec_title (ep_clusters e)
       = map (fun d => default "" (data_title d)) (CliWrapper.data_clusters request)
    /\ map ec_url_slug (ep_clusters e)
       = map (fun d => slug_or_default (data_url_slug d) (default "" (data_title d)))
             (CliWrapper.data_clusters request)
    /\ map ClusterContent.content_type (PillarPage.clusters p)
       = map (fun _ => "blog_post") (CliWrapper.data_clusters request).
Proof.
  cbv zeta. exists (pillar_fields (CliWrapper._dict_to_pillar request)).
  split; [apply loads_dumps, export_data_wf|].
  split; [apply read_export_data|].
  unfold CliWrapper._dict_to_pillar.
  rewrite (fold_add_cluster
             (fun cluster_data =>
                ClusterContent.make (default "" (data_title cluster_data))
                  (default "" (data_target_keyword cluster_data))
                  (default 0%Z (data_search_volume cluster_data))
                  (default "medium" (data_difficulty cluster_data))
                  (default 1500%Z (data_word_count cluster_data))
                  "blog_post"
                  (default "" (data_url_slug cluster_data)))).
  unfold pillar_fields.
  cbn [PillarPage.title PillarPage.target_keyword PillarPage.description
       PillarPage.clusters PillarPage.word_count PillarPage.url_slug
       PillarPage.make app
       ep_title ep_target_keyword ep_description ep_word_count ep_url_slug
       ep_clusters].
  rewrite !map_map.
  repeat split.
  - destruct (CliWrapper.data_url_slug request) as [[|c s]|]; reflexivity.
  - apply map_ext. intros d. cbn.
    destruct (data_url_slug d) as [[|c s]|]; reflexivity.
Qed.

End ClusterData.


(* ================================================================== *)
(** * Further properties of the intent classifier *)
(* ================================================================== *)

Section IntentExtras.

Import Measures.

Import UserIntentAnalyzer Reference.

Local Open Scope Q_scope.

Lemma counts_cases (q : string) :
  (forall intent, match_count q intent = 0%Z)
  \/ (exists intent, match_count q intent <> 0%Z).
Proof.
  destruct (Z.eq_dec (match_count q INFORMATIONAL) 0%Z) as [Hi|Hi];
    [|right; now exists INFORMATIONAL].
  destruct (Z.eq_dec (match_count q NAVIGATIONAL) 0%Z) as [Hn|Hn];
    [|right; now exists NAVIGATIONAL].
  destruct (Z.eq_dec (match_count q COMMERCIAL) 0%Z) as [Hc|Hc];
    [|right; now exists COMMERCIAL].
  destruct (Z.eq_dec (match_count q TRANSACTIONAL) 0%Z) as [Ht|Ht];
    [|right; now exists TRANSACTIONAL].
  left. intros []; assumption.
Qed.

Lemma max4_quarter (a b c d : Z) : (sum4 a b c d <= 4 * max4 a b c d)%Z.
Proof. unfold sum4, max4. lia. Qed.

Lemma div_int_quarter (m t : Z) :
  (1 <= m <= t)%Z -> (t <= 4 * m)%Z -> 1 # 4 <= F64.div_int m t <= 1.
Proof.
  intros Hm Ht. unfold F64.div_int.
  apply (rnd_between _ (1 # 4) 1); [|vm_compute; discriminate|vm_compute; discriminate].
  assert (0 < inject_Z t) as Hq by (change 0 with (inject_Z 0); rewrite <- Zlt_Qlt; lia).
  assert (inject_Z m <= inject_Z t) as H1 by (rewrite <- Zle_Qle; lia).
  assert (inject_Z t <= 4 * inject_Z m) as H2.
  { change 4 with (inject_Z 4). rewrite <- inject_Z_mult, <- Zle_Qle. lia. }
  split.
  - apply Qle_shift_div_l; [exact Hq|]. lra.
  - apply Qle_shift_div_r; [exact Hq|]. lra.
Qed.

(** X13: the confidence of every analysis lies between 0.25 and 1. *)
Theorem confidence_bounds (q : string) :
  1 # 4 <= confidence (analyze_query q) <= 1.
Proof.
  destruct (counts_cases q) as [Hzero|Hsome].
  - destruct (analyze_query_fallback q Hzero) as [_ ->].
    unfold _apply_heuristics.
    destruct (existsb _ _); [vm_compute; split; discriminate|].
    destruct (_ && _); [vm_compute; split; discriminate|].
    destruct (3 <=? _); vm_compute; split; discriminate.
  - destruct (analyze_query_scored q Hsome) as [_ ->].
    destruct (counts_positive q Hsome) as [Hm _].
    pose proof (max4_quarter (match_count q INFORMATIONAL) (match_count q NAVIGATIONAL)
                  (match_count q COMMERCIAL) (match_count q TRANSACTIONAL)) as Hq.
    revert Hm Hq.
    generalize (max4 (match_count q INFORMATIONAL) (match_count q NAVIGATIONAL)
                  (match_count q COMMERCIAL) (match_count q TRANSACTIONAL)).
    generalize (sum4 (match_count q INFORMATIONAL) (match_count q NAVIGATIONAL)
                  (match_count q COMMERCIAL) (match_count q TRANSACTIONAL)).
    intros t m Hm Hq.
    destruct (div_int_quarter m t Hm Hq) as [H1 H2].
    pose proof (round_mono _ _ 2 H1) as R1. pose proof (round_mono _ _ 2 H2) as R2.
    assert (F64.round (1 # 4) 2 = 1 # 4) as E1 by (vm_compute; reflexivity).
    assert (F64.round 1 2 = 1) as E2 by (vm_compute; reflexivity).
    rewrite E1 in R1. rewrite E2 in R2. split; assumption.
Qed.

(** X14: a query that is empty or blank once lowered and stripped is
    classed as navigational with confidence 0.6, with all four scores 0
    and no matched modifier. *)
Theorem blank_query_navigational (q : string) :
  normalized q = EmptyString ->
  primary_intent (analyze_query q) = NAVIGATIONAL
  /\ confidence (analyze_query q) = F64.lit (6 # 10)
  /\ intent_scores (analyze_query q)
     = [ (INFORMATIONAL, 0%Z); (NAVIGATIONAL, 0%Z);
         (COMMERCIAL, 0%Z); (TRANSACTIONAL, 0%Z) ]
  /\ matched_modifiers (analyze_query q) = [].
Proof.
  intros H. unfold analyze_query. cbv zeta. fold (normalized q). rewrite H.
  vm_compute. repeat split.
Qed.

Lemma blank_query_navigational_witness :
  normalized "  " = EmptyString
  /\ primary_intent (analyze_query "  ") = NAVIGATIONAL
  /\ confidence (analyze_query "  ") = F64.lit (6 # 10).
Proof.
  split; [reflexivity|].
  destruct (blank_query_navigational "  " eq_refl) as (H1 & H2 & _).
  split; [exact H1|exact H2].
Defined.

Lemma matches_of_filter (modifiers : list string) (text : string) :
  matches_of (map compile_modifier modifiers) text
  = map reported (List.filter (fun m => occurs m text) modifiers).
Proof.
  unfold matches_of.
  assert (forall (ms : list string) (init : list string),
             fold_left
               (fun matches p =>
                  if Re.search (compiled p) text
                  then matches ++ [PyStr.strip_chars "\b" (source p)]
                  else matches)
               (map compile_modifier ms) init
             = init ++ map reported (List.filter (fun m => occurs m text) ms)) as Hloop.
  { induction ms as [|m ms IH]; intros init.
    - cbn. now rewrite app_nil_r.
    - cbn [map fold_left List.filter]. rewrite IH. unfold occurs at 2.
      destruct (Re.search (compiled (compile_modifier m)) text).
      + cbn [map]. now rewrite <- app_assoc.
      + reflexivity. }
  apply (Hloop modifiers []).
Qed.

Lemma is_word_lower_char (d : ascii) :
  PyStr.is_word (PyStr.lower_char d) = PyStr.is_word d.
Proof. destruct d as [[] [] [] [] [] [] [] []]; vm_compute; reflexivity. Qed.

Lemma is_word_same_letter (c d : ascii) :
  Ascii.eqb (PyStr.lower_char d) (PyStr.lower_char c) = true ->
  PyStr.is_word d = PyStr.is_word c.
Proof.
  intros E. apply Ascii.eqb_eq in E.
  rewrite <- (is_word_lower_char d), <- (is_word_lower_char c). now rewrite E.
Qed.

(** The pattern of a word read without regard to case consumes the
    word, and nothing else, from the head of the text. *)
Lemma run_str_i (w : string) :
  forall (c : ascii) (prev : option ascii) (n : nat) (s : string) (k : Re.cont),
    (behind (String c w) s = None /\ Re.run (Re.str_i (String c w)) prev n s k = None)
    \/ (exists rest d,
           behind (String c w) s = Some rest
           /\ word_char (Some d) = word_char (last_char (String c w))
           /\ Re.run (Re.str_i (String c w)) prev n s k
              = k (Some d) (n + String.length (String c w))%nat rest).
Proof.
  induction w as [|c' w IH]; intros c prev n s k.
  - destruct s as [|d s]; [left; split; reflexivity|].
    cbn [behind Re.str_i Re.chr_i Re.run].
    destruct (Ascii.eqb (PyStr.lower_char d) (PyStr.lower_char c)) eqn:E;
      [|left; split; reflexivity].
    right. exists s, d. split; [reflexivity|]. split.
    + cbn [last_char word_char]. exact (is_word_same_letter c d E).
    + cbn [String.length]. now replace (n + 1)%nat with (S n) by lia.
  - destruct s as [|d s]; [left; split; reflexivity|].
    change (Re.str_i (String c (String c' w)))
      with (Re.Cat (Re.chr_i c) (Re.str_i (String c' w))).
    cbn [behind Re.chr_i Re.run].
    destruct (Ascii.eqb (PyStr.lower_char d) (PyStr.lower_char c)) eqn:E;
      [|left; split; reflexivity].
    destruct (IH c' (Some d) (S n) s k) as [[Hb Hr]|(rest & d' & Hb & Hw & Hr)].
    + left. split; assumption.
    + right. exists rest, d'. split; [exact Hb|]. split; [exact Hw|].
      rewrite Hr. cbn [String.length]. f_equal. lia.
Qed.

Lemma behind_head (c : ascii) (w s rest : string) :
  behind (String c w) s = Some rest ->
  word_char (first_char s) = word_char (Some c).
Proof.
  destruct s as [|d s]; [discriminate|]. cbn [behind first_char word_char].
  destruct (Ascii.eqb (PyStr.lower_char d) (PyStr.lower_char c)) eqn:E;
    [|discriminate].
  intros _. exact (is_word_same_letter c d E).
Qed.

(** The pattern of a modifier matches at a position exactly where the
    modifier stands there as a whole word. *)
Lemma match_at_stands (m : string) (prev : option ascii) (s : string) :
  word_edged m = true ->
  Re.match_at (compiled (compile_modifier m)) prev s
  = if stands_at m prev s then Some (String.length m) else None.
Proof.
  intros Hedge. destruct m as [|c w]; [discriminate Hedge|].
  apply andb_prop in Hedge. destruct Hedge as [Hfirst Hlast].
  cbn [first_char] in Hfirst.
  unfold Re.match_at, stands_at.
  change (compiled (compile_modifier (String c w)))
    with (Re.Cat Re.Wb (Re.Cat (Re.str_i (String c w)) Re.Wb)).
  cbn [Re.run].
  change Re.is_word_opt with word_char. change Re.head with first_char.
  destruct (run_str_i w c prev 0 s
              (fun prev' n' s' =>
                 if xorb (word_char prev') (word_char (first_char s'))
                 then Some n' else None))
    as [[Hb Hr]|(rest & d & Hb & Hw & Hr)]; rewrite Hr, Hb.
  - rewrite andb_false_r. now destruct (xorb _ _).
  - rewrite (behind_head c w s rest Hb), Hfirst, Hw, Hlast.
    cbn [plus]. destruct (word_char prev), (word_char (first_char rest)); reflexivity.
Qed.

Lemma search_whole_word (m : string) (text : string) :
  word_edged m = true -> occurs m text = whole_word m text.
Proof.
  intros Hedge. unfold occurs, Re.search, whole_word.
  generalize (@None ascii) as prev.
  induction text as [|c text IH]; intros prev;
    cbn [Re.search_from whole_word_from];
    rewrite (match_at_stands m prev _ Hedge);
    destruct (stands_at m prev _); cbn [orb]; try reflexivity.
  apply IH.
Qed.

Lemma modifiers_word_edged (intent : SearchIntent) :
  forallb word_edged (modifiers_of intent) = true.
Proof. destruct intent; vm_compute; reflexivity. Qed.

Lemma reported_no_b (intent : SearchIntent) :
  forallb (fun m => negb (PyStr.startswith "b" m) && negb (PyStr.endswith_char "b" m)
                    && negb (PyStr.startswith "\" m))
          (map reported (modifiers_of intent)) = true.
Proof. destruct intent; vm_compute; reflexivity. Qed.

(** X15: the matched modifiers of an analysis are the modifiers of the
    primary intent that occur in the lowered and stripped query as whole
    words (somewhere in it the modifier stands, whatever the case, with
    no letter, digit or underscore next to it on either side), in list
    order, each under its reported text: the pattern source stripped of
    [\] and [b] at both ends.  So no reported modifier begins or ends
    with [b]: [buy] is reported as [uy] and [best] as [est]. *)
Theorem matched_modifiers_reported (q : string) :
  matched_modifiers (analyze_query q)
  = map reported
        (List.filter (fun m => whole_word m (normalized q))
                     (modifiers_of (primary_intent (analyze_query q))))
  /\ whole_word "buy" "where to buy tea" = true
  /\ whole_word "buy" "tea buyers guide" = false
  /\ whole_word "top" "laptop stand" = false
  /\ Forall (fun m => PyStr.startswith "b" m = false
                      /\ PyStr.endswith_char "b" m = false)
            (matched_modifiers (analyze_query q))
  /\ reported "buy" = "uy" /\ reported "best" = "est"
  /\ reported "subscribe" = "subscribe" /\ reported "sign in" = "sign\ in".
Proof.
  assert (matched_modifiers (analyze_query q)
          = map reported
              (List.filter (fun m => occurs m (normalized q))
                 (modifiers_of (primary_intent (analyze_query q))))) as Heq.
  { unfold analyze_query. cbv zeta. fold (normalized q).
    destruct (decide_intent _ _) as [p c].
    cbn [matched_modifiers primary_intent].
    unfold all_matches, intent_patterns, _compile_patterns. cbn [map].
    rewrite !matches_of_filter.
    destruct p; reflexivity. }
  rewrite (filter_ext_in (fun m => occurs m (normalized q))
             (fun m => whole_word m (normalized q))) in Heq.
  2:{ intros m Hm. apply search_whole_word.
      pose proof (modifiers_word_edged (primary_intent (analyze_query q))) as He.
      rewrite forallb_forall in He. exact (He m Hm). }
  split; [exact Heq|].
  split; [vm_compute; reflexivity|]. split; [vm_compute; reflexivity|].
  split; [vm_compute; reflexivity|].
  split; [|repeat split].
  rewrite Heq.
  pose proof (reported_no_b (primary_intent (analyze_query q))) as Hb.
  rewrite forallb_forall in Hb.
  apply List.Forall_forall. intros m Hm.
  assert (In m (map reported (modifiers_of (primary_intent (analyze_query q))))) as Hin.
  { apply in_map_iff in Hm. destruct Hm as (x & <- & Hx).
    apply in_map. apply List.filter_In in Hx. tauto. }
  specialize (Hb m Hin). clear -Hb.
  apply andb_prop in Hb. destruct Hb as [Hb _].
  apply andb_prop in Hb. destruct Hb as [H1 H2].
  apply negb_true_iff in H1, H2. split; assumption.
Qed.

End IntentExtras.

Section Distribution.

Import Measures.

Import UserIntentAnalyzer Reference.

Local Open Scope Q_scope.

Lemma tally_cons (i p : SearchIntent) (l : list SearchIntent) :
  tally i (p :: l) = ((if bool_decide (p = i) then 1 else 0) + tally i l)%Z.
Proof. unfold tally. cbn [count_where]. destruct (bool_decide (p = i)); lia. Qed.

Lemma incr_four (p : SearchIntent) (a b c d : Z) :
  incr [ (INFORMATIONAL, a); (NAVIGATIONAL, b); (COMMERCIAL, c); (TRANSACTIONAL, d) ] p
  = [ (INFORMATIONAL, (a + if bool_decide (p = INFORMATIONAL) then 1 else 0)%Z);
      (NAVIGATIONAL, (b + if bool_decide (p = NAVIGATIONAL) then 1 else 0)%Z);
      (COMMERCIAL, (c + if bool_decide (p = COMMERCIAL) then 1 else 0)%Z);
      (TRANSACTIONAL, (d + if bool_decide (p = TRANSACTIONAL) then 1 else 0)%Z) ].
Proof. destruct p; cbn; now rewrite !Z.add_0_r. Qed.

Lemma fold_incr (rs : list analysis) (a b c d : Z) :
  fold_left (fun dist result => incr dist (primary_intent result)) rs
    [ (INFORMATIONAL, a); (NAVIGATIONAL, b); (COMMERCIAL, c); (TRANSACTIONAL, d) ]
  = [ (INFORMATIONAL, (a + tally INFORMATIONAL (map primary_intent rs))%Z);
      (NAVIGATIONAL, (b + tally NAVIGATIONAL (map primary_intent rs))%Z);
      (COMMERCIAL, (c + tally COMMERCIAL (map primary_intent rs))%Z);
      (TRANSACTIONAL, (d + tally TRANSACTIONAL (map primary_intent rs))%Z) ].
Proof.
  revert a b c d. induction rs as [|r rs IH]; intros a b c d.
  - unfold tally. cbn. now rewrite !Z.add_0_r.
  - cbn [fold_left map]. generalize (primary_intent r) as p. intros p.
    rewrite !tally_cons, incr_four, IH.
    repeat match goal with
           | |- _ :: _ = _ :: _ => f_equal
           | |- (_, _) = (_, _) => f_equal
           end; lia.
Qed.

Lemma tally_total (intents : list SearchIntent) :
  (tally INFORMATIONAL intents + tally NAVIGATIONAL intents
   + tally COMMERCIAL intents + tally TRANSACTIONAL intents)%Z
  = Z.of_nat (length intents).
Proof.
  induction intents as [|p l IH]; [reflexivity|].
  rewrite !tally_cons. cbn [length].
  destruct p; repeat case_bool_decide; try discriminate; try congruence; lia.
Qed.

Lemma tally_range (intent : SearchIntent) (intents : list SearchIntent) :
  (0 <= tally intent intents <= Z.of_nat (length intents))%Z.
Proof.
  unfold tally. pose proof (count_where_le (fun i => bool_decide (i = intent)) intents).
  lia.
Qed.

Lemma percentage_range (count total : Z) :
  (0 <= count <= total)%Z -> (0 < total)%Z ->
  0 <= F64.round (F64.mul (F64.div_int count total) 100) 1 <= 100.
Proof.
  intros Hc Ht.
  pose proof (div_int_unit count total Hc Ht) as Hr.
  assert (0 <= F64.mul (F64.div_int count total) 100 <= 100) as [H1 H2].
  { apply mul_unit; [exact Hr|lra|vm_compute; discriminate]. }
  pose proof (round_mono _ _ 1 H1) as R1. pose proof (round_mono _ _ 1 H2) as R2.
  assert (F64.round 0 1 = 0) as E0 by (vm_compute; reflexivity).
  assert (F64.round 100 1 = 100) as E1 by (vm_compute; reflexivity).
  rewrite E0 in R1. rewrite E1 in R2. split; assumption.
Qed.

Lemma get_intent_distribution_eq (queries : list string) :
  queries <> [] ->
  let n := Z.of_nat (length queries) in
  let pct count := F64.round (F64.mul (F64.div_int count n) 100) 1 in
  let ti := tally INFORMATIONAL (intents_of queries) in
  let tn := tally NAVIGATIONAL (intents_of queries) in
  let tc := tally COMMERCIAL (intents_of queries) in
  let tt := tally TRANSACTIONAL (intents_of queries) in
  get_intent_distribution queries
  = Ok (Report n
          [ (INFORMATIONAL, ti); (NAVIGATIONAL, tn); (COMMERCIAL, tc); (TRANSACTIONAL, tt) ]
          [ (INFORMATIONAL, pct ti); (NAVIGATIONAL, pct tn);
            (COMMERCIAL, pct tc); (TRANSACTIONAL, pct tt) ]
          (default INFORMATIONAL
             (fst <$> PyStr.max_by snd
                        [ (INFORMATIONAL, ti); (NAVIGATIONAL, tn);
                          (COMMERCIAL, tc); (TRANSACTIONAL, tt) ]))).
Proof.
  intros Hne. cbv zeta. unfold get_intent_distribution. cbv zeta.
  rewrite fold_incr. unfold analyze_batch. rewrite map_map. fold (intents_of queries).
  rewrite !Z.add_0_l.
  assert (Z.of_nat (length queries) <> 0%Z) as Hn.
  { destruct queries; [congruence|cbn [length]; lia]. }
  assert (forall intent,
             F64.truediv (tally intent (intents_of queries))
                         (Z.of_nat (length queries))
             = Ok (F64.div_int (tally intent (intents_of queries))
                               (Z.of_nat (length queries)))) as Hdiv.
  { intros intent. apply truediv_unit; [|lia].
    pose proof (tally_range intent (intents_of queries)) as H.
    assert (length (intents_of queries) = length queries) as E
      by (unfold intents_of; apply length_map).
    rewrite E in H. exact H. }
  cbn [map_result bind]. rewrite !Hdiv. reflexivity.
Qed.

(** X16: for a batch with at least one query the distribution report is
    returned; it counts every query under its primary intent, the four
    counts add up to the number of queries, every percentage lies
    between 0 and 100, and the dominant intent is the first of the four
    with the highest count. *)
Theorem distribution_counts_queries (q0 : string) (rest : list string) :
  let queries := q0 :: rest in
  exists r,
    get_intent_distribution queries = Ok r
    /\ total_queries r = Z.of_nat (length queries)
    /\ distribution r
       = map (fun intent => (intent, tally intent (intents_of queries)))
             [ INFORMATIONAL; NAVIGATIONAL; COMMERCIAL; TRANSACTIONAL ]
    /\ sum (values (distribution r)) = total_queries r
    /\ map fst (percentages r) = [ INFORMATIONAL; NAVIGATIONAL; COMMERCIAL; TRANSACTIONAL ]
    /\ Forall (fun p => 0 <= snd p <= 100) (percentages r)
    /\ (forall j, (tally j (intents_of queries)
                   <= tally (dominant_intent r) (intents_of queries))%Z)
    /\ (forall j, (position j < position (dominant_intent r))%nat ->
                  (tally j (intents_of queries)
                   < tally (dominant_intent r) (intents_of queries))%Z).
Proof.
  cbv zeta. eexists. split; [apply get_intent_distribution_eq; discriminate|].
  cbn [total_queries distribution percentages dominant_intent map].
  pose proof (tally_total (intents_of (q0 :: rest))) as Htot.
  pose proof (tally_range INFORMATIONAL (intents_of (q0 :: rest))) as Ri.
  pose proof (tally_range NAVIGATIONAL (intents_of (q0 :: rest))) as Rn.
  pose proof (tally_range COMMERCIAL (intents_of (q0 :: rest))) as Rc.
  pose proof (tally_range TRANSACTIONAL (intents_of (q0 :: rest))) as Rt.
  unfold intents_of in Htot, Ri, Rn, Rc, Rt. rewrite length_map in Htot, Ri, Rn, Rc, Rt.
  fold (intents_of (q0 :: rest)) in Htot, Ri, Rn, Rc, Rt.
  assert (0 < Z.of_nat (length (q0 :: rest)))%Z as Hpos by (cbn [length]; lia).
  set (X := intents_of (q0 :: rest)) in *.
  split; [reflexivity|]. split; [reflexivity|].
  split; [unfold sum, values; cbn [fold_left map snd]; lia|].
  split; [reflexivity|].
  split; [repeat constructor; cbn [snd]; apply percentage_range; lia|].
  pose proof (max_by_four (tally INFORMATIONAL X) (tally NAVIGATIONAL X)
                (tally COMMERCIAL X) (tally TRANSACTIONAL X) _ eq_refl) as [M1 M2].
  cbv zeta in M1, M2.
  assert (forall j, tally j X
                    = match j with
                      | INFORMATIONAL => tally INFORMATIONAL X
                      | NAVIGATIONAL => tally NAVIGATIONAL X
                      | COMMERCIAL => tally COMMERCIAL X
                      | TRANSACTIONAL => tally TRANSACTIONAL X
                      end) as Hcount by (intros []; reflexivity).
  split.
  - intros j. rewrite (Hcount j), (Hcount (default _ _)). apply M1.
  - intros j Hj. rewrite (Hcount j), (Hcount (default _ _)). apply M2, Hj.
Qed.

Lemma tally_permutation (i : SearchIntent) (l l' : list SearchIntent) :
  Permutation l l' -> tally i l = tally i l'.
Proof.
  induction 1 as [|x l l' _ IH|x y l|l l' l'' _ IH1 _ IH2].
  - reflexivity.
  - now rewrite !tally_cons, IH.
  - rewrite !tally_cons. lia.
  - now rewrite IH1.
Qed.

(** X17: the distribution report does not depend on the order of the
    queries. *)
Theorem distribution_order_independent (queries queries' : list string) :
  Permutation queries queries' ->
  get_intent_distribution queries = get_intent_distribution queries'.
Proof.
  intros Hp. destruct queries as [|q qs].
  - apply Permutation_nil in Hp. now subst.
  - assert (queries' <> []) as Hne.
    { intros ->. apply Permutation_sym, Permutation_nil in Hp. discriminate. }
    rewrite (get_intent_distribution_eq (q :: qs)) by discriminate.
    rewrite (get_intent_distribution_eq queries') by exact Hne.
    cbv zeta.
    assert (forall i, tally i (intents_of (q :: qs)) = tally i (intents_of queries')) as Ht.
    { intros i. apply tally_permutation. unfold intents_of.
      now apply Permutation_map. }
    rewrite !Ht, (Permutation_length Hp). reflexivity.
Qed.

Lemma distribution_order_independent_witness :
  Permutation [ "buy shoes"; "how to tie laces" ] [ "how to tie laces"; "buy shoes" ]
  /\ get_intent_distribution [ "buy shoes"; "how to tie laces" ]
     = get_intent_distribution [ "how to tie laces"; "buy shoes" ].
Proof.
  split; [apply perm_swap|].
  apply (distribution_order_independent
           [ "buy shoes"; "how to tie laces" ] [ "how to tie laces"; "buy shoes" ]).
  apply perm_swap.
Defined.

End Distribution.

Section Normalization.

Import Measures.

Import UserIntentAnalyzer Reference.

Lemma lower_char_facts (c : ascii) :
  PyStr.lower_char (PyStr.lower_char c) = PyStr.lower_char c
  /\ PyStr.is_space (PyStr.lower_char c) = PyStr.is_space c.
Proof. destruct c as [[] [] [] [] [] [] [] []]; vm_compute; auto. Qed.

Lemma lower_idem (s : string) : PyStr.lower (PyStr.lower s) = PyStr.lower s.
Proof.
  induction s as [|c s IH]; [reflexivity|]. cbn [PyStr.lower].
  now rewrite IH, (proj1 (lower_char_facts c)).
Qed.

Lemma lstrip_lower (s : string) :
  PyStr.lstrip (PyStr.lower s) = PyStr.lower (PyStr.lstrip s).
Proof.
  induction s as [|c s IH]; [reflexivity|]. cbn [PyStr.lower PyStr.lstrip].
  rewrite (proj2 (lower_char_facts c)). destruct (PyStr.is_space c); [exact IH|reflexivity].
Qed.

Lemma rstrip_lower (s : string) :
  PyStr.rstrip (PyStr.lower s) = PyStr.lower (PyStr.rstrip s).
Proof.
  induction s as [|c s IH]; [reflexivity|]. cbn [PyStr.lower PyStr.rstrip].
  rewrite IH, (proj2 (lower_char_facts c)).
  destruct (PyStr.rstrip s); cbn [PyStr.lower]; [|reflexivity].
  destruct (PyStr.is_space c); reflexivity.
Qed.

Lemma rstrip_idem (s : string) : PyStr.rstrip (PyStr.rstrip s) = PyStr.rstrip s.
Proof.
  induction s as [|c s IH]; [reflexivity|]. cbn [PyStr.rstrip].
  destruct (PyStr.rstrip s) as [|d r] eqn:E.
  - destruct (PyStr.is_space c) eqn:Ec; [reflexivity|].
    cbn [PyStr.rstrip]. now rewrite Ec.
  - change (PyStr.rstrip (String c (String d r)))
      with (match PyStr.rstrip (String d r) with
            | EmptyString =>
                if PyStr.is_space c then EmptyString else String c EmptyString
            | r' => String c r'
            end).
    now rewrite IH.
Qed.

Lemma lstrip_fixed (s : string) :
  match s with
  | EmptyString => True
  | String c _ => PyStr.is_space c = false
  end ->
  PyStr.lstrip s = s.
Proof. destruct s as [|c s]; [reflexivity|]. cbn [PyStr.lstrip]. now intros ->. Qed.

Lemma lstrip_head (s : string) :
  match PyStr.lstrip s with
  | EmptyString => True
  | String c _ => PyStr.is_space c = false
  end.
Proof.
  induction s as [|c s IH]; [exact I|]. cbn [PyStr.lstrip].
  destruct (PyStr.is_space c) eqn:E; [exact IH|exact E].
Qed.

Lemma rstrip_head (s : string) :
  match s with
  | EmptyString => True
  | String c _ => PyStr.is_space c = false
  end ->
  match PyStr.rstrip s with
  | EmptyString => True
  | String c _ => PyStr.is_space c = false
  end.
Proof.
  destruct s as [|c s]; [intros _; exact I|]. intros Hc. cbn [PyStr.rstrip].
  destruct (PyStr.rstrip s); [rewrite Hc|]; exact Hc.
Qed.

Lemma strip_idem (s : string) : PyStr.strip (PyStr.strip s) = PyStr.strip s.
Proof.
  unfold PyStr.strip.
  rewrite (lstrip_fixed (PyStr.rstrip (PyStr.lstrip s)))
    by apply rstrip_head, lstrip_head.
  apply rstrip_idem.
Qed.

Lemma normalized_lower (q : string) : normalized (PyStr.lower q) = normalized q.
Proof. unfold normalized. now rewrite lower_idem. Qed.

Lemma normalized_strip (q : string) : normalized (PyStr.strip q) = normalized q.
Proof.
  unfold normalized, PyStr.strip at 2.
  rewrite <- rstrip_lower, <- lstrip_lower.
  fold (PyStr.strip (PyStr.lower q)). apply strip_idem.
Qed.

Lemma same_normalized (q q' : string) :
  normalized q = normalized q' -> same_verdict (analyze_query q) (analyze_query q').
Proof.
  intros H. unfold same_verdict, analyze_query. cbv zeta.
  fold (normalized q) (normalized q'). rewrite H.
  destruct (decide_intent _ _) as [p c]. repeat split.
Qed.

(** X18: the case of the letters and the whitespace around a query do
    not change its analysis: the query in lower case and the stripped
    query get the intent, confidence, scores, matched modifiers and
    recommendations of the query itself. *)
Theorem analysis_ignores_case_and_margin (q : string) :
  same_verdict (analyze_query (PyStr.lower q)) (analyze_query q)
  /\ same_verdict (analyze_query (PyStr.strip q)) (analyze_query q)
  /\ same_verdict (analyze_query (" " +:+ q)) (analyze_query q).
Proof.
  split; [apply same_normalized, normalized_lower|].
  split; [apply same_normalized, normalized_strip|].
  apply same_normalized. unfold normalized, PyStr.strip.
  cbn [String.append PyStr.lower PyStr.lstrip].
  reflexivity.
Qed.

End Normalization.

Section ModifierTable.

Import Measures.

Import UserIntentAnalyzer Reference.

Lemma modifier_table_ok (intent : SearchIntent) :
  forallb alone_ok (modifiers_of intent) = true.
Proof. destruct intent; vm_compute; reflexivity. Qed.

(** X19: a query that is exactly one modifier of the lists is classed
    under the first intent that lists it, in the order informational,
    navigational, commercial, transactional; its confidence is 1, or 0.5
    for the two modifiers listed under two intents. *)
Theorem modifier_alone (intent : SearchIntent) (modifier : string) :
  In modifier (modifiers_of intent) ->
  exists first rest,
    listed modifier = first :: rest
    /\ primary_intent (analyze_query modifier) = first
    /\ (confidence (analyze_query modifier)
        == F64.round (F64.div_int 1 (Z.of_nat (S (length rest)))) 2)%Q
    /\ (rest = [] -> first = intent)
    /\ (rest <> [] -> modifier = "vs" \/ modifier = "comparison").
Proof.
  intros Hin. pose proof (modifier_table_ok intent) as Hok.
  rewrite forallb_forall in Hok. specialize (Hok modifier Hin).
  unfold alone_ok in Hok.
  destruct (listed modifier) as [|first rest] eqn:El; [discriminate|].
  apply andb_prop in Hok. destruct Hok as [H1 H2].
  apply bool_decide_eq_true in H1. apply Qeq_bool_iff in H2.
  exists first, rest. split; [reflexivity|]. split; [exact H1|]. split; [exact H2|].
  clear H1 H2.
  assert (forallb (fun m =>
                     match listed m with
                     | [first'] => bool_decide (first' = intent)
                     | _ => String.eqb m "vs" || String.eqb m "comparison"
                     end) (modifiers_of intent) = true) as Ht
    by (destruct intent; vm_compute; reflexivity).
  rewrite forallb_forall in Ht. specialize (Ht modifier Hin). rewrite El in Ht.
  split.
  - intros ->. now apply bool_decide_eq_true in Ht.
  - intros Hne. destruct rest as [|second rest']; [congruence|].
    apply orb_prop in Ht. destruct Ht as [Ht|Ht]; apply String.eqb_eq in Ht; auto.
Qed.

Lemma modifier_alone_witness :
  In "coupon" (modifiers_of TRANSACTIONAL)
  /\ exists first rest,
       listed "coupon" = first :: rest
       /\ primary_intent (analyze_query "coupon") = first
       /\ (rest = [] -> first = TRANSACTIONAL).
Proof.
  assert (In "coupon" (modifiers_of TRANSACTIONAL)) as Hin by (cbn; tauto).
  split; [exact Hin|].
  destruct (modifier_alone TRANSACTIONAL "coupon" Hin) as (f & r & H1 & H2 & _ & H4 & _).
  exists f, r. split; [exact H1|]. split; [exact H2|exact H4].
Defined.

End ModifierTable.


(* ================================================================== *)
(** * Further properties of the quality checker *)
(* ================================================================== *)

Section QualityExtras.

Import Measures.

Import ContentQualityChecker.

Lemma vowel_groups_ge (word : string) (count : Z) (previous : bool) :
  (count <= vowel_groups word count previous)%Z.
Proof.
  revert count previous. induction word as [|c w IH]; intros count previous;
    cbn [vowel_groups]; [lia|].
  cbv zeta. etransitivity; [|apply IH].
  destruct (PyStr.mem_char c "aeiouy" && negb previous); lia.
Qed.

Lemma vowel_groups_le (word : string) (count : Z) (previous : bool) :
  (vowel_groups word count previous <= count + Z.of_nat (String.length word))%Z.
Proof.
  revert count previous. induction word as [|c w IH]; intros count previous;
    cbn [vowel_groups String.length]; [lia|].
  cbv zeta. etransitivity; [apply IH|].
  destruct (PyStr.mem_char c "aeiouy" && negb previous); lia.
Qed.

Lemma vowel_groups_final_e (word : string) (count : Z) :
  PyStr.endswith_char "e" word = true ->
  (count + 1 <= vowel_groups word count false)%Z.
Proof.
  revert count. induction word as [|c w IH]; intros count; [discriminate|].
  cbn [PyStr.endswith_char vowel_groups]. cbv zeta. destruct w as [|d w'].
  - intros H. apply Ascii.eqb_eq in H. subst c. cbn. lia.
  - intros H. destruct (PyStr.mem_char c "aeiouy") eqn:E; cbn [andb negb].
    + apply vowel_groups_ge.
    + apply IH, H.
Qed.

Lemma lower_length (s : string) : String.length (PyStr.lower s) = String.length s.
Proof.
  induction s as [|c w IH]; [reflexivity|]. cbn [PyStr.lower String.length].
  now rewrite IH.
Qed.

(** X20: every word counts for at least one syllable, also the empty
    word and a word without vowels, and for no more syllables than it
    has letters. *)
Theorem syllables_at_least_one (word : string) :
  (1 <= _count_syllables word <= Z.max 1 (Z.of_nat (String.length word)))%Z.
Proof.
  unfold _count_syllables. cbv zeta.
  pose proof (vowel_groups_ge (PyStr.lower word) 0 false) as Hge.
  pose proof (vowel_groups_le (PyStr.lower word) 0 false) as Hle.
  rewrite lower_length in Hle.
  destruct (PyStr.endswith_char "e" (PyStr.lower word)) eqn:E.
  - pose proof (vowel_groups_final_e _ 0 E) as He.
    destruct (Z.eqb_spec (vowel_groups (PyStr.lower word) 0 false - 1) 0); lia.
  - destruct (Z.eqb_spec (vowel_groups (PyStr.lower word) 0 false) 0); lia.
Qed.

Local Open Scope Q_scope.

Lemma of_int_range (n : Z) :
  (0 <= n <= 100)%Z -> 0 <= F64.of_int n <= 100.
Proof.
  intros Hn. unfold F64.of_int.
  apply (rnd_between _ 0 100); [|vm_compute; discriminate|vm_compute; discriminate].
  change 0 with (inject_Z 0). change 100 with (inject_Z 100).
  rewrite <- !Zle_Qle. exact Hn.
Qed.

Lemma weighted_average_range (readability : Q) (eeat seo completeness : Z) :
  0 <= readability <= 100 ->
  (0 <= eeat <= 100)%Z -> (0 <= seo <= 100)%Z -> (0 <= completeness <= 100)%Z ->
  0 <= weighted_average readability eeat seo completeness <= 100.
Proof.
  intros Hr He Hs Hc. unfold weighted_average.
  pose proof (of_int_range eeat He) as He'.
  pose proof (of_int_range seo Hs) as Hs'.
  pose proof (of_int_range completeness Hc) as Hc'.
  revert He' Hs' Hc'.
  generalize (F64.of_int eeat) as e. generalize (F64.of_int seo) as s.
  generalize (F64.of_int completeness) as c. intros c s e He' Hs' Hc'.
  assert (0 <= F64.lit (25 # 100) /\ 0 <= F64.lit (30 # 100) /\ 0 <= F64.lit (20 # 100))
    as (L1 & L2 & L3) by (vm_compute; repeat split; discriminate).
  assert (0 <= F64.mul readability (F64.lit (25 # 100)) <= 25) as M1.
  { unfold F64.mul. apply (rnd_between _ 0 (100 * F64.lit (25 # 100)));
      [nra|vm_compute; discriminate|vm_compute; discriminate]. }
  assert (0 <= F64.mul e (F64.lit (30 # 100)) <= 30) as M2.
  { unfold F64.mul. apply (rnd_between _ 0 (100 * F64.lit (30 # 100)));
      [nra|vm_compute; discriminate|vm_compute; discriminate]. }
  assert (0 <= F64.mul s (F64.lit (25 # 100)) <= 25) as M3.
  { unfold F64.mul. apply (rnd_between _ 0 (100 * F64.lit (25 # 100)));
      [nra|vm_compute; discriminate|vm_compute; discriminate]. }
  assert (0 <= F64.mul c (F64.lit (20 # 100)) <= 20) as M4.
  { unfold F64.mul. apply (rnd_between _ 0 (100 * F64.lit (20 # 100)));
      [nra|vm_compute; discriminate|vm_compute; discriminate]. }
  revert M1 M2 M3 M4.
  generalize (F64.mul readability (F64.lit (25 # 100))) as m1.
  generalize (F64.mul e (F64.lit (30 # 100))) as m2.
  generalize (F64.mul s (F64.lit (25 # 100))) as m3.
  generalize (F64.mul c (F64.lit (20 # 100))) as m4.
  intros m4 m3 m2 m1 M1 M2 M3 M4.
  assert (0 <= F64.add m1 m2 <= 55) as A1.
  { unfold F64.add. apply (rnd_between _ 0 55);
      [lra|vm_compute; discriminate|vm_compute; discriminate]. }
  assert (0 <= F64.add (F64.add m1 m2) m3 <= 80) as A2.
  { unfold F64.add at 1. apply (rnd_between _ 0 80);
      [lra|vm_compute; discriminate|vm_compute; discriminate]. }
  unfold F64.add at 1. apply (rnd_between _ 0 100);
    [lra|vm_compute; discriminate|vm_compute; discriminate].
Qed.

Lemma round1_range (x lo hi : Q) :
  lo <= x <= hi -> F64.round lo 1 <= F64.round x 1 <= F64.round hi 1.
Proof. intros [H1 H2]. split; apply round_mono; assumption. Qed.

Lemma weighted_score_range (content : string) (metadata : gmap string string) :
  0 <= weighted_average (calculate_readability content) (calculate_eeat_score content)
         (calculate_seo_score content metadata)
         (calculate_completeness content metadata) <= 100.
Proof.
  apply weighted_average_range;
    [apply readability_in_range|apply eeat_in_range|apply seo_in_range
    |apply completeness_in_range].
Qed.

Lemma round1_constants :
  F64.round 0 1 = 0 /\ F64.round 60 1 = 60 /\ F64.round 70 1 = 70
  /\ F64.round 80 1 = 80 /\ F64.round 90 1 = 90 /\ F64.round 100 1 = 100.
Proof. vm_compute. repeat split; reflexivity. Qed.

(** X21: the overall score that [check_content] returns lies between 0
    and 100, for every content and metadata. *)
Theorem overall_score_in_range (content : string)
    (metadata : option (gmap string string)) :
  0 <= overall_score (check_content content metadata) <= 100.
Proof.
  rewrite check_content_fields. cbv zeta. cbn [overall_score].
  pose proof (weighted_score_range content (default ∅ metadata)) as H.
  revert H. generalize (weighted_average (calculate_readability content)
                          (calculate_eeat_score content)
                          (calculate_seo_score content (default ∅ metadata))
                          (calculate_completeness content (default ∅ metadata))) as w.
  intros w H. pose proof (round1_range w 0 100 H) as R.
  destruct round1_constants as (E0 & _ & _ & _ & _ & E1).
  rewrite E0, E1 in R. exact R.
Qed.

(** X22: the overall score is never on the wrong side of the threshold
    of the grade by more than the rounding: with grade A it is at least
    90, with B between 80 and 90, with C between 70 and 80, with D between
    60 and 70, and with F at most 60. *)
Theorem grade_brackets_overall_score (content : string)
    (metadata : option (gmap string string)) :
  let r := check_content content metadata in
  (grade r = "A" /\ 90 <= overall_score r <= 100)
  \/ (grade r = "B" /\ 80 <= overall_score r <= 90)
  \/ (grade r = "C" /\ 70 <= overall_score r <= 80)
  \/ (grade r = "D" /\ 60 <= overall_score r <= 70)
  \/ (grade r = "F" /\ 0 <= overall_score r <= 60).
Proof.
  cbv zeta. rewrite check_content_fields. cbv zeta. cbn [overall_score grade].
  pose proof (weighted_score_range content (default ∅ metadata)) as [W0 W1].
  revert W0 W1.
  generalize (weighted_average (calculate_readability content)
                (calculate_eeat_score content)
                (calculate_seo_score content (default ∅ metadata))
                (calculate_completeness content (default ∅ metadata))) as w.
  intros w W0 W1.
  destruct round1_constants as (E0 & E6 & E7 & E8 & E9 & E10).
  pose proof (fun lo H => round_mono lo w 1 H) as Rlo.
  pose proof (fun hi H => round_mono w hi 1 H) as Rhi.
  pose proof (Rlo 0 W0) as R0. pose proof (Rhi 100 W1) as R100.
  rewrite E0 in R0. rewrite E10 in R100.
  destruct (get_grade_cases w) as [[H ->]|[(H1 & H2 & ->)|[(H1 & H2 & ->)|[(H1 & H2 & ->)|[H ->]]]]].
  - left. split; [reflexivity|]. specialize (Rlo 90 H). rewrite E9 in Rlo. lra.
  - right; left. split; [reflexivity|].
    specialize (Rlo 80 H1). specialize (Rhi 90 (Qlt_le_weak _ _ H2)).
    rewrite E8 in Rlo. rewrite E9 in Rhi. lra.
  - right; right; left. split; [reflexivity|].
    specialize (Rlo 70 H1). specialize (Rhi 80 (Qlt_le_weak _ _ H2)).
    rewrite E7 in Rlo. rewrite E8 in Rhi. lra.
  - right; right; right; left. split; [reflexivity|].
    specialize (Rlo 60 H1). specialize (Rhi 70 (Qlt_le_weak _ _ H2)).
    rewrite E6 in Rlo. rewrite E7 in Rhi. lra.
  - right; right; right; right. split; [reflexivity|].
    specialize (Rhi 60 (Qlt_le_weak _ _ H)). rewrite E6 in Rhi. lra.
Qed.

End QualityExtras.

Section TextPieces.

Import Measures.

Import ContentQualityChecker.

Lemma prefix_to_cons (j : nat) (c : ascii) (s : string) :
  PyStr.prefix_to (S j) (String c s) = String c (PyStr.prefix_to j s).
Proof. reflexivity. Qed.

Lemma rep_greedy_prefix (p : ascii -> bool) (k : Re.cont) (m : nat) (s : string) :
  (forall prev' n' s', k prev' n' s' = Some m -> m = n') ->
  forall lo hi prev n,
    Re.rep_greedy p lo hi prev n s k = Some m ->
    exists j, m = n + j /\ lo <= j
              /\ all_chars p (PyStr.prefix_to j s) = true
              /\ String.length (PyStr.prefix_to j s) = j.
Proof.
  intros Hk. induction s as [|c s IH]; intros lo hi prev n; cbn [Re.rep_greedy]; cbv zeta.
  - destruct lo; [|discriminate]. intros H. apply Hk in H. exists 0.
    repeat split; [lia|lia].
  - assert (match lo with
            | 0 => k prev n (String c s)
            | S _ => None
            end = Some m ->
            exists j, m = n + j /\ lo <= j
                      /\ all_chars p (PyStr.prefix_to j (String c s)) = true
                      /\ String.length (PyStr.prefix_to j (String c s)) = j) as Hstop.
    { destruct lo; [|discriminate]. intros H. apply Hk in H. exists 0.
      repeat split; [lia|lia]. }
    destruct (p c && Re.room hi) eqn:E; [|exact Hstop].
    destruct (Re.rep_greedy p (pred lo) (Re.dec hi) (Some c) (S n) s k) as [m'|] eqn:Er;
      cbn [Re.or_else]; [|exact Hstop].
    intros [= ->]. destruct (IH _ _ _ _ Er) as (j & -> & Hlo & Hall & Hlen).
    exists (S j). rewrite prefix_to_cons. cbn [all_chars String.length].
    apply andb_prop in E. destruct E as [-> _]. rewrite Hall, Hlen.
    repeat split; lia.
Qed.

Lemma word_match (prev : option ascii) (s : string) (m : nat) :
  Re.match_at word_re prev s = Some m ->
  PyStr.prefix_to m s <> EmptyString
  /\ all_chars PyStr.is_ascii_alpha (PyStr.prefix_to m s) = true.
Proof.
  unfold Re.match_at, word_re, Re.plus. cbn [Re.run].
  destruct (xorb _ _); [|discriminate].
  intros H. apply rep_greedy_prefix in H.
  - destruct H as (j & -> & Hj & Hall & Hlen). cbn [Nat.add]. split; [|exact Hall].
    intros E. rewrite E in Hlen. cbn in Hlen. lia.
  - intros prev' n' s'. destruct (xorb _ _); [|discriminate]. congruence.
Qed.

(** X23: every word that [_split_words] returns is a non-empty run of
    ASCII letters. *)
Theorem split_words_are_letters (text : string) :
  Forall (fun w => w <> EmptyString /\ all_chars PyStr.is_ascii_alpha w = true)
         (_split_words text).
Proof.
  unfold _split_words, Re.findall. generalize 0 as skip. generalize (@None ascii) as prev.
  induction text as [|c s IH]; intros prev skip; cbn [Re.findall_from]; [constructor|].
  destruct skip as [|j]; [|apply IH].
  destruct (Re.match_at word_re prev (String c s)) as [m|] eqn:E; [|apply IH].
  constructor; [exact (word_match _ _ _ E)|apply IH].
Qed.

Lemma rep_greedy_total (p : ascii -> bool) (s : string) :
  forall hi prev n,
    Re.rep_greedy p 0 hi prev n s (fun _ n' _ => Some n') <> None.
Proof.
  induction s as [|c s IH]; intros hi prev n; cbn [Re.rep_greedy]; cbv zeta; [discriminate|].
  destruct (p c && Re.room hi); [|discriminate].
  destruct (Re.rep_greedy p (pred 0) (Re.dec hi) (Some c) (S n) s
              (fun _ n' _ => Some n')); discriminate.
Qed.

Lemma sentence_end_fails (prev : option ascii) (c : ascii) (s : string) :
  Re.match_at sentence_end_re prev (String c s) = None -> is_terminator c = false.
Proof.
  unfold Re.match_at, sentence_end_re, Re.plus. cbn [Re.run Re.rep_greedy]. cbv zeta.
  fold (is_terminator c). destruct (is_terminator c); [|reflexivity].
  cbn [andb Re.room pred Re.dec].
  pose proof (rep_greedy_total
                (fun c0 => Ascii.eqb c0 "." || Ascii.eqb c0 "!" || Ascii.eqb c0 "?")
                s None (Some c) 1) as Ht.
  destruct (Re.rep_greedy _ 0 None (Some c) 1 s _); [discriminate|contradiction].
Qed.

Lemma split_pieces_plain (text : string) :
  forall skip prev,
    Forall (fun piece => all_chars (fun c => negb (is_terminator c)) piece = true)
           (Re.split_from sentence_end_re skip prev text).
Proof.
  induction text as [|c s IH]; intros skip prev; cbn [Re.split_from].
  - repeat constructor.
  - destruct skip as [|j]; [|apply IH].
    destruct (Re.match_at sentence_end_re prev (String c s)) eqn:E.
    + constructor; [reflexivity|apply IH].
    + apply sentence_end_fails in E. specialize (IH 0 (Some c)).
      destruct (Re.split_from sentence_end_re 0 (Some c) s) as [|piece pieces].
      * repeat constructor. cbn [all_chars]. now rewrite E.
      * inversion IH as [|? ? Hp Hps]; subst. constructor; [|exact Hps].
        cbn [all_chars]. now rewrite E, Hp.
Qed.

Lemma all_chars_lstrip (p : ascii -> bool) (s : string) :
  all_chars p s = true -> all_chars p (PyStr.lstrip s) = true.
Proof.
  induction s as [|c s IH]; [auto|]. cbn [PyStr.lstrip all_chars]. intros H.
  apply andb_prop in H. destruct H as [Hc Hs].
  destruct (PyStr.is_space c); [apply IH, Hs|]. cbn [all_chars]. now rewrite Hc, Hs.
Qed.

Lemma all_chars_rstrip (p : ascii -> bool) (s : string) :
  all_chars p s = true -> all_chars p (PyStr.rstrip s) = true.
Proof.
  induction s as [|c s IH]; [auto|]. cbn [PyStr.rstrip all_chars]. intros H.
  apply andb_prop in H. destruct H as [Hc Hs]. specialize (IH Hs).
  destruct (PyStr.rstrip s).
  - destruct (PyStr.is_space c); [reflexivity|]. cbn [all_chars]. now rewrite Hc.
  - cbn [all_chars] in *. now rewrite Hc, IH.
Qed.

(** X24: every sentence that [_split_sentences] returns is non-empty,
    has no whitespace at its ends and holds none of the characters
    [.], [!] and [?]. *)
Theorem split_sentences_are_trimmed (text : string) :
  Forall (fun s => s <> EmptyString
                   /\ PyStr.strip s = s
                   /\ all_chars (fun c => negb (is_terminator c)) s = true)
         (_split_sentences text).
Proof.
  unfold _split_sentences. cbv zeta. apply List.Forall_forall. intros s Hs.
  apply in_map_iff in Hs. destruct Hs as (piece & <- & Hin).
  apply list_elem_of_In, list_elem_of_filter in Hin. destruct Hin as [Hne Hin].
  split; [|split].
  - intros E. rewrite E in Hne. exact Hne.
  - apply strip_idem.
  - unfold PyStr.strip. apply all_chars_rstrip, all_chars_lstrip.
    pose proof (split_pieces_plain text 0 None) as Hall.
    rewrite List.Forall_forall in Hall. apply Hall. now apply list_elem_of_In.
Qed.

End TextPieces.

Section QualityAdvice.

Import Measures.

Import ContentQualityChecker.

Lemma plain_app (l1 l2 : list string) :
  Forall plain_advice l1 -> Forall plain_advice l2 -> Forall plain_advice (l1 ++ l2).
Proof. intros H1 H2. apply Forall_app. split; assumption. Qed.

Ltac plain_leaf :=
  repeat (apply plain_app; [|repeat constructor; cbn [plain_advice String.append];
                             discriminate]).

Ltac split_ifs :=
  repeat match goal with
         | |- context [if ?c then _ else _] => destruct c
         end.

Tactic Notation "pull_let" constr(P) ident(n) :=
  lazymatch goal with
  | |- P (let x := ?a in @?b x) =>
      change (let x := a in P (b x)); cbv beta; intro n
  end.

Lemma generate_recommendations_elim (P : list string -> Prop)
    (readability : Q) (eeat seo completeness : Z)
    (content : string) (metadata : gmap string string) :
  (forall r4,
      Forall plain_advice r4 ->
      (F64.ltb readability 70 = true \/ (eeat <? 70)%Z = true -> r4 <> []) ->
      (F64.ltb readability 70 = false -> (eeat <? 70)%Z = false ->
       (seo <? 70)%Z = false -> (completeness <? 70)%Z = false -> r4 = []) ->
      P (match r4 with
         | [] => [praise]
         | _ => r4
         end)) ->
  P (_generate_recommendations readability eeat seo completeness content metadata).
Proof.
  intros HP. cbv beta delta [_generate_recommendations].
  pull_let P recommendations. pull_let P recommendations0.
  pull_let P recommendations1. pull_let P recommendations2.
  pull_let P recommendations3.
  apply HP.
  - assert (Forall plain_advice recommendations0) as P1.
    { unfold recommendations0, recommendations. split_ifs;
        repeat constructor; cbn [plain_advice]; discriminate. }
    assert (Forall plain_advice recommendations1) as P2.
    { unfold recommendations1. split_ifs; plain_leaf; exact P1. }
    assert (Forall plain_advice recommendations2) as P3.
    { unfold recommendations2. cbv zeta. split_ifs; plain_leaf; exact P2. }
    unfold recommendations3. cbv zeta. split_ifs; plain_leaf; exact P3.
  - intros H.
    assert (recommendations1 <> []) as N2.
    { unfold recommendations1, recommendations0, recommendations.
      destruct H as [-> | ->]; split_ifs; discriminate. }
    assert (recommendations2 <> []) as N3.
    { unfold recommendations2. cbv zeta. clearbody recommendations1.
      split_ifs; try exact N2; intros E;
        repeat (apply app_eq_nil in E; destruct E as [E _]); contradiction. }
    unfold recommendations3. cbv zeta. clearbody recommendations2.
    split_ifs; try exact N3; intros E;
      repeat (apply app_eq_nil in E; destruct E as [E _]); contradiction.
  - intros H1 H2 H3 H4.
    unfold recommendations3, recommendations2, recommendations1, recommendations0,
      recommendations.
    rewrite H1, H2, H3, H4. reflexivity.
Qed.

Lemma generate_recommendations_cases (readability : Q) (eeat seo completeness : Z)
    (content : string) (metadata : gmap string string) :
  let recs :=
    _generate_recommendations readability eeat seo completeness content metadata in
  recs <> []
  /\ (F64.ltb readability 70 = false -> (eeat <? 70)%Z = false ->
      (seo <? 70)%Z = false -> (completeness <? 70)%Z = false ->
      recs = [praise])
  /\ (F64.ltb readability 70 = true \/ (eeat <? 70)%Z = true -> ~ In praise recs).
Proof.
  cbv zeta.
  apply (generate_recommendations_elim
           (fun recs =>
              recs <> []
              /\ (F64.ltb readability 70 = false -> (eeat <? 70)%Z = false ->
                  (seo <? 70)%Z = false -> (completeness <? 70)%Z = false ->
                  recs = [praise])
              /\ (F64.ltb readability 70 = true \/ (eeat <? 70)%Z = true ->
                  ~ In praise recs))).
  intros r4 Hplain Hne Hnil. split; [destruct r4; discriminate|]. split.
  - intros H1 H2 H3 H4. now rewrite (Hnil H1 H2 H3 H4).
  - intros H. specialize (Hne H). destruct r4 as [|a l]; [congruence|].
    intros Hin. rewrite List.Forall_forall in Hplain.
    specialize (Hplain praise Hin). cbn in Hplain. congruence.
Qed.

(** X25: [check_content] always returns at least one recommendation.
    When the four sub-scores are 70 or more it is the single line of
    praise; when the readability or the E-E-A-T score is below 70 the
    praise is not among the recommendations. *)
Theorem quality_recommendations (content : string)
    (metadata : option (gmap string string)) :
  let r := check_content content metadata in
  let m := default ∅ metadata in
  recommendations r <> []
  /\ (if negb (F64.ltb (calculate_readability content) 70)
         && (70 <=? calculate_eeat_score content)%Z
         && (70 <=? calculate_seo_score content m)%Z
         && (70 <=? calculate_completeness content m)%Z
      then recommendations r = [praise]
      else True)
  /\ (if F64.ltb (calculate_readability content) 70
         || (calculate_eeat_score content <? 70)%Z
      then ~ In praise (recommendations r)
      else True).
Proof.
  cbv zeta. rewrite check_content_fields. cbv zeta. cbn [recommendations].
  destruct (generate_recommendations_cases
              (calculate_readability content) (calculate_eeat_score content)
              (calculate_seo_score content (default ∅ metadata))
              (calculate_completeness content (default ∅ metadata))
              content (default ∅ metadata)) as (H1 & H2 & H3).
  cbv zeta in H1, H2, H3.
  split; [exact H1|]. split.
  - destruct (F64.ltb (calculate_readability content) 70) eqn:E1; cbn [negb andb]; [exact I|].
    destruct (Z.leb_spec 70 (calculate_eeat_score content)); cbn [andb]; [|exact I].
    destruct (Z.leb_spec 70 (calculate_seo_score content (default ∅ metadata)));
      cbn [andb]; [|exact I].
    destruct (Z.leb_spec 70 (calculate_completeness content (default ∅ metadata)));
      [|exact I].
    apply H2; [reflexivity| | |]; apply Z.ltb_ge; assumption.
  - destruct (F64.ltb (calculate_readability content) 70) eqn:E1; cbn [orb].
    + apply H3. now left.
    + destruct (calculate_eeat_score content <? 70)%Z eqn:E2; [|exact I].
      apply H3. now right.
Qed.

End QualityAdvice.

Section NoWords.

Import Measures.

Import ContentQualityChecker.

Lemma word_needs_letter (prev : option ascii) (s : string) :
  match s with
  | EmptyString => True
  | String c _ => PyStr.is_ascii_alpha c = false
  end ->
  Re.match_at word_re prev s = None.
Proof.
  unfold Re.match_at, word_re, Re.plus. cbn [Re.run].
  destruct (xorb _ _); [|reflexivity].
  destruct s as [|c s]; cbn [Re.rep_greedy]; cbv zeta; [reflexivity|].
  now intros ->.
Qed.

Lemma no_letters_no_words (text : string) :
  all_chars (fun c => negb (PyStr.is_ascii_alpha c)) text = true ->
  _split_words text = [].
Proof.
  unfold _split_words, Re.findall. generalize 0 as skip. generalize (@None ascii) as prev.
  induction text as [|c s IH]; intros prev skip H; cbn [Re.findall_from]; [reflexivity|].
  cbn [all_chars] in H. apply andb_prop in H. destruct H as [Hc Hs].
  apply negb_true_iff in Hc.
  destruct skip as [|j]; [|apply IH, Hs].
  rewrite word_needs_letter by exact Hc. apply IH, Hs.
Qed.

Lemma readability_without_words (content : string) :
  _split_words content = [] -> calculate_readability content = 0%Q.
Proof.
  intros H. unfold calculate_readability. cbv zeta. rewrite H.
  destruct (_split_sentences content); reflexivity.
Qed.

(** X26: a content without ASCII letters has no words, and its
    readability is 0 whatever its metadata. *)
Theorem readability_needs_letters (content : string)
    (metadata : option (gmap string string)) :
  all_chars (fun c => negb (PyStr.is_ascii_alpha c)) content = true ->
  _split_words content = []
  /\ calculate_readability content = 0%Q
  /\ readability_score (check_content content metadata) = 0%Q.
Proof.
  intros H. pose proof (no_letters_no_words content H) as Hw.
  pose proof (readability_without_words content Hw) as Hr.
  split; [exact Hw|]. split; [exact Hr|].
  rewrite check_content_fields. cbv zeta. cbn [readability_score]. rewrite Hr.
  reflexivity.
Qed.

Lemma readability_needs_letters_witness :
  all_chars (fun c => negb (PyStr.is_ascii_alpha c)) "2024: 100% !!!" = true
  /\ _split_words "2024: 100% !!!" = []
  /\ calculate_readability "2024: 100% !!!" = 0%Q.
Proof.
  split; [reflexivity|].
  destruct (readability_needs_letters "2024: 100% !!!" None eq_refl) as (H1 & H2 & _).
  split; [exact H1|exact H2].
Defined.

End NoWords.
